(** * A shallow embedding of the bond trading-system pipeline

    The development follows the C++ sources of the trading system
    (functions.hpp, marketdataservice.hpp, algoexecutionservice.hpp,
    executionservice.hpp, tradebookingservice.hpp, positionservice.hpp,
    riskservice.hpp, inquiryservice.hpp, pricingservice.hpp,
    algostreamingservice.hpp, streamingservice.hpp, GUIservice.hpp,
    historicaldataservice.hpp, datagen.hpp and the wiring of main.cpp).  Each
    service becomes a record of its
    private members, each member function a pure function that threads the
    record; a member function that writes to an argument it takes by
    reference also returns that argument.  An exception or an undefined
    access is the [None] of [option].

    Listener callbacks are observed through a trace: every
    [listener->ProcessAdd(data)] appends the pair of the listener's position in
    the [listeners] vector and a snapshot of [data] at the time of the call.
    All listeners of the repository read the record they receive and never
    write to it, so the record itself is unchanged by a fan-out. *)

From Stdlib Require Import ZArith QArith Qcanon Qround Ascii String Lia.
From stdpp Require Import gmap strings list fin_maps numbers.

Local Open Scope Z_scope.

(** ** The C++ value model *)

Module Cxx.

(** [long] is a 64-bit two's complement integer.  Signed overflow is
    undefined in C++; the model takes the wrap-around every supported target
    shows, and the theorems say where a result is in range. *)
Abbreviation long := Z.
Definition LONG_MIN : Z := - 2 ^ 63.
Definition LONG_MAX : Z := 2 ^ 63 - 1.
Definition in_long (z : Z) : Prop := LONG_MIN <= z <= LONG_MAX.

Definition long_wrap (z : Z) : long := (z + 2 ^ 63) mod 2 ^ 64 - 2 ^ 63.
Definition long_add (a b : long) : long := long_wrap (a + b).
Definition long_neg (a : long) : long := long_wrap (- a).

Definition long_mul (a b : long) : long := long_wrap (a * b).

(** [a % b] truncates towards zero, as [Z.rem] does. *)
Definition long_rem (a b : long) : long := Z.rem a b.

(** [double] values are modelled by the rational they denote, in canonical
    form, and arithmetic on them is exact.  Every price on the 1/256 grid
    below 1000 is a dyadic rational of at most 18 significant bits, on which
    binary64 arithmetic is exact as well; rounding of other values (the PV01
    factors) is outside the model, as are infinities and NaN. *)
Abbreviation double := Qc.

Definition double_of_Z (z : Z) : double := Q2Qc (inject_Z z).

(** [floor] and [round] of <cmath>: both return an integer-valued double;
    [round] rounds halfway cases away from zero. *)
Definition floor (x : double) : double := double_of_Z (Qfloor x).

Definition round (x : double) : double :=
  if Qle_bool 0 x
  then double_of_Z (Qfloor (x + Q2Qc (1 # 2))%Qc)
  else double_of_Z (- Qfloor (- x + Q2Qc (1 # 2))%Qc).

(** Conversion of a double to [int] discards the fractional part. *)
Definition int_of_double (x : double) : Z :=
  if Qle_bool 0 x then Qfloor x else - Qfloor (- x)%Qc.

(** *** Characters and strings *)

Definition is_digit (c : ascii) : bool :=
  (48 <=? nat_of_ascii c)%nat && (nat_of_ascii c <=? 57)%nat.

Definition digit_val (c : ascii) : Z := Z.of_nat (nat_of_ascii c) - 48.

Definition digit_char (d : Z) : ascii := ascii_of_nat (48 + Z.to_nat d).

(** [isspace] in the C locale. *)
Definition is_space (c : ascii) : bool :=
  let n := nat_of_ascii c in
  (n =? 32)%nat || ((9 <=? n)%nat && (n <=? 13)%nat).

(** [std::to_string] on an integer: decimal digits, most significant first,
    with a leading minus sign for a negative number.  Twenty digits hold any
    64-bit value. *)
Fixpoint to_string_digits (fuel : nat) (n : Z) (acc : string) : string :=
  match fuel with
  | O => acc
  | S fuel' =>
      let acc' := String (digit_char (n mod 10)) acc in
      if n <? 10 then acc' else to_string_digits fuel' (n / 10) acc'
  end.

Definition to_string (n : Z) : string :=
  if n <? 0
  then String "-" (to_string_digits 20 (- n) "")
  else to_string_digits 20 n "".

(** [std::string::find(char)]: position of the first occurrence. *)
Fixpoint find (c : ascii) (s : string) : option nat :=
  match s with
  | EmptyString => None
  | String d r => if Ascii.eqb d c then Some O else S <$> find c r
  end.

(** [substr(pos, len)] for [pos <= size()]; [String.substring] clamps the
    length in the same way. *)
Definition substr (pos len : nat) (s : string) : string := substring pos len s.

(** Leading decimal digits of a string: their value (continuing from
    [acc]), how many were read, and the unread rest. *)
Fixpoint read_digits (s : string) (acc : Z) (n : nat) : Z * nat * string :=
  match s with
  | EmptyString => (acc, n, s)
  | String c r =>
      if is_digit c then read_digits r (acc * 10 + digit_val c) (S n)
      else (acc, n, s)
  end.

Fixpoint skip_space (s : string) : string :=
  match s with
  | String c r => if is_space c then skip_space r else s
  | EmptyString => s
  end.

Definition read_sign (s : string) : bool * string :=
  match s with
  | String "-" r => (true, r)
  | String "+" r => (false, r)
  | _ => (false, s)
  end.

(** [std::stod]: leading white space, an optional sign, decimal digits with
    an optional fraction; characters after the number are ignored.
    [None] is the [invalid_argument] thrown when no digit can be read.
    Exponents, hexadecimal literals, "inf" and "nan" are not modelled. *)
Definition stod (s : string) : option double :=
  let '(neg, s1) := read_sign (skip_space s) in
  let '(ip, ni, r) := read_digits s1 0 0 in
  let '(fp, nf, _) :=
    match r with
    | String "." r1 => read_digits r1 0 0
    | _ => (0, O, r)
    end in
  if (ni + nf =? 0)%nat then None
  else
    let v := (double_of_Z ip + double_of_Z fp / double_of_Z (10 ^ Z.of_nat nf))%Qc in
    Some (if neg then (- v)%Qc else v).

(** [std::stol] in base 10: [None] is [invalid_argument] (no digit) or
    [out_of_range]. *)
Definition stol (s : string) : option long :=
  let '(neg, s1) := read_sign (skip_space s) in
  let '(v, n, _) := read_digits s1 0 0 in
  if (n =? 0)%nat then None
  else
    let r := if neg then - v else v in
    if (LONG_MIN <=? r) && (r <=? LONG_MAX) then Some r else None.

(** The loop [while (getline(ss, attribute, ',')) lineVec.push_back(attribute)]:
    the last [getline] fails when it reaches the end without having
    extracted a character, so an empty final field is not pushed. *)
Fixpoint getline_fields (s : string) (cur : string) : list string :=
  match s with
  | EmptyString => if String.eqb cur "" then [] else [cur]
  | String c r =>
      if Ascii.eqb c ","
      then cur :: getline_fields r ""
      else getline_fields r (cur ++ String c "")
  end.

(** [std::map::insert] keeps an existing entry. *)
Definition map_insert {V} (k : string) (v : V) (m : gmap string V) : gmap string V :=
  match m !! k with
  | Some _ => m
  | None => <[k := v]> m
  end.

End Cxx.

Export Cxx.

(** ** products.hpp *)

Module Products.

(** Modelled from the spec: products.hpp is not among the sources.  A bond
    is immutable and carries its identifier, the kind of identifier, the
    ticker, the coupon and the maturity date; [GetProductId] returns the
    identifier. *)
Inductive BondIdType := CUSIP | ISIN.

Record Bond := mkBond {
  productId : string;
  bondIdType : BondIdType;
  ticker : string;
  coupon : double;
  maturityDate : string
}.

Definition GetProductId (b : Bond) : string := productId b.

End Products.

Export Products.

(** ** functions.hpp *)

Module Functions.

(** [convertPrice(const string&)]: fractional notation to decimal.  The
    branch on ["+"] evaluates the comparison [dec2 == "4"] and discards it,
    so [dec2] reaches [stod] as it was read. *)
Definition convertPrice_of_string (priceStr : string) : option double :=
  match find "-" priceStr with
  | None => None
  | Some dashPos =>
      if (String.length priceStr <? dashPos + 3)%nat then None
      else
        let intpart := substr 0 dashPos priceStr in
        let dec1 := substr (dashPos + 1) 2 priceStr in
        let dec2 := substr (dashPos + 3) 1 priceStr in
        let dec2 := if String.eqb dec2 "+" then (let _ := String.eqb dec2 "4" in dec2) else dec2 in
        a ← stod intpart;
        b ← stod dec1;
        c ← stod dec2;
        Some (a + b * 1 / Q2Qc (32 # 1) + c * 1 / Q2Qc (256 # 1))%Qc
  end.

(** [convertPrice(double)]: decimal to fractional notation. *)
Definition convertPrice_of_double (price : double) : string :=
  let intPart := int_of_double (floor price) in
  let fractionalPart := (price - double_of_Z intPart)%Qc in
  let totalTicks := int_of_double (floor (round (fractionalPart * Q2Qc (256 # 1))%Qc)) in
  let xy := Z.quot totalTicks 8 in
  let z := Z.rem totalTicks 8 in
  (to_string intPart ++ "-" ++ (if (xy <? 10)%Z then "0" else "") ++ to_string xy ++ to_string z)%string.

Definition decimal (n d : Z) : double := (double_of_Z n / double_of_Z d)%Qc.

(** [getProductObject<Bond>]: [None] is the [invalid_argument] for an
    unknown CUSIP. *)
Definition getProductObject (cusip : string) : option Bond :=
  if String.eqb cusip "9128283H1" then
    Some (mkBond "9128283H1" CUSIP "US2Y" (decimal 1750 100000) "2025/12/30")
  else if String.eqb cusip "9128283L2" then
    Some (mkBond "9128283L2" CUSIP "US3Y" (decimal 1875 100000) "2026/12/30")
  else if String.eqb cusip "912828M80" then
    Some (mkBond "912828M80" CUSIP "US5Y" (decimal 2000 100000) "2028/12/30")
  else if String.eqb cusip "9128283J7" then
    Some (mkBond "9128283J7" CUSIP "US7Y" (decimal 2125 100000) "2030/12/30")
  else if String.eqb cusip "9128283F5" then
    Some (mkBond "9128283F5" CUSIP "US10Y" (decimal 2250 100000) "2033/12/30")
  else if String.eqb cusip "912810TW8" then
    Some (mkBond "912810TW8" CUSIP "US20Y" (decimal 2500 100000) "2043/12/30")
  else if String.eqb cusip "912810RZ3" then
    Some (mkBond "912810RZ3" CUSIP "US30Y" (decimal 2750 100000) "2053/12/30")
  else None.

(** [getPV01]: the static PV01 table, 0 for any other identifier. *)
Definition getPV01 (_cusip : string) : double :=
  let _pv01 := Q2Qc 0 in
  let _pv01 := if String.eqb _cusip "9128283H1" then decimal 1948992 100000000 else _pv01 in
  let _pv01 := if String.eqb _cusip "9128283L2" then decimal 2865304 100000000 else _pv01 in
  let _pv01 := if String.eqb _cusip "912828M80" then decimal 4581119 100000000 else _pv01 in
  let _pv01 := if String.eqb _cusip "9128283J7" then decimal 6127718 100000000 else _pv01 in
  let _pv01 := if String.eqb _cusip "9128283F5" then decimal 8161449 100000000 else _pv01 in
  let _pv01 := if String.eqb _cusip "912810RZ3" then decimal 15013155 100000000 else _pv01 in
  _pv01.

(** [rand()] is an input of the model: a sequence of draws and a cursor. *)
Record Rand := mkRand { draws : nat -> Z; cursor : nat }.

Definition rand (g : Rand) : Z * Rand :=
  (draws g (cursor g), mkRand (draws g) (S (cursor g))).

Definition characters : string := "0123456789ABCDEFGHIJKLMNOPQRSTUVWXYZ".

(** [GenerateRandomId]: [length] characters drawn with [rand() % 36]. *)
Fixpoint GenerateRandomId (length : nat) (g : Rand) : string * Rand :=
  match length with
  | O => (EmptyString, g)
  | S n =>
      let '(r, g1) := rand g in
      let randomIdx := Z.rem r 36 in
      let c := default "0"%char (String.get (Z.to_nat randomIdx) characters) in
      let '(id, g2) := GenerateRandomId n g1 in
      (String c id, g2)
  end.

(** [join]: the components separated by the delimiter.  [strings[0]] on an
    empty vector is undefined. *)
Definition join (strings : list string) (delimiter : string) : option string :=
  match strings with
  | [] => None
  | first :: rest =>
      Some (foldl (fun result s => (result ++ (delimiter ++ s))%string) first rest)
  end.

End Functions.

Export Functions.


(** ** soa.hpp *)

Module Soa.

(** Modelled from the spec: soa.hpp is not among the sources.  A service
    keeps its listeners in registration order and calls [ProcessAdd] on each
    of them in that order, synchronously.  A listener is named by its
    position in the vector; a callback is the listener together with the
    record it was handed. *)
Definition ListenerId := nat.

Record Callback (V : Type) := ProcessAdd { target : ListenerId; payload : V }.
Arguments ProcessAdd {V} _ _.
Arguments target {V} _.
Arguments payload {V} _.

(** [for (auto& listener : listeners) listener->ProcessAdd(data);] *)
Definition notify {V} (listeners : list ListenerId) (data : V) : list (Callback V) :=
  map (fun l => ProcessAdd l data) listeners.

End Soa.

Export Soa.

(** Comparison of doubles. *)
Definition double_le (a b : double) : bool := Qle_bool a b.
Definition double_lt (a b : double) : bool := negb (Qle_bool b a).

(** ** marketdataservice.hpp *)

Module MarketData.

Inductive PricingSide := BID | OFFER.

Record Order := mkOrder {
  price : double;
  quantity : long;
  side : PricingSide
}.

Record BidOffer := mkBidOffer { bidOrder : Order; offerOrder : Order }.

Record OrderBook := mkOrderBook {
  product : Bond;
  bidStack : list Order;
  offerStack : list Order
}.

(** [std::max_element] and [std::min_element] with the comparison
    [a.GetPrice() < b.GetPrice()]: the first of several equal extrema;
    [None] stands for the past-the-end iterator of an empty range. *)
Definition max_element (l : list Order) : option Order :=
  match l with
  | [] => None
  | first :: rest =>
      Some (foldl (fun largest it => if double_lt (price largest) (price it) then it else largest)
                  first rest)
  end.

Definition min_element (l : list Order) : option Order :=
  match l with
  | [] => None
  | first :: rest =>
      Some (foldl (fun smallest it => if double_lt (price it) (price smallest) then it else smallest)
                  first rest)
  end.

(** [OrderBook::GetBestBidOffer]; dereferencing the past-the-end iterator
    is undefined. *)
Definition GetBestBidOffer (b : OrderBook) : option BidOffer :=
  bestBid ← max_element (bidStack b);
  bestOffer ← min_element (offerStack b);
  Some (mkBidOffer bestBid bestOffer).

Record MarketDataService := mkService {
  orderBooks : gmap string OrderBook;
  listeners : list ListenerId;
  bookDepth : Z
}.

(** The default-constructed book [orderBooks[_productId]] creates for a
    missing key. *)
Definition default_Bond : Bond := mkBond "" CUSIP "" (Q2Qc 0) "".
Definition default_OrderBook : OrderBook := mkOrderBook default_Bond [] [].

(** The loop [for (auto& order : stack) aggMap[price] += order.GetQuantity()]
    on an [unordered_map<double, long>]. *)
Definition accumulate (m : gmap Qc long) (order : Order) : gmap Qc long :=
  <[price order := long_add (default 0 (m !! price order)) (quantity order)]> m.

Definition aggMap (stack : list Order) : gmap Qc long := foldl accumulate ∅ stack.

(** The order in which an [unordered_map] is traversed is unspecified: it
    is an argument of the model, one for each of the two loops of a call. *)
Definition Traversal := gmap Qc long -> list (Qc * long).

Definition traversal_ok (t : Traversal) : Prop := forall m, t m ≡ₚ map_to_list m.

Definition aggregated (t : Traversal) (s : PricingSide) (m : gmap Qc long) : list Order :=
  map (fun item => mkOrder item.1 item.2 s) (t m).

(** [MarketDataService::AggregateDepth]: the stored book is replaced by the
    aggregated one, which is also returned. *)
Definition AggregateDepth (tb to : Traversal) (svc : MarketDataService) (_productId : string)
  : MarketDataService * OrderBook :=
  let orderBook := default default_OrderBook (orderBooks svc !! _productId) in
  let bidAggMap := aggMap (bidStack orderBook) in
  let aggregatedBids := aggregated tb BID bidAggMap in
  let offerAggMap := aggMap (offerStack orderBook) in
  let aggregatedOffers := aggregated to OFFER offerAggMap in
  let orderBook := mkOrderBook (product orderBook) aggregatedBids aggregatedOffers in
  (mkService (<[_productId := orderBook]> (orderBooks svc)) (listeners svc) (bookDepth svc),
   orderBook).

(** [MarketDataService::OnMessage] *)
Definition OnMessage (svc : MarketDataService) (_data : OrderBook)
  : MarketDataService * list (Callback OrderBook) :=
  let key := GetProductId (product _data) in
  let books := match orderBooks svc !! key with
               | Some _ => delete key (orderBooks svc)
               | None => orderBooks svc
               end in
  (mkService (map_insert key _data books) (listeners svc) (bookDepth svc),
   notify (listeners svc) _data).

(** [OrderBook(const string&)]: an empty book for the product;
    [getProductObject] throws for an unknown identifier. *)
Definition new_OrderBook (productId : string) : option OrderBook :=
  product ← getProductObject productId;
  Some (mkOrderBook product [] []).

(** [MarketDataService::GetData]: the stored book, created empty when the
    key is missing. *)
Definition GetData (svc : MarketDataService) (_key : string)
  : option (MarketDataService * OrderBook) :=
  match orderBooks svc !! _key with
  | Some b => Some (svc, b)
  | None =>
      b ← new_OrderBook _key;
      Some (mkService (map_insert _key b (orderBooks svc)) (listeners svc) (bookDepth svc), b)
  end.

(** One round of the loop over the levels in [MarketDataConnector::Subscribe]:
    the bid and the offer of level [order] are read from the line and pushed
    onto the stacks of the book. *)
Definition push_level (lineVec : list string) (orderBook : OrderBook) (order : nat)
  : option OrderBook :=
  bidPrice ← lineVec !! (4 * order + 2)%nat;
  bidQuantity ← lineVec !! (4 * order + 3)%nat;
  offerPrice ← lineVec !! (4 * order + 4)%nat;
  offerQuantity ← lineVec !! (4 * order + 5)%nat;
  bp ← convertPrice_of_string bidPrice;
  bq ← stol bidQuantity;
  op ← convertPrice_of_string offerPrice;
  oq ← stol offerQuantity;
  let bidOrder := mkOrder bp bq BID in
  let askOrder := mkOrder op oq OFFER in
  Some (mkOrderBook (product orderBook) (bidStack orderBook ++ [bidOrder])
                    (offerStack orderBook ++ [askOrder])).

Fixpoint push_levels (lineVec : list string) (orderBook : OrderBook) (order : nat) (n : nat)
  : option OrderBook :=
  match n with
  | O => Some orderBook
  | S n' =>
      orderBook ← push_level lineVec orderBook order;
      push_levels lineVec orderBook (S order) n'
  end.

(** The body of the loop over the lines in [MarketDataConnector::Subscribe].
    [orderBook] is a reference to the stored book, so the levels are pushed
    onto what the store holds for the product. *)
Definition Subscribe_line (tb to : Traversal) (svc : MarketDataService) (_line : string)
  : option (MarketDataService * list (Callback OrderBook)) :=
  let lineVec := getline_fields _line "" in
  timestamp ← lineVec !! 0%nat;
  productId ← lineVec !! 1%nat;
  '(svc, orderBook) ← GetData svc productId;
  orderBook ← push_levels lineVec orderBook 0 (Z.to_nat (bookDepth svc));
  let svc := mkService (<[productId := orderBook]> (orderBooks svc)) (listeners svc)
                       (bookDepth svc) in
  let '(svc, aggOrderBook) := AggregateDepth tb to svc productId in
  Some (OnMessage svc aggOrderBook).

(** The constructor: no book, no listener, [bookDepth = 5]. *)
Definition init (ls : list ListenerId) : MarketDataService := mkService ∅ ls 5.

End MarketData.

(** ** algoexecutionservice.hpp *)

Module AlgoExecution.

Import MarketData.

Inductive OrderType := FOK | IOC | MARKET | LIMIT | STOP.
Inductive Market := BROKERTEC | ESPEED | CME.

Record ExecutionOrder := mkExecutionOrder {
  eo_product : Bond;
  eo_side : PricingSide;
  orderId : string;
  orderType : OrderType;
  eo_price : double;
  visibleQuantity : long;
  hiddenQuantity : long;
  parentOrderId : string;
  isChildOrder : bool
}.

Record AlgoExecution := mkAlgoExecution {
  executionOrder : ExecutionOrder;
  market : Market
}.

Record AlgoExecutionService := mkService {
  algoExecutions : gmap string AlgoExecution;
  listeners : list ListenerId;
  count : long
}.

(** The constructor sets [count = 0]. *)
Definition init (ls : list ListenerId) : AlgoExecutionService := mkService ∅ ls 0.

(** The locals [side], [price] and [quantity] of [AlgoExecuteOrder] are
    declared without an initialiser; whatever they hold when the spread
    test fails is an argument of the model. *)
Record Uninitialised := mkUninitialised {
  u_side : PricingSide;
  u_price : double;
  u_quantity : long
}.

(** [AlgoExecutionService::AlgoExecuteOrder].  The constructor of
    [ExecutionOrder] takes the two quantities as [double] and stores them in
    [long] members; the round trip is the identity on every quantity below
    2^53 and is not modelled. *)
Definition AlgoExecuteOrder (u : Uninitialised) (g : Rand)
    (svc : AlgoExecutionService) (_orderBook : OrderBook)
  : option (AlgoExecutionService * Rand * list (Callback AlgoExecution)) :=
  let product := product _orderBook in
  let key := GetProductId product in
  let '(id1, g) := GenerateRandomId 11 g in
  let orderId := ("A" ++ id1)%string in
  let '(id2, g) := GenerateRandomId 10 g in
  let parentOrderId := ("AP" ++ id2)%string in
  bidOffer ← GetBestBidOffer _orderBook;
  let bid := bidOrder bidOffer in
  let offer := offerOrder bidOffer in
  let bidPrice := price bid in
  let offerPrice := price offer in
  let bidQuantity := quantity bid in
  let offerQuantity := quantity offer in
  let '(side, price, quantity) :=
    if double_le (offerPrice - bidPrice)%Qc (Q2Qc (1 # 128)) then
      let side := if long_rem (count svc) 2 =? 0 then BID else OFFER in
      let price := match side with BID => offerPrice | OFFER => bidPrice end in
      let quantity := match side with BID => bidQuantity | OFFER => offerQuantity end in
      (side, price, quantity)
    else (u_side u, u_price u, u_quantity u) in
  let count := long_add (count svc) 1 in
  let visibleQuantity := quantity in
  let hiddenQuantity := 0 in
  let isChildOrder := false in
  let executionOrder :=
    mkExecutionOrder product side orderId MARKET price visibleQuantity hiddenQuantity
                     parentOrderId isChildOrder in
  let algoExecution := mkAlgoExecution executionOrder BROKERTEC in
  let m := match algoExecutions svc !! key with
           | Some _ => delete key (algoExecutions svc)
           | None => algoExecutions svc
           end in
  Some (mkService (map_insert key algoExecution m) (listeners svc) count, g,
        notify (listeners svc) algoExecution).

(** [AlgoExecutionServiceListener::ProcessAdd] *)
Definition ProcessAdd := AlgoExecuteOrder.

End AlgoExecution.

(** ** tradebookingservice.hpp *)

Module TradeBooking.

Import MarketData AlgoExecution.

Inductive Side := BUY | SELL.

Record Trade := mkTrade {
  product : Bond;
  tradeId : string;
  price : double;
  book : string;
  quantity : long;
  side : Side
}.

Record TradeBookingService := mkService {
  trades : gmap string Trade;
  listeners : list ListenerId
}.

(** [TradeBookingService::OnMessage] *)
Definition OnMessage (svc : TradeBookingService) (_data : Trade)
  : TradeBookingService * list (Callback Trade) :=
  let _key := tradeId _data in
  let trades' := match trades svc !! _key with
                 | Some _ => <[_key := _data]> (trades svc)
                 | None => map_insert _key _data (trades svc)
                 end in
  (mkService trades' (listeners svc), notify (listeners svc) _data).

(** The listener on the execution service; its constructor sets
    [count(0)]. *)
Record TradeBookingServiceListener := mkListener { count : long }.

Definition init_listener : TradeBookingServiceListener := mkListener 0.

(** The first half of [TradeBookingServiceListener::ProcessAdd]: the
    counter is advanced and the trade is built.  A [string] that no branch
    assigns stays empty. *)
Definition make_trade (l : TradeBookingServiceListener) (_data : ExecutionOrder)
  : TradeBookingServiceListener * Trade :=
  let product := eo_product _data in
  let orderId := orderId _data in
  let price := eo_price _data in
  let quantity := long_add (visibleQuantity _data) (hiddenQuantity _data) in
  let side := match eo_side _data with BID => BUY | OFFER => SELL end in
  let count := long_add (count l) 1 in
  let book :=
    if long_rem count 3 =? 0 then "TRSY1"%string
    else if long_rem count 3 =? 1 then "TRSY2"%string
    else if long_rem count 3 =? 2 then "TRSY3"%string
    else ""%string in
  (mkListener count, mkTrade product orderId price book quantity side).

(** [TradeBookingServiceListener::ProcessAdd]: the trade goes to
    [service->OnMessage]. *)
Definition ProcessAdd (st : TradeBookingServiceListener * TradeBookingService)
    (_data : ExecutionOrder)
  : TradeBookingServiceListener * TradeBookingService * list (Callback Trade) :=
  let '(l, trade) := make_trade st.1 _data in
  let '(svc, calls) := OnMessage st.2 trade in
  (l, svc, calls).

(** A sequence of execution orders delivered one after the other to
    [TradeBookingServiceListener::ProcessAdd]; the callbacks the
    trade-booking service makes on its own listeners are collected in
    order. *)
Fixpoint ProcessAdd_all (st : TradeBookingServiceListener * TradeBookingService)
    (orders : list ExecutionOrder)
  : TradeBookingServiceListener * TradeBookingService * list (Callback Trade) :=
  match orders with
  | [] => (st.1, st.2, [])
  | o :: rest =>
      let '(l, svc, calls) := ProcessAdd st o in
      let '(l', svc', calls') := ProcessAdd_all (l, svc) rest in
      (l', svc', calls ++ calls')
  end.

(** One iteration of the loop of [TradeBookingConnector::Subscribe], up to
    the construction of the trade. *)
Definition decode_line (_line : string) : option Trade :=
  let lineVec := getline_fields _line "" in
  productId ← lineVec !! 0%nat;
  product ← getProductObject productId;
  tradeId ← lineVec !! 1%nat;
  f2 ← lineVec !! 2%nat;
  price ← convertPrice_of_string f2;
  book ← lineVec !! 3%nat;
  f4 ← lineVec !! 4%nat;
  quantity ← stol f4;
  f5 ← lineVec !! 5%nat;
  let side := if String.eqb f5 "BUY" then BUY else SELL in
  Some (mkTrade product tradeId price book quantity side).

(** [TradeBookingConnector::Subscribe] on the lines of the trade file. *)
Fixpoint Subscribe (svc : TradeBookingService) (lines : list string)
  : option (TradeBookingService * list (Callback Trade)) :=
  match lines with
  | [] => Some (svc, [])
  | _line :: rest =>
      trade ← decode_line _line;
      let '(svc, calls) := OnMessage svc trade in
      '(svc, calls') ← Subscribe svc rest;
      Some (svc, calls ++ calls')
  end.

End TradeBooking.

(** ** positionservice.hpp *)

Module Position.

Import TradeBooking.

Record Position := mkPosition {
  product : Bond;
  bookpositions : gmap string long
}.

(** [Position(const T&)] starts with no book. *)
Definition new_Position (p : Bond) : Position := mkPosition p ∅.

Definition default_Position : Position := new_Position MarketData.default_Bond.

(** [Position::GetAggregatePosition]: the loop over [bookpositions].  A
    [std::map] is traversed by increasing key; the sum in [long] arithmetic
    does not depend on the order (see [GetAggregatePosition_stored]). *)
Definition GetAggregatePosition (p : Position) : long :=
  foldl (fun aggposition it => long_add aggposition it.2) 0 (map_to_list (bookpositions p)).

(** [Position::AddPosition] *)
Definition AddPosition (p : Position) (_book : string) (_position : long) : Position :=
  match bookpositions p !! _book with
  | None => mkPosition (product p) (map_insert _book _position (bookpositions p))
  | Some q => mkPosition (product p) (<[_book := long_add q _position]> (bookpositions p))
  end.

Record PositionService := mkService {
  positions : gmap string Position;
  listeners : list ListenerId
}.

Definition init (ls : list ListenerId) : PositionService := mkService ∅ ls.

(** [PositionService::GetData]: [positions[_key]], which creates an empty
    position for a missing key. *)
Definition GetData (svc : PositionService) (_key : string) : PositionService * Position :=
  match positions svc !! _key with
  | Some p => (svc, p)
  | None => (mkService (<[_key := default_Position]> (positions svc)) (listeners svc),
             default_Position)
  end.

(** [PositionService::AddTrade] *)
Definition AddTrade (svc : PositionService) (_trade : Trade)
  : PositionService * list (Callback Position) :=
  let product := TradeBooking.product _trade in
  let productId := GetProductId product in
  let book := book _trade in
  let quantity := match side _trade with
                  | BUY => TradeBooking.quantity _trade
                  | SELL => long_neg (TradeBooking.quantity _trade)
                  end in
  let positions' :=
    match positions svc !! productId with
    | None =>
        let position := new_Position product in
        let position := AddPosition position book quantity in
        map_insert productId position (positions svc)
    | Some p => <[productId := AddPosition p book quantity]> (positions svc)
    end in
  let svc' := mkService positions' (listeners svc) in
  let '(svc'', current) := GetData svc' productId in
  (svc'', notify (listeners svc) current).

(** [PositionServiceListener::ProcessAdd] for each trade of a sequence. *)
Definition AddTrade_all (svc : PositionService) (ts : list Trade) : PositionService :=
  foldl (fun s t => (AddTrade s t).1) svc ts.

(** [Position::GetPosition]: [bookpositions[_book]], which creates a book at
    0 when the position has none of that name. *)
Definition GetPosition (p : Position) (_book : string) : Position * long :=
  match bookpositions p !! _book with
  | Some q => (p, q)
  | None => (mkPosition (product p) (<[_book := 0]> (bookpositions p)), 0)
  end.

End Position.

(** ** riskservice.hpp *)

Module Risk.

Import Position.

Record PV01 (T : Type) := mkPV01 {
  product : T;
  pv01 : double;
  quantity : long
}.
Arguments mkPV01 {T} _ _ _.
Arguments product {T} _.
Arguments pv01 {T} _.
Arguments quantity {T} _.

(** [PV01::AddQuantity] *)
Definition AddQuantity {T} (r : PV01 T) (_quantity : long) : PV01 T :=
  mkPV01 (product r) (pv01 r) (long_add (quantity r) _quantity).

Record BucketedSector := mkBucketedSector {
  products : list Bond;
  name : string
}.

Record RiskService := mkService {
  listeners : list ListenerId;
  pv01s : gmap string (PV01 Bond)
}.

(** [RiskService::AddPosition] *)
Definition AddPosition (svc : RiskService) (_position : Position)
  : RiskService * list (Callback (PV01 Bond)) :=
  let product := Position.product _position in
  let productId := GetProductId product in
  let quantity := GetAggregatePosition _position in
  let pv01Val := getPV01 productId in
  let pv01 := mkPV01 product pv01Val quantity in
  let pv01s' :=
    match pv01s svc !! productId with
    | Some r => <[productId := AddQuantity r quantity]> (pv01s svc)
    | None => map_insert productId pv01 (pv01s svc)
    end in
  (mkService (listeners svc) pv01s', notify (listeners svc) pv01).

(** [RiskServiceListener::ProcessAdd] for each position of a sequence. *)
Definition AddPosition_all (svc : RiskService) (ps : list Position) : RiskService :=
  foldl (fun s p => (AddPosition s p).1) svc ps.

(** [RiskService::GetBucketedRisk] is not embedded.  The member binds a
    [vector<T>&] to the [const vector<T>&] that [GetProducts] returns, applies
    the non-const [operator[]] of [pv01s] inside a [const] member and returns a
    reference to a temporary: it is ill-formed as soon as it is instantiated,
    and nothing in the program calls it. *)

End Risk.

(** ** inquiryservice.hpp *)

Module Inquiry.

Import TradeBooking.

Inductive InquiryState := RECEIVED | QUOTED | DONE | REJECTED | CUSTOMER_REJECTED.

Global Instance InquiryState_eq_dec : EqDecision InquiryState.
Proof. solve_decision. Defined.

Record Inquiry := mkInquiry {
  inquiryId : string;
  product : Bond;
  side : Side;
  quantity : long;
  price : double;
  state : InquiryState
}.

Definition SetState (i : Inquiry) (_state : InquiryState) : Inquiry :=
  mkInquiry (inquiryId i) (product i) (side i) (quantity i) (price i) _state.

Definition SetPrice (i : Inquiry) (_price : double) : Inquiry :=
  mkInquiry (inquiryId i) (product i) (side i) (quantity i) _price (state i).

Record InquiryService := mkService {
  inquirys : gmap string Inquiry;
  listeners : list ListenerId
}.

Definition init (ls : list ListenerId) : InquiryService := mkService ∅ ls.

(** What a call leaves behind: the service, the inquiry object the caller
    passed by reference, and the callbacks made, oldest first. *)
Definition Outcome : Type := InquiryService * Inquiry * list (Callback Inquiry).

(** [InquiryConnector::Publish], given the [OnMessage] it re-enters. *)
Definition Publish_with (on_message : InquiryService -> Inquiry -> option Outcome)
    (svc : InquiryService) (_data : Inquiry) : option Outcome :=
  match state _data with
  | RECEIVED =>
      let _data := SetState _data QUOTED in
      '(svc, _data, calls1) ← on_message svc _data;
      let _data := SetState _data DONE in
      '(svc, _data, calls2) ← on_message svc _data;
      Some (svc, _data, calls1 ++ calls2)
  | _ => Some (svc, _data, [])
  end.

(** [InquiryService::OnMessage].  [OnMessage] and [Publish] call each
    other; [fuel] bounds the depth of the calls and [None] means that it
    ran out. *)
Fixpoint OnMessage (fuel : nat) (svc : InquiryService) (data : Inquiry) : option Outcome :=
  match fuel with
  | O => None
  | S fuel' =>
      let state0 := state data in
      let inquiryId := inquiryId data in
      '(svc, data, calls) ←
        match state0 with
        | RECEIVED => Publish_with (OnMessage fuel') svc data
        | QUOTED =>
            let data := SetState data DONE in
            let m := match inquirys svc !! inquiryId with
                     | Some _ => delete inquiryId (inquirys svc)
                     | None => inquirys svc
                     end in
            Some (mkService (map_insert inquiryId data m) (listeners svc), data, [])
        | _ => Some (svc, data, [])
        end;
      let m := if decide (state data = DONE)
               then delete (Inquiry.inquiryId data) (inquirys svc)
               else <[Inquiry.inquiryId data := data]> (inquirys svc) in
      Some (mkService m (listeners svc), data, calls ++ notify (listeners svc) data)
  end.

Definition Publish (fuel : nat) := Publish_with (OnMessage fuel).

(** The conditional chain of [InquiryConnector::Subscribe] on the sixth
    field. *)
Definition decode_state (s : string) : InquiryState :=
  if String.eqb s "RECEIVED" then RECEIVED
  else if String.eqb s "QUOTED" then QUOTED
  else if String.eqb s "DONE" then DONE
  else if String.eqb s "REJECTED" then REJECTED
  else CUSTOMER_REJECTED.

(** One iteration of the loop of [InquiryConnector::Subscribe], up to the
    construction of the inquiry.  Indexing [lineVec] past its end is
    undefined and is a failure here, like the exceptions of
    [getProductObject], [stol] and [convertPrice]. *)
Definition decode_line (line : string) : option Inquiry :=
  let lineVec := getline_fields line "" in
  inquiryId ← lineVec !! 0%nat;
  productId ← lineVec !! 1%nat;
  product ← getProductObject productId;
  f2 ← lineVec !! 2%nat;
  let side := if String.eqb f2 "BUY" then BUY else SELL in
  f3 ← lineVec !! 3%nat;
  quantity ← stol f3;
  f4 ← lineVec !! 4%nat;
  price ← convertPrice_of_string f4;
  f5 ← lineVec !! 5%nat;
  let state := decode_state f5 in
  Some (mkInquiry inquiryId product side quantity price state).

(** [InquiryConnector::Subscribe] on the lines of the input file. *)
Fixpoint Subscribe (fuel : nat) (svc : InquiryService) (lines : list string)
  : option (InquiryService * list (Callback Inquiry)) :=
  match lines with
  | [] => Some (svc, [])
  | line :: rest =>
      inquiry ← decode_line line;
      '(svc, _, calls) ← OnMessage fuel svc inquiry;
      '(svc, calls') ← Subscribe fuel svc rest;
      Some (svc, calls ++ calls')
  end.

(** The value-initialised inquiry [inquirys[key]] creates for a missing key:
    every scalar member is zero, so the side is BUY and the state RECEIVED. *)
Definition default_Inquiry : Inquiry :=
  mkInquiry "" MarketData.default_Bond BUY 0 (Q2Qc 0) RECEIVED.

(** [InquiryService::GetData] *)
Definition GetData (svc : InquiryService) (_key : string) : InquiryService * Inquiry :=
  match inquirys svc !! _key with
  | Some i => (svc, i)
  | None => (mkService (<[_key := default_Inquiry]> (inquirys svc)) (listeners svc),
             default_Inquiry)
  end.

(** [InquiryService::SendQuote] *)
Definition SendQuote (svc : InquiryService) (inquiryId : string) (price : double)
  : InquiryService * list (Callback Inquiry) :=
  let '(svc, inquiry) := GetData svc inquiryId in
  match state inquiry with
  | RECEIVED =>
      let inquiry := SetPrice inquiry price in
      (mkService (<[inquiryId := inquiry]> (inquirys svc)) (listeners svc),
       notify (listeners svc) inquiry)
  | _ => (svc, [])
  end.

(** [InquiryService::RejectInquiry] *)
Definition RejectInquiry (svc : InquiryService) (inquiryId : string) : InquiryService :=
  let '(svc, inquiry) := GetData svc inquiryId in
  let inquiry := SetState inquiry REJECTED in
  mkService (<[inquiryId := inquiry]> (inquirys svc)) (listeners svc).

(** The printer of [Inquiry].  The side, a [Side], is compared with [BID],
    the first enumerator of [PricingSide]: BUY, the first enumerator of
    [Side], prints as "BID" and SELL as "OFFER". *)
Definition state_string (s : InquiryState) : string :=
  match s with
  | RECEIVED => "RECEIVED"
  | QUOTED => "QUOTED"
  | DONE => "DONE"
  | REJECTED => "REJECTED"
  | CUSTOMER_REJECTED => "CUSTOMER_REJECTED"
  end.

Definition print (inquiry : Inquiry) : option string :=
  let inquiryId := inquiryId inquiry in
  let productId := GetProductId (product inquiry) in
  let side := match side inquiry with BUY => "BID" | SELL => "OFFER" end in
  let stateStr := state_string (state inquiry) in
  join [inquiryId; productId; side; to_string (quantity inquiry);
        convertPrice_of_double (price inquiry); stateStr] ",".

End Inquiry.

(** ** GUIservice.hpp *)

Module GUI.

Record Price := mkPrice {
  product : Bond;
  mid : double;
  bidOfferSpread : double
}.

(** A reading of [system_clock], in clock ticks since the epoch, and the
    number of ticks in a millisecond (the clock counts nanoseconds). *)
Definition time_point := Z.
Definition ticks_per_ms : Z := 1000000.

(** [duration_cast<milliseconds>] truncates towards zero. *)
Definition milliseconds (d : Z) : Z := Z.quot d ticks_per_ms.

Record GUIService := mkService {
  guis : gmap string Price;
  listeners : list ListenerId;
  throttle : Z;
  cur_time : time_point
}.

(** The constructor: [throttle = 300] and [cur_time] is the clock at
    construction. *)
Definition init (now : time_point) : GUIService := mkService ∅ [] 300 now.

(** A line appended to gui.txt by [GUIConnector::Publish], with the clock
    reading at which it was published. *)
Definition Line : Type := time_point * Price.

(** [GUIService::PublishThrottledPrice]; [now] is what
    [system_clock::now()] returns in this call. *)
Definition PublishThrottledPrice (now : time_point) (svc : GUIService) (_price : Price)
  : GUIService * list Line :=
  let diff := milliseconds (now - cur_time svc) in
  if throttle svc <? diff
  then (mkService (guis svc) (listeners svc) (throttle svc) now, [(now, _price)])
  else (svc, []).

(** [GUIService::OnMessage] has an empty body. *)
Definition OnMessage (svc : GUIService) (_data : Price) : GUIService * list Line :=
  (svc, []).

(** [GUIServiceListener::ProcessAdd] forwards to [OnMessage]. *)
Definition ProcessAdd (svc : GUIService) (_price : Price) : GUIService * list Line :=
  OnMessage svc _price.

(** Price events reaching the listener one after the other, each with the
    clock reading at its arrival; the lines written to the sink are
    collected in order. *)
Fixpoint ProcessAdd_all (svc : GUIService) (events : list (time_point * Price))
  : GUIService * list Line :=
  match events with
  | [] => (svc, [])
  | (_, p) :: rest =>
      let '(svc, out) := ProcessAdd svc p in
      let '(svc, out') := ProcessAdd_all svc rest in
      (svc, out ++ out')
  end.

(** The same events handed to [PublishThrottledPrice] instead. *)
Fixpoint PublishThrottledPrice_all (svc : GUIService) (events : list (time_point * Price))
  : GUIService * list Line :=
  match events with
  | [] => (svc, [])
  | (t, p) :: rest =>
      let '(svc, out) := PublishThrottledPrice t svc p in
      let '(svc, out') := PublishThrottledPrice_all svc rest in
      (svc, out ++ out')
  end.

End GUI.

(** ** pricingservice.hpp *)

Module Pricing.

(** The class [Price] of pricingservice.hpp is the record [GUI.Price]. *)
Import GUI.

Record PricingService := mkService {
  prices : gmap string Price;
  listeners : list ListenerId
}.

Definition init (ls : list ListenerId) : PricingService := mkService ∅ ls.

(** [PricingService::OnMessage] *)
Definition OnMessage (svc : PricingService) (_data : Price)
  : PricingService * list (Callback Price) :=
  let _key := GetProductId (product _data) in
  let m := match prices svc !! _key with
           | Some _ => delete _key (prices svc)
           | None => prices svc
           end in
  (mkService (map_insert _key _data m) (listeners svc), notify (listeners svc) _data).

(** One iteration of the loop of [PricingConnector::Subscribe], up to the
    construction of the price. *)
Definition decode_line (_line : string) : option Price :=
  let lineVec := getline_fields _line "" in
  timestamp ← lineVec !! 0%nat;
  productId ← lineVec !! 1%nat;
  f2 ← lineVec !! 2%nat;
  bid ← convertPrice_of_string f2;
  f3 ← lineVec !! 3%nat;
  ask ← convertPrice_of_string f3;
  let spread := (ask - bid)%Qc in
  let mid := ((bid + ask) / Q2Qc (2 # 1))%Qc in
  product ← getProductObject productId;
  Some (mkPrice product mid spread).

Fixpoint Subscribe_lines (svc : PricingService) (lines : list string)
  : option (PricingService * list (Callback Price)) :=
  match lines with
  | [] => Some (svc, [])
  | _line :: rest =>
      price ← decode_line _line;
      let '(svc, calls) := OnMessage svc price in
      '(svc, calls') ← Subscribe_lines svc rest;
      Some (svc, calls ++ calls')
  end.

(** [PricingConnector::Subscribe]: the first line of the file is skipped. *)
Definition Subscribe (svc : PricingService) (file : list string)
  : option (PricingService * list (Callback Price)) :=
  Subscribe_lines svc (tail file).

End Pricing.

(** ** algostreamingservice.hpp *)

Module AlgoStreaming.

Import MarketData.

Record PriceStreamOrder := mkPriceStreamOrder {
  price : double;
  visibleQuantity : long;
  hiddenQuantity : long;
  side : PricingSide
}.

Record PriceStream := mkPriceStream {
  product : Bond;
  bidOrder : PriceStreamOrder;
  offerOrder : PriceStreamOrder
}.

Record AlgoStream := mkAlgoStream { priceStream : PriceStream }.

Record AlgoStreamingService := mkService {
  algoStreams : gmap string AlgoStream;
  listeners : list ListenerId;
  count : long
}.

(** The constructor does not assign [count]: what the member holds at first
    is an argument of the model. *)
Definition init (ls : list ListenerId) (count0 : long) : AlgoStreamingService :=
  mkService ∅ ls count0.

(** [AlgoStreamingService::PublishAlgoStream] *)
Definition PublishAlgoStream (svc : AlgoStreamingService) (price : GUI.Price)
  : AlgoStreamingService * list (Callback AlgoStream) :=
  let product := GUI.product price in
  let key := GetProductId product in
  let mid := GUI.mid price in
  let spread := GUI.bidOfferSpread price in
  let bidPrice := (mid - spread / Q2Qc (2 # 1))%Qc in
  let offerPrice := (mid + spread / Q2Qc (2 # 1))%Qc in
  let visibleQuantity := if long_rem (count svc) 2 =? 0 then 1000000 else 2000000 in
  let hiddenQuantity := long_mul visibleQuantity 2 in
  let count := long_add (count svc) 1 in
  let bidOrder := mkPriceStreamOrder bidPrice visibleQuantity hiddenQuantity BID in
  let offerOrder := mkPriceStreamOrder offerPrice visibleQuantity hiddenQuantity OFFER in
  let priceStream := mkPriceStream product bidOrder offerOrder in
  let algoStream := mkAlgoStream priceStream in
  let m := match algoStreams svc !! key with
           | Some _ => delete key (algoStreams svc)
           | None => algoStreams svc
           end in
  (mkService (map_insert key algoStream m) (listeners svc) count,
   notify (listeners svc) algoStream).

(** [AlgoStreamingServiceListener::ProcessAdd] for each price of a
    sequence; the callbacks are collected in order. *)
Fixpoint PublishAlgoStream_all (svc : AlgoStreamingService) (prices : list GUI.Price)
  : AlgoStreamingService * list (Callback AlgoStream) :=
  match prices with
  | [] => (svc, [])
  | p :: rest =>
      let '(svc, calls) := PublishAlgoStream svc p in
      let '(svc, calls') := PublishAlgoStream_all svc rest in
      (svc, calls ++ calls')
  end.

End AlgoStreaming.

(** ** streamingservice.hpp *)

Module Streaming.

Import AlgoStreaming.

Record StreamingService := mkService {
  priceStreams : gmap string PriceStream;
  listeners : list ListenerId
}.

Definition init (ls : list ListenerId) : StreamingService := mkService ∅ ls.

(** [StreamingService::AddPriceStream] *)
Definition AddPriceStream (svc : StreamingService) (_algoStream : AlgoStream)
  : StreamingService * list (Callback PriceStream) :=
  let priceStream := priceStream _algoStream in
  let key := GetProductId (product priceStream) in
  let m := match priceStreams svc !! key with
           | Some _ => delete key (priceStreams svc)
           | None => priceStreams svc
           end in
  (mkService (map_insert key priceStream m) (listeners svc),
   notify (listeners svc) priceStream).

(** [StreamingServiceListener::ProcessAdd]: [AddPriceStream], then
    [PublishPrice], which has the connector print the stream; the third
    component is what is printed. *)
Definition ProcessAdd (svc : StreamingService) (_data : AlgoStream)
  : StreamingService * list (Callback PriceStream) * list PriceStream :=
  let '(svc, calls) := AddPriceStream svc _data in
  (svc, calls, [priceStream _data]).

End Streaming.

(** ** executionservice.hpp *)

Module Execution.

Import AlgoExecution.

Record ExecutionService := mkService {
  executionOrders : gmap string ExecutionOrder;
  listeners : list ListenerId
}.

Definition init (ls : list ListenerId) : ExecutionService := mkService ∅ ls.

(** [ExecutionService::AddExecutionOrder] *)
Definition AddExecutionOrder (svc : ExecutionService) (_algoExecution : AlgoExecution)
  : ExecutionService * list (Callback ExecutionOrder) :=
  let executionOrder := executionOrder _algoExecution in
  let orderId := orderId executionOrder in
  let m := match executionOrders svc !! orderId with
           | Some _ => delete orderId (executionOrders svc)
           | None => executionOrders svc
           end in
  (mkService (map_insert orderId executionOrder m) (listeners svc),
   notify (listeners svc) executionOrder).

(** [ExecutionServiceListener::ProcessAdd]: [AddExecutionOrder], then
    [ExecuteOrder], which has the connector print the order and the market;
    the third component is what is printed. *)
Definition ProcessAdd (svc : ExecutionService) (_data : AlgoExecution)
  : ExecutionService * list (Callback ExecutionOrder) * list (ExecutionOrder * Market) :=
  let '(svc, calls) := AddExecutionOrder svc _data in
  (svc, calls, [(executionOrder _data, market _data)]).

End Execution.

(** ** historicaldataservice.hpp *)

Module HistoricalData.

Inductive ServiceType := POSITION | RISK | EXECUTION | STREAMING | INQUIRY.

(** The file a service of each type appends to. *)
Definition fileNames (t : ServiceType) : string :=
  match t with
  | POSITION => "../data/positions.txt"
  | RISK => "../data/risk.txt"
  | EXECUTION => "../data/executions.txt"
  | STREAMING => "../data/streaming.txt"
  | INQUIRY => "../data/aggregatedinquiries.txt"
  end.

Record HistoricalDataService (T : Type) := mkService {
  histdatas : gmap string T;
  type : ServiceType
}.
Arguments mkService {T} _ _.
Arguments histdatas {T} _.
Arguments type {T} _.

Definition init {T} (t : ServiceType) : HistoricalDataService T := mkService ∅ t.

(** [HistoricalDataService::PersistData]: the record is stored under the key,
    over what was there, and the connector appends it to the file of the
    service; the second component is the file and the record appended. *)
Definition PersistData {T} (svc : HistoricalDataService T) (persistKey : string) (data : T)
  : HistoricalDataService T * list (string * T) :=
  let m := match histdatas svc !! persistKey with
           | None => map_insert persistKey data (histdatas svc)
           | Some _ => <[persistKey := data]> (histdatas svc)
           end in
  (mkService m (type svc), [(fileNames (type svc), data)]).

(** [HistoricalDataServiceListener::ProcessAdd(Inquiry<Bond>&)]: the key is
    the identifier of the product. *)
Definition ProcessAdd_Inquiry (svc : HistoricalDataService Inquiry.Inquiry)
    (data : Inquiry.Inquiry)
  : HistoricalDataService Inquiry.Inquiry * list (string * Inquiry.Inquiry) :=
  let persistKey := GetProductId (Inquiry.product data) in
  PersistData svc persistKey data.

(** [HistoricalDataServiceListener::ProcessAdd(Position<Bond>&)] *)
Definition ProcessAdd_Position (svc : HistoricalDataService Position.Position)
    (data : Position.Position)
  : HistoricalDataService Position.Position * list (string * Position.Position) :=
  let persistKey := GetProductId (Position.product data) in
  PersistData svc persistKey data.

(** The callbacks of a sequence, one after the other. *)
Fixpoint ProcessAdd_Inquiry_all (svc : HistoricalDataService Inquiry.Inquiry)
    (l : list Inquiry.Inquiry)
  : HistoricalDataService Inquiry.Inquiry * list (string * Inquiry.Inquiry) :=
  match l with
  | [] => (svc, [])
  | data :: rest =>
      let '(svc, out) := ProcessAdd_Inquiry svc data in
      let '(svc, out') := ProcessAdd_Inquiry_all svc rest in
      (svc, out ++ out')
  end.

End HistoricalData.

(** ** datagen.hpp *)

Module Datagen.

(** The variables the inner loop of [genOrderBooks] carries from one data
    point to the next. *)
Record BookLoop := mkBookLoop {
  midPrice : double;
  spreadIncreasing : bool;
  fixSpread : double
}.

(** Their values when the loop over the data points of a product starts. *)
Definition book_loop_start : BookLoop :=
  mkBookLoop (Q2Qc (99 # 1)) true (Q2Qc (1 # 128)).

(** What the loop over the levels writes for one level.  [size] is an
    [int]; the levels go from 1 to 5 and the product does not overflow. *)
Definition level_text (st : BookLoop) (level : Z) : string :=
  let fixBid := (midPrice st - fixSpread st * double_of_Z level / Q2Qc (2 # 1))%Qc in
  let fixAsk := (midPrice st + fixSpread st * double_of_Z level / Q2Qc (2 # 1))%Qc in
  let size := level * 1000000 in
  ("," ++ convertPrice_of_double fixBid ++ "," ++ to_string size
   ++ "," ++ convertPrice_of_double fixAsk ++ "," ++ to_string size)%string.

(** The line written for one data point. *)
Definition book_line (timestamp product : string) (st : BookLoop) : string :=
  foldl (fun line level => (line ++ level_text st level)%string)
        (timestamp ++ "," ++ product)%string [1; 2; 3; 4; 5].

(** The end of the body of the loop: the spread oscillates. *)
Definition book_loop_next (st : BookLoop) : BookLoop :=
  let fixSpread := if spreadIncreasing st
                   then (fixSpread st + Q2Qc (1 # 128))%Qc
                   else (fixSpread st - Q2Qc (1 # 128))%Qc in
  let spreadIncreasing :=
    if double_le (Q2Qc (1 # 32)) fixSpread then false
    else if double_le fixSpread (Q2Qc (1 # 128)) then true
    else spreadIncreasing st in
  mkBookLoop (midPrice st) spreadIncreasing fixSpread.

(** The lines [genOrderBooks] writes for one product, after the header;
    [timestamps] holds what [getTimeStamp] returns at each data point. *)
Fixpoint genOrderBooks_product (product : string) (timestamps : list string) (st : BookLoop)
  : list string :=
  match timestamps with
  | [] => []
  | timestamp :: rest =>
      book_line timestamp product st :: genOrderBooks_product product rest (book_loop_next st)
  end.

End Datagen.

(** ** main.cpp: the listeners linked *)

Module Main.

(** [tradeBookingService.AddListener(positionService.GetPositionListener())]
    makes the position listener the listener 0 of the trade-booking service;
    the position service gets the risk listener as its listener 0 and the
    historical position listener as its listener 1; the execution service
    gets the trade-booking listener as its listener 0 and the historical
    execution listener as its listener 1. *)
Definition position_listener : ListenerId := 0%nat.
Definition risk_listener : ListenerId := 0%nat.
Definition hist_position_listener : ListenerId := 1%nat.
Definition trade_booking_listener : ListenerId := 0%nat.
Definition hist_execution_listener : ListenerId := 1%nat.
Definition hist_risk_listener : ListenerId := 0%nat.

(** The services from trade booking to risk, linked as above. *)
Record BackOffice := mkBackOffice {
  booking_listener : TradeBooking.TradeBookingServiceListener;
  booking : TradeBooking.TradeBookingService;
  position : Position.PositionService;
  risk : Risk.RiskService
}.

Definition start : BackOffice :=
  mkBackOffice TradeBooking.init_listener
    (TradeBooking.mkService ∅ [position_listener])
    (Position.init [risk_listener; hist_position_listener])
    (Risk.mkService [hist_risk_listener] ∅).

(** The callbacks of the position service that go to the risk listener
    ([RiskServiceListener::ProcessAdd] calls [AddPosition]). *)
Definition to_risk (rs : Risk.RiskService) (calls : list (Callback Position.Position))
  : Risk.RiskService :=
  foldl (fun rs c => if (target c =? risk_listener)%nat
                     then (Risk.AddPosition rs (payload c)).1 else rs) rs calls.

(** The callbacks of the trade-booking service that go to the position
    listener ([PositionServiceListener::ProcessAdd] calls [AddTrade]), each
    followed by the callbacks it causes in turn. *)
Definition to_position (st : Position.PositionService * Risk.RiskService)
    (calls : list (Callback TradeBooking.Trade))
  : Position.PositionService * Risk.RiskService :=
  foldl (fun st c =>
           if (target c =? position_listener)%nat
           then let '(ps, pcalls) := Position.AddTrade st.1 (payload c) in
                (ps, to_risk st.2 pcalls)
           else st) st calls.

(** A trade reaching [TradeBookingService::OnMessage]. *)
Definition on_trade (bo : BackOffice) (t : TradeBooking.Trade) : BackOffice :=
  let '(tb, calls) := TradeBooking.OnMessage (booking bo) t in
  let '(ps, rs) := to_position (position bo, risk bo) calls in
  mkBackOffice (booking_listener bo) tb ps rs.

(** An execution order reaching [TradeBookingServiceListener::ProcessAdd]. *)
Definition on_execution (bo : BackOffice) (e : AlgoExecution.ExecutionOrder) : BackOffice :=
  let '(l, trade) := TradeBooking.make_trade (booking_listener bo) e in
  on_trade (mkBackOffice l (booking bo) (position bo) (risk bo)) trade.

Definition on_trades (bo : BackOffice) (ts : list TradeBooking.Trade) : BackOffice :=
  foldl on_trade bo ts.

End Main.

(** ** Sums, and the inputs the statements below are tried on *)

Definition Zsum (l : list Z) : Z := foldr Z.add 0 l.

(** The signed quantity of a trade: +quantity for BUY, -quantity for SELL. *)
Definition signed_quantity (t : TradeBooking.Trade) : Z :=
  match TradeBooking.side t with
  | TradeBooking.BUY => TradeBooking.quantity t
  | TradeBooking.SELL => - TradeBooking.quantity t
  end.

(** The trades of a sequence booked against one product. *)
Definition trades_of (pid : string) (ts : list TradeBooking.Trade) : list TradeBooking.Trade :=
  filter (fun t => GetProductId (TradeBooking.product t) = pid) ts.

(** The sum of the per-book quantities a position holds. *)
Definition stored_total (p : Position.Position) : Z :=
  Zsum ((map_to_list (Position.bookpositions p)).*2).

(** The quantity [PositionService::AddTrade] adds to the book of a trade. *)
Definition trade_delta (t : TradeBooking.Trade) : long :=
  match TradeBooking.side t with
  | TradeBooking.BUY => TradeBooking.quantity t
  | TradeBooking.SELL => long_neg (TradeBooking.quantity t)
  end.

(** The invariant of the position store: what it holds for a product agrees,
    modulo 2^64, with the signed trades booked against the product, and a
    product without an entry has had no trade. *)
Definition conserved (svc : Position.PositionService) (ts : list TradeBooking.Trade) : Prop :=
  forall pid,
    match Position.positions svc !! pid with
    | Some p => long_wrap (stored_total p) = long_wrap (Zsum (signed_quantity <$> trades_of pid ts))
    | None => trades_of pid ts = []
    end.

(** The book of the k-th execution, k counted from 1. *)
Definition cycle_book (k : Z) : string :=
  if k mod 3 =? 1 then "TRSY2" else if k mod 3 =? 2 then "TRSY3" else "TRSY1".

(** A string made of decimal digits only, and the number it writes when
    read after [acc]. *)
Fixpoint all_digits (s : string) : bool :=
  match s with
  | EmptyString => true
  | String c r => is_digit c && all_digits r
  end.

Fixpoint digits_value (s : string) (acc : Z) : Z :=
  match s with
  | EmptyString => acc
  | String c r => digits_value r (acc * 10 + digit_val c)
  end.

(** The price k/256. *)
Definition grid (k : Z) : double := Q2Qc (k # 256).

(** The quantity a stack holds at a price: the sum over its orders at that
    price. *)
Definition depth_at (p : Qc) (stack : list MarketData.Order) : Z :=
  Zsum (MarketData.quantity <$> filter (fun o => MarketData.price o = p) stack).

(** The running totals of a list of numbers: its sums up to each element. *)
Fixpoint running_totals (acc : Z) (l : list Z) : list Z :=
  match l with
  | [] => []
  | x :: rest => (acc + x) :: running_totals (acc + x) rest
  end.

(** The trades of a sequence booked against one product in one book. *)
Definition trades_of_book (pid b : string) (ts : list TradeBooking.Trade)
  : list TradeBooking.Trade :=
  filter (fun t => TradeBooking.book t = b) (trades_of pid ts).

(** A string without a comma. *)
Definition comma_free (s : string) : Prop := find "," s = None.

Definition US2Y : Bond := mkBond "9128283H1" CUSIP "US2Y" (decimal 1750 100000) "2025/12/30".
Definition US3Y : Bond := mkBond "9128283L2" CUSIP "US3Y" (decimal 1875 100000) "2026/12/30".

(** The price 99-160, that is 99 + 16/32. *)
Definition price_99_160 : double := Q2Qc (199 # 2).

Definition sample_inquiry : Inquiry.Inquiry :=
  Inquiry.mkInquiry "I1" US2Y TradeBooking.BUY 1000000 price_99_160 Inquiry.RECEIVED.

Definition sample_order (id : string) : AlgoExecution.ExecutionOrder :=
  AlgoExecution.mkExecutionOrder US2Y MarketData.BID id AlgoExecution.MARKET price_99_160
    1000000 0 "AP0000000000" false.

Definition nine_orders : list AlgoExecution.ExecutionOrder :=
  map sample_order ["A1"; "A2"; "A3"; "A4"; "A5"; "A6"; "A7"; "A8"; "A9"]%string.

(** A book whose best bid is 99 and whose best offer is 99 + 1/32. *)
Definition wide_book : MarketData.OrderBook :=
  MarketData.mkOrderBook US2Y
    [MarketData.mkOrder (Q2Qc (99 # 1)) 1000000 MarketData.BID]
    [MarketData.mkOrder (Q2Qc (3169 # 32)) 2000000 MarketData.OFFER].

Definition no_draws : Rand := mkRand (fun _ => 0) 0.

Definition some_garbage : AlgoExecution.Uninitialised :=
  AlgoExecution.mkUninitialised MarketData.OFFER (Q2Qc (- 7 # 1)) (- 12345).

(** The price 99 + 16/32 + 4/256. *)
Definition price_99_16_4 : double := (Q2Qc (99 # 1) + Q2Qc (16 # 32) + Q2Qc (4 # 256))%Qc.

(** Two trades on one book: a BUY of 1,000,000 and a SELL of 400,000. *)
Definition two_trades : list TradeBooking.Trade :=
  [TradeBooking.mkTrade US2Y "T1" price_99_160 "TRSY1" 1000000 TradeBooking.BUY;
   TradeBooking.mkTrade US2Y "T2" price_99_160 "TRSY1" 400000 TradeBooking.SELL].

(** A market-data service whose book for 9128283H1 has two bids and two
    offers at the same price. *)
Definition sample_market : MarketData.MarketDataService :=
  MarketData.mkService
    {[ "9128283H1"%string :=
         MarketData.mkOrderBook US2Y
           [MarketData.mkOrder (Q2Qc (99 # 1)) 1000000 MarketData.BID;
            MarketData.mkOrder (Q2Qc (99 # 1)) 2000000 MarketData.BID;
            MarketData.mkOrder (Q2Qc (197 # 2)) 3000000 MarketData.BID]
           [MarketData.mkOrder (Q2Qc (100 # 1)) 1000000 MarketData.OFFER;
            MarketData.mkOrder (Q2Qc (100 # 1)) 2000000 MarketData.OFFER] ]}
    [] 5.

(** A risk service holding a record for each of two products. *)
Definition record_2Y : Risk.PV01 Bond := Risk.mkPV01 US2Y (getPV01 "9128283H1") 600000.
Definition record_3Y : Risk.PV01 Bond := Risk.mkPV01 US3Y (getPV01 "9128283L2") (- 200000).

Definition sample_risk : Risk.RiskService :=
  Risk.mkService [] (<["9128283H1"%string := record_2Y]> {[ "9128283L2"%string := record_3Y ]}).

Definition sample_position : Position.Position :=
  Position.mkPosition US2Y (<["TRSY1"%string := 1000000]> {[ "TRSY2"%string := - 400000 ]}).

(** A line of the inquiry file with an unknown token in the state field. *)
Definition unknown_state_line : string := "I1,9128283H1,BUY,1000000,99-160,PENDING".

(** Lines of the sink each more than [th] milliseconds after the one
    before, the first one after [last]. *)
Fixpoint spaced (th : Z) (last : GUI.time_point) (out : list GUI.Line) : Prop :=
  match out with
  | [] => True
  | line :: rest => th < GUI.milliseconds (line.1 - last) /\ spaced th line.1 rest
  end.

(** Four prices arriving 0, 100, 200 and 400 ms after a clock reading [t0],
    at a service constructed one second before [t0]. *)
Definition sample_price : GUI.Price := GUI.mkPrice US2Y price_99_160 (Q2Qc (1 # 32)).

Definition four_prices (t0 : GUI.time_point) : list (GUI.time_point * GUI.Price) :=
  [(t0, sample_price); (t0 + 100 * GUI.ticks_per_ms, sample_price);
   (t0 + 200 * GUI.ticks_per_ms, sample_price); (t0 + 400 * GUI.ticks_per_ms, sample_price)].

(** A line of the market-data file for 9128283H1: five levels around 99 and
    100. *)
Definition sample_depth_line : string :=
  "2026-01-01 00:00:00.000,9128283H1,99-000,1000000,100-000,1000000,98-310,2000000,100-010,2000000,98-300,3000000,100-020,3000000,98-290,4000000,100-030,4000000,98-280,5000000,100-040,5000000".

(** A book whose best offer is 1/256 above its best bid of 99. *)
Definition tight_book : MarketData.OrderBook :=
  MarketData.mkOrderBook US2Y
    [MarketData.mkOrder (Q2Qc (99 # 1)) 1000000 MarketData.BID]
    [MarketData.mkOrder (Q2Qc (25345 # 256)) 2000000 MarketData.OFFER].

Definition tight_best : MarketData.BidOffer :=
  MarketData.mkBidOffer (MarketData.mkOrder (Q2Qc (99 # 1)) 1000000 MarketData.BID)
    (MarketData.mkOrder (Q2Qc (25345 # 256)) 2000000 MarketData.OFFER).

(** A line of the price file quoting 99-000 / 99-002 for 9128283H1. *)
Definition sample_price_line : string := "2026-01-01 00:00:00.000,9128283H1,99-000,99-002".

(** The invariant of the position store, book by book: a stored book holds
    the signed trades booked against it, modulo 2^64; a product or a book
    without an entry has had no trade. *)
Definition book_conserved (svc : Position.PositionService) (ts : list TradeBooking.Trade)
  : Prop :=
  forall pid,
    match Position.positions svc !! pid with
    | Some p =>
        forall b,
          match Position.bookpositions p !! b with
          | Some q => q = long_wrap (Zsum (signed_quantity <$> trades_of_book pid b ts))
          | None => trades_of_book pid b ts = []
          end
    | None => trades_of pid ts = []
    end.

(** The invariant of the risk store when every position event comes from
    the position service: the quantity of a record is the sum of the
    aggregate positions published so far for its product. *)
Definition risk_accumulated (rs : Risk.RiskService) (ts : list TradeBooking.Trade) : Prop :=
  forall pid,
    Risk.pv01s rs !! pid
    = match trades_of pid ts with
      | [] => None
      | t :: _ =>
          Some (Risk.mkPV01 (TradeBooking.product t) (getPV01 pid)
                  (long_wrap (Zsum (running_totals 0 (signed_quantity <$> trades_of pid ts)))))
      end.

(** Lines of the inquiry file: one with an unknown state, one RECEIVED, one
    REJECTED and one QUOTED. *)
Definition sample_inquiry_lines : list string :=
  [unknown_state_line;
   "I2,9128283H1,SELL,2000000,99-160,RECEIVED";
   "I3,9128283L2,BUY,3000000,100-000,REJECTED";
   "I4,9128283L2,BUY,3000000,100-000,QUOTED"]%string.

(** Lines of the trade file: the id T1 comes twice, and the side of T2 is
    written in lower case. *)
Definition sample_trade_lines : list string :=
  ["9128283H1,T1,99-160,TRSY1,1000000,BUY";
   "9128283H1,T2,99-160,TRSY2,2000000,sell";
   "9128283L2,T1,100-000,TRSY3,3000000,BUY"]%string.

(** The spread of the generated books, in 128ths, at the data point number
    [i] counted from 0: 1, 2, 3, 4, 3, 2 and again. *)
Definition spread_cycle (i : nat) : Z :=
  match (i mod 6)%nat with
  | 0%nat => 1
  | 1%nat => 2
  | 2%nat => 3
  | 3%nat => 4
  | 4%nat => 3
  | _ => 2
  end.

(** The orders of the five levels of a generated book whose spread is
    c/128: bids at 99 - c l/256 and offers at 99 + c l/256 for the level l, of
    l million each. *)
Definition generated_bids (c : Z) : list MarketData.Order :=
  (fun level => MarketData.mkOrder (grid (25344 - c * level)) (level * 1000000) MarketData.BID)
    <$> [1; 2; 3; 4; 5].

Definition generated_offers (c : Z) : list MarketData.Order :=
  (fun level => MarketData.mkOrder (grid (25344 + c * level)) (level * 1000000) MarketData.OFFER)
    <$> [1; 2; 3; 4; 5].

(** * Properties *)

(** ** Arithmetic of [long] *)

Section LongArithmetic.

Lemma long_wrap_in_long (z : Z) : in_long z -> long_wrap z = z.
Proof.
  unfold in_long, LONG_MIN, LONG_MAX, long_wrap. intros H.
  rewrite Z.mod_small; lia.
Qed.

Lemma long_wrap_range (z : Z) : in_long (long_wrap z).
Proof.
  unfold in_long, LONG_MIN, LONG_MAX, long_wrap.
  pose proof (Z.mod_pos_bound (z + 2 ^ 63) (2 ^ 64)). lia.
Qed.

Lemma long_wrap_idemp (z : Z) : long_wrap (long_wrap z) = long_wrap z.
Proof. apply long_wrap_in_long, long_wrap_range. Qed.

Lemma long_wrap_add_l (a b : Z) : long_wrap (long_wrap a + b) = long_wrap (a + b).
Proof.
  unfold long_wrap. f_equal.
  replace ((a + 2 ^ 63) mod 2 ^ 64 - 2 ^ 63 + b + 2 ^ 63)
    with ((a + 2 ^ 63) mod 2 ^ 64 + b) by lia.
  rewrite Zplus_mod_idemp_l. f_equal. lia.
Qed.

Lemma long_wrap_add_r (a b : Z) : long_wrap (a + long_wrap b) = long_wrap (a + b).
Proof. rewrite (Z.add_comm a), long_wrap_add_l. f_equal. lia. Qed.

Lemma long_add_0_l (a : Z) : long_add 0 a = long_wrap a.
Proof. reflexivity. Qed.

Lemma long_add_small (a b : Z) : in_long (a + b) -> long_add a b = a + b.
Proof. apply long_wrap_in_long. Qed.

End LongArithmetic.

(** ** Trade booking: the book cycle *)

Section BookCycle.

Import AlgoExecution TradeBooking.

Lemma make_trade_count l e : count (make_trade l e).1 = long_add (count l) 1.
Proof. reflexivity. Qed.

Lemma make_trade_book l e :
  0 <= count l < LONG_MAX ->
  book (make_trade l e).2 = cycle_book (count l + 1)
  /\ tradeId (make_trade l e).2 = orderId e.
Proof.
  intros Hc. split; [|reflexivity].
  unfold make_trade, cycle_book; simpl.
  rewrite long_add_small by (unfold in_long, LONG_MIN, LONG_MAX in *; lia).
  unfold long_rem. rewrite Z.rem_mod_nonneg by lia.
  pose proof (Z.mod_pos_bound (count l + 1) 3 ltac:(lia)).
  repeat case_match; auto; lia.
Qed.

Lemma ProcessAdd_listener st e : (ProcessAdd st e).1.1 = (make_trade st.1 e).1.
Proof.
  unfold ProcessAdd. destruct (make_trade st.1 e) as [l t].
  destruct (OnMessage st.2 t); reflexivity.
Qed.

(** [OnMessage] stores the trade under its id, over what was there. *)
Lemma OnMessage_insert svc t :
  TradeBooking.OnMessage svc t
  = (mkService (<[tradeId t := t]> (trades svc)) (listeners svc), notify (listeners svc) t).
Proof.
  unfold TradeBooking.OnMessage, map_insert.
  by destruct (trades svc !! tradeId t) eqn:E.
Qed.

(** One order: the trade built from it is stored and handed to every
    listener of the service. *)
Lemma ProcessAdd_spec st o :
  ProcessAdd st o
  = ((make_trade st.1 o).1,
     mkService (<[tradeId (make_trade st.1 o).2 := (make_trade st.1 o).2]> (trades st.2))
               (listeners st.2),
     notify (listeners st.2) (make_trade st.1 o).2).
Proof.
  unfold ProcessAdd. destruct (make_trade st.1 o) as [l t].
  by rewrite OnMessage_insert.
Qed.

Lemma ProcessAdd_all_cons st o rest :
  ProcessAdd_all st (o :: rest)
  = ((ProcessAdd_all (ProcessAdd st o).1 rest).1,
     (ProcessAdd st o).2 ++ (ProcessAdd_all (ProcessAdd st o).1 rest).2).
Proof.
  cbn [ProcessAdd_all].
  destruct (ProcessAdd st o) as [[l svc] calls].
  cbn [fst snd].
  by destruct (ProcessAdd_all (l, svc) rest) as [[l' svc'] calls'].
Qed.

(** A map after a sequence of trades has been stored, each under its id:
    the last trade of an id is the one kept. *)
Lemma foldl_insert_lookup (ts : list Trade) : forall (m : gmap string Trade) k,
  foldl (fun m t => <[tradeId t := t]> m) m ts !! k
  = match list.last (filter (fun t => tradeId t = k) ts) with
    | Some t => Some t
    | None => m !! k
    end.
Proof.
  induction ts as [|t ts IH] using rev_ind; intros m k; [reflexivity|].
  rewrite foldl_app, list.filter_app. cbn [foldl]. rewrite list.filter_cons, filter_nil.
  destruct (decide (tradeId t = k)) as [<-|Hne].
  - rewrite lookup_insert_eq, list.last_snoc. reflexivity.
  - rewrite lookup_insert_ne by done. rewrite app_nil_r. apply IH.
Qed.

(** A sequence of orders, from any value of the counter that is not
    negative: the trades built, what the listeners of the service get and
    what the store holds. *)
Lemma ProcessAdd_all_spec (orders : list ExecutionOrder) :
  forall st,
    0 <= count st.1 ->
    count st.1 + Z.of_nat (length orders) <= LONG_MAX ->
    exists ts,
      (ProcessAdd_all st orders).2 = flat_map (notify (listeners st.2)) ts
      /\ trades (ProcessAdd_all st orders).1.2
         = foldl (fun m t => <[tradeId t := t]> m) (trades st.2) ts
      /\ listeners (ProcessAdd_all st orders).1.2 = listeners st.2
      /\ count (ProcessAdd_all st orders).1.1 = count st.1 + Z.of_nat (length orders)
      /\ length ts = length orders
      /\ forall k e,
           orders !! k = Some e ->
           exists t,
             ts !! k = Some t
             /\ tradeId t = orderId e
             /\ product t = eo_product e
             /\ price t = eo_price e
             /\ quantity t = long_add (visibleQuantity e) (hiddenQuantity e)
             /\ side t = match eo_side e with
                         | MarketData.BID => BUY
                         | MarketData.OFFER => SELL
                         end
             /\ book t = cycle_book (count st.1 + Z.of_nat (S k)).
Proof.
  induction orders as [|o rest IH]; intros st H0 Hlen.
  - exists []. cbn. repeat split; try done. lia.
  - cbn [length] in Hlen.
    assert (Hc1 : count (ProcessAdd st o).1.1 = count st.1 + 1).
    { rewrite ProcessAdd_listener, make_trade_count. apply long_add_small.
      unfold in_long, LONG_MIN, LONG_MAX in *. lia. }
    destruct (IH (ProcessAdd st o).1 ltac:(lia) ltac:(lia))
      as (ts & Hcalls & Hstore & Hls & Hcount & Hlts & Hk).
    rewrite ProcessAdd_all_cons. cbn [fst snd].
    rewrite Hcalls, Hstore, Hls, Hcount, Hc1.
    rewrite ProcessAdd_spec. cbn [fst snd trades listeners].
    exists ((make_trade st.1 o).2 :: ts). cbn [flat_map foldl length].
    split; [reflexivity|]. split; [reflexivity|]. split; [reflexivity|].
    split; [lia|]. split; [by rewrite Hlts|].
    intros [|k] e He; cbn in He.
    + injection He as ->. exists (make_trade st.1 e).2.
      destruct (make_trade_book st.1 e ltac:(lia)) as [Hb Hid].
      split; [reflexivity|]. split; [exact Hid|]. do 4 (split; [reflexivity|]).
      rewrite Hb. reflexivity.
    + destruct (Hk k e He) as (t & Ht & Hid & Hp & Hpr & Hq & Hs & Hb).
      exists t. split; [exact Ht|]. do 5 (split; [assumption|]).
      rewrite Hb, Hc1. f_equal. lia.
Qed.

End BookCycle.

(** C6.  When a sequence of execution orders is handed to the trade-booking
    listener (its counter starting at 0 and, a [long], not running over), the
    listener books one trade for each order, in order: each trade is handed
    to every listener of the trade-booking service and stored by the service
    under its id, the last trade of an id being the one the store keeps.  The
    trade of the k-th order (k counted from 1) carries the id, product and
    price of the order, the sum of its visible and hidden quantities, BUY for
    BID and SELL for OFFER, and the book TRSY2 when k mod 3 = 1, TRSY3 when
    k mod 3 = 2 and TRSY1 when k mod 3 = 0. *)
Theorem C6_trade_booking_book_cycle
    (svc : TradeBooking.TradeBookingService)
    (orders : list AlgoExecution.ExecutionOrder) :
  Z.of_nat (length orders) <= LONG_MAX ->
  exists ts : list TradeBooking.Trade,
    (TradeBooking.ProcessAdd_all (TradeBooking.init_listener, svc) orders).2
    = flat_map (notify (TradeBooking.listeners svc)) ts
    /\ (forall id,
          TradeBooking.trades
            (TradeBooking.ProcessAdd_all (TradeBooking.init_listener, svc) orders).1.2 !! id
          = match list.last (filter (fun t => TradeBooking.tradeId t = id) ts) with
            | Some t => Some t
            | None => TradeBooking.trades svc !! id
            end)
    /\ length ts = length orders
    /\ forall (k : nat) (e : AlgoExecution.ExecutionOrder),
         orders !! k = Some e ->
         exists t,
           ts !! k = Some t
           /\ TradeBooking.tradeId t = AlgoExecution.orderId e
           /\ TradeBooking.product t = AlgoExecution.eo_product e
           /\ TradeBooking.price t = AlgoExecution.eo_price e
           /\ TradeBooking.quantity t
              = long_add (AlgoExecution.visibleQuantity e) (AlgoExecution.hiddenQuantity e)
           /\ TradeBooking.side t
              = match AlgoExecution.eo_side e with
                | MarketData.BID => TradeBooking.BUY
                | MarketData.OFFER => TradeBooking.SELL
                end
           /\ TradeBooking.book t =
                (if (Z.of_nat (S k) mod 3 =? 1)%Z then "TRSY2"
                 else if (Z.of_nat (S k) mod 3 =? 2)%Z then "TRSY3" else "TRSY1")%string.
Proof.
  intros Hlen.
  destruct (ProcessAdd_all_spec orders (TradeBooking.init_listener, svc)
              ltac:(simpl; lia) ltac:(simpl; lia))
    as (ts & Hcalls & Hstore & _ & _ & Hlts & Hk).
  exists ts. split; [exact Hcalls|]. split.
  { intros id. rewrite Hstore. apply foldl_insert_lookup. }
  split; [exact Hlts|].
  intros k e He. destruct (Hk k e He) as (t & Ht & Hid & Hp & Hpr & Hq & Hs & Hb).
  exists t. do 6 (split; [assumption|]). rewrite Hb. reflexivity.
Qed.

(** Executions 1..9, whatever they are, reach a listener of the
    trade-booking service as trades on TRSY2, TRSY3, TRSY1 three times
    over. *)
Lemma nine_executions_books (trades : gmap string TradeBooking.Trade) (listener : ListenerId)
    (e1 e2 e3 e4 e5 e6 e7 e8 e9 : AlgoExecution.ExecutionOrder) :
  map (fun c => TradeBooking.book (payload c))
      (TradeBooking.ProcessAdd_all
         (TradeBooking.init_listener, TradeBooking.mkService trades [listener])
         [e1; e2; e3; e4; e5; e6; e7; e8; e9]).2
  = ["TRSY2"; "TRSY3"; "TRSY1"; "TRSY2"; "TRSY3"; "TRSY1"; "TRSY2"; "TRSY3"; "TRSY1"]%string.
Proof.
  destruct (ProcessAdd_all_spec [e1; e2; e3; e4; e5; e6; e7; e8; e9]
              (TradeBooking.init_listener, TradeBooking.mkService trades [listener])
              ltac:(simpl; lia) ltac:(unfold LONG_MAX; simpl; lia))
    as (ts & -> & _ & _ & _ & Hlen & Hk).
  do 9 (destruct ts as [|? ts]; [discriminate Hlen|]).
  destruct ts as [|? ts]; [|discriminate Hlen].
  destruct (Hk 0%nat e1 eq_refl) as (? & [= <-] & _ & _ & _ & _ & _ & H1).
  destruct (Hk 1%nat e2 eq_refl) as (? & [= <-] & _ & _ & _ & _ & _ & H2).
  destruct (Hk 2%nat e3 eq_refl) as (? & [= <-] & _ & _ & _ & _ & _ & H3).
  destruct (Hk 3%nat e4 eq_refl) as (? & [= <-] & _ & _ & _ & _ & _ & H4).
  destruct (Hk 4%nat e5 eq_refl) as (? & [= <-] & _ & _ & _ & _ & _ & H5).
  destruct (Hk 5%nat e6 eq_refl) as (? & [= <-] & _ & _ & _ & _ & _ & H6).
  destruct (Hk 6%nat e7 eq_refl) as (? & [= <-] & _ & _ & _ & _ & _ & H7).
  destruct (Hk 7%nat e8 eq_refl) as (? & [= <-] & _ & _ & _ & _ & _ & H8).
  destruct (Hk 8%nat e9 eq_refl) as (? & [= <-] & _ & _ & _ & _ & _ & H9).
  cbn [flat_map notify map app payload TradeBooking.listeners snd].
  rewrite H1, H2, H3, H4, H5, H6, H7, H8, H9. reflexivity.
Qed.

(** ** Risk: what a further position event leaves alone *)

Section RiskFrame.

Import Position Risk.

Lemma AddPosition_found svc pos r :
  pv01s svc !! GetProductId (Position.product pos) = Some r ->
  pv01s (AddPosition svc pos).1
  = <[GetProductId (Position.product pos) := AddQuantity r (GetAggregatePosition pos)]>
      (pv01s svc).
Proof. intros H. unfold AddPosition. cbn. rewrite H. reflexivity. Qed.

Lemma AddPosition_missing svc pos :
  pv01s svc !! GetProductId (Position.product pos) = None ->
  pv01s (AddPosition svc pos).1
  = <[GetProductId (Position.product pos) :=
        mkPV01 (Position.product pos) (getPV01 (GetProductId (Position.product pos)))
               (GetAggregatePosition pos)]> (pv01s svc).
Proof.
  intros H. unfold AddPosition. cbn. rewrite H. unfold map_insert. rewrite H. reflexivity.
Qed.

Lemma AddPosition_keeps svc pos pid r :
  pv01s svc !! pid = Some r ->
  exists r', pv01s (AddPosition svc pos).1 !! pid = Some r'
             /\ pv01 r' = pv01 r /\ product r' = product r.
Proof.
  intros H.
  destruct (pv01s svc !! GetProductId (Position.product pos)) as [r0|] eqn:E.
  - rewrite (AddPosition_found _ _ _ E).
    destruct (decide (GetProductId (Position.product pos) = pid)) as [<-|Hne].
    + rewrite lookup_insert_eq. eexists. split; [done|].
      assert (r0 = r) as -> by congruence. done.
    + rewrite lookup_insert_ne by done. eauto.
  - rewrite (AddPosition_missing _ _ E).
    assert (GetProductId (Position.product pos) <> pid) by congruence.
    rewrite lookup_insert_ne by done. eauto.
Qed.

Lemma AddPosition_all_keeps ps : forall svc pid r,
  pv01s svc !! pid = Some r ->
  exists r', pv01s (AddPosition_all svc ps) !! pid = Some r'
             /\ pv01 r' = pv01 r /\ product r' = product r.
Proof.
  induction ps as [|p ps IH]; intros svc pid r H; [by exists r|].
  destruct (AddPosition_keeps svc p pid r H) as (r1 & H1 & Hf & Hp).
  destruct (IH _ _ _ H1) as (r2 & H2 & Hf2 & Hp2).
  exists r2. split; [exact H2|]. split; congruence.
Qed.

End RiskFrame.

(** C10.  When the risk service already holds a PV01 record for a product, a
    further Position event for that product adds the incoming aggregate
    position to the quantity of the record (in [long] arithmetic, hence the
    plain sum whenever that is in range) and changes neither its factor nor
    its product, nor any other record; and whatever Position events follow,
    the factor and the product of the record stay as they were. *)
Theorem C10_risk_add_position_frame
    (svc : Risk.RiskService) (pos : Position.Position) (r : Risk.PV01 Bond) :
  Risk.pv01s svc !! GetProductId (Position.product pos) = Some r ->
  (exists r',
      Risk.pv01s (Risk.AddPosition svc pos).1 !! GetProductId (Position.product pos) = Some r'
      /\ Risk.quantity r' = long_add (Risk.quantity r) (Position.GetAggregatePosition pos)
      /\ (in_long (Risk.quantity r + Position.GetAggregatePosition pos) ->
          Risk.quantity r' = Risk.quantity r + Position.GetAggregatePosition pos)
      /\ Risk.pv01 r' = Risk.pv01 r
      /\ Risk.product r' = Risk.product r)
  /\ (forall k, k <> GetProductId (Position.product pos) ->
        Risk.pv01s (Risk.AddPosition svc pos).1 !! k = Risk.pv01s svc !! k)
  /\ (forall ps : list Position.Position,
        exists r',
          Risk.pv01s (Risk.AddPosition_all svc ps) !! GetProductId (Position.product pos) = Some r'
          /\ Risk.pv01 r' = Risk.pv01 r
          /\ Risk.product r' = Risk.product r).
Proof.
  intros H. split; [|split].
  - rewrite (AddPosition_found _ _ _ H), lookup_insert_eq.
    eexists. split; [reflexivity|]. cbn.
    split; [reflexivity|]. split; [apply long_add_small|]. done.
  - intros k Hk. rewrite (AddPosition_found _ _ _ H).
    by rewrite lookup_insert_ne.
  - intros ps. by apply AddPosition_all_keeps.
Qed.

(** ** Inquiries: decoding the state field *)

Section InquiryDecoder.

Import Inquiry.

Lemma decode_state_unknown (tok : string) :
  tok <> "RECEIVED"%string -> tok <> "QUOTED"%string ->
  tok <> "DONE"%string -> tok <> "REJECTED"%string ->
  decode_state tok = CUSTOMER_REJECTED.
Proof.
  intros H1 H2 H3 H4. unfold decode_state.
  apply String.eqb_neq in H1, H2, H3, H4.
  by rewrite H1, H2, H3, H4.
Qed.

(** An inquiry that is neither RECEIVED nor QUOTED nor DONE is stored and
    fanned out as it is. *)
Lemma OnMessage_terminal fuel svc data :
  state data <> RECEIVED -> state data <> QUOTED -> state data <> DONE ->
  OnMessage (S fuel) svc data
  = Some (mkService (<[inquiryId data := data]> (inquirys svc)) (listeners svc),
          data, notify (listeners svc) data).
Proof.
  intros H1 H2 H3. cbn [OnMessage].
  destruct (state data) eqn:E; try done; cbn; rewrite E; by rewrite decide_False.
Qed.

End InquiryDecoder.

(** C9.  A line of the inquiry file whose sixth field is none of RECEIVED,
    QUOTED, DONE, REJECTED, and whose other fields are accepted (a known
    CUSIP, a quantity [stol] reads, a price [convertPrice] reads), is decoded
    into an inquiry in state CUSTOMER_REJECTED; the run goes on: the service
    stores the inquiry under its id and hands it to the listeners. *)
Theorem C9_unknown_state_is_customer_rejected
    (line f0 f1 f2 f3 f4 f5 : string) (more : list string) :
  getline_fields line "" = f0 :: f1 :: f2 :: f3 :: f4 :: f5 :: more ->
  is_Some (getProductObject f1) ->
  is_Some (stol f3) ->
  is_Some (convertPrice_of_string f4) ->
  f5 <> "RECEIVED"%string -> f5 <> "QUOTED"%string ->
  f5 <> "DONE"%string -> f5 <> "REJECTED"%string ->
  exists inq,
    Inquiry.decode_line line = Some inq
    /\ Inquiry.inquiryId inq = f0
    /\ Inquiry.state inq = Inquiry.CUSTOMER_REJECTED
    /\ forall (fuel : nat) (svc : Inquiry.InquiryService),
         Inquiry.Subscribe (S fuel) svc [line]
         = Some (Inquiry.mkService (<[f0 := inq]> (Inquiry.inquirys svc)) (Inquiry.listeners svc),
                 notify (Inquiry.listeners svc) inq).
Proof.
  intros Hf [p Hp] [q Hq] [x Hx] H1 H2 H3 H4.
  pose proof (decode_state_unknown f5 H1 H2 H3 H4) as Hs.
  assert (Hd : Inquiry.decode_line line
               = Some (Inquiry.mkInquiry f0 p
                         (if String.eqb f2 "BUY" then TradeBooking.BUY else TradeBooking.SELL)
                         q x Inquiry.CUSTOMER_REJECTED)).
  { unfold Inquiry.decode_line. rewrite Hf. cbn. rewrite Hp. cbn. rewrite Hq. cbn.
    rewrite Hx. cbn. by rewrite Hs. }
  eexists. split; [exact Hd|]. split; [done|]. split; [done|].
  intros fuel svc. cbn [Inquiry.Subscribe]. rewrite Hd. cbn [mbind option_bind].
  rewrite OnMessage_terminal by done. cbn. by rewrite app_nil_r.
Qed.

(** ** Algo execution: the spread test *)

(** C2 (what the code does).  On a book whose best offer is more than 1/128
    above its best bid, [AlgoExecuteOrder] advances the counter and then goes
    on as for a tight book: an AlgoExecution whose side, price and visible
    quantity are whatever the three unassigned locals hold is stored under the
    product and handed to every listener. *)
Theorem C2_wide_spread_still_emits
    (u : AlgoExecution.Uninitialised) (g : Rand)
    (svc : AlgoExecution.AlgoExecutionService)
    (book : MarketData.OrderBook) (bo : MarketData.BidOffer) :
  MarketData.GetBestBidOffer book = Some bo ->
  double_le (MarketData.price (MarketData.offerOrder bo)
             - MarketData.price (MarketData.bidOrder bo))%Qc (Q2Qc (1 # 128)) = false ->
  exists svc' g' exec,
    AlgoExecution.AlgoExecuteOrder u g svc book
    = Some (svc', g', notify (AlgoExecution.listeners svc) exec)
    /\ AlgoExecution.algoExecutions svc' !! GetProductId (MarketData.product book) = Some exec
    /\ AlgoExecution.count svc' = long_add (AlgoExecution.count svc) 1
    /\ AlgoExecution.eo_side (AlgoExecution.executionOrder exec) = AlgoExecution.u_side u
    /\ AlgoExecution.eo_price (AlgoExecution.executionOrder exec) = AlgoExecution.u_price u
    /\ AlgoExecution.visibleQuantity (AlgoExecution.executionOrder exec)
       = AlgoExecution.u_quantity u.
Proof.
  intros Hbo Hwide. unfold AlgoExecution.AlgoExecuteOrder.
  destruct (GenerateRandomId 11 g) as [id1 g1].
  destruct (GenerateRandomId 10 g1) as [id2 g2].
  rewrite Hbo. cbn [mbind option_bind]. rewrite Hwide.
  eexists _, _, _. split; [reflexivity|]. cbn.
  split; [|done].
  unfold map_insert.
  destruct (AlgoExecution.algoExecutions svc !! GetProductId (MarketData.product book)) eqn:E.
  - rewrite lookup_delete_eq. apply lookup_insert_eq.
  - rewrite E. apply lookup_insert_eq.
Qed.

(** ** GUI: the throttle *)

(** C4 (what the code does).  A Price event reaches the GUI service through
    [GUIServiceListener::ProcessAdd], which calls [OnMessage], whose body is
    empty: whatever the events and their times, nothing is written to the
    sink and the service, its reference time included, is unchanged. *)
Theorem C4_gui_listener_writes_nothing
    (svc : GUI.GUIService) (events : list (GUI.time_point * GUI.Price)) :
  GUI.ProcessAdd_all svc events = (svc, []).
Proof.
  induction events as [|[t p] rest IH]; [reflexivity|].
  cbn [GUI.ProcessAdd_all GUI.ProcessAdd GUI.OnMessage]. by rewrite IH.
Qed.

(** [PublishThrottledPrice], which nothing calls, is where the throttle is:
    handed the same events it lets through those that come more than 300 ms
    after the last line it wrote, and takes the time of each line it writes as
    the new reference. *)
Lemma PublishThrottledPrice_emits now svc p :
  GUI.throttle svc < GUI.milliseconds (now - GUI.cur_time svc) ->
  GUI.PublishThrottledPrice now svc p
  = (GUI.mkService (GUI.guis svc) (GUI.listeners svc) (GUI.throttle svc) now, [(now, p)]).
Proof. intros H. unfold GUI.PublishThrottledPrice. by apply Z.ltb_lt in H as ->. Qed.

Lemma PublishThrottledPrice_drops now svc p :
  GUI.milliseconds (now - GUI.cur_time svc) <= GUI.throttle svc ->
  GUI.PublishThrottledPrice now svc p = (svc, []).
Proof. intros H. unfold GUI.PublishThrottledPrice. by apply Z.ltb_ge in H as ->. Qed.

Lemma PublishThrottledPrice_all_spaced events : forall svc,
  spaced (GUI.throttle svc) (GUI.cur_time svc) (GUI.PublishThrottledPrice_all svc events).2.
Proof.
  induction events as [|[t p] rest IH]; intros svc; [exact I|].
  cbn [GUI.PublishThrottledPrice_all].
  destruct (Z.lt_ge_cases (GUI.throttle svc) (GUI.milliseconds (t - GUI.cur_time svc))) as [H|H].
  - rewrite (PublishThrottledPrice_emits _ _ _ H).
    specialize (IH (GUI.mkService (GUI.guis svc) (GUI.listeners svc) (GUI.throttle svc) t)).
    destruct (GUI.PublishThrottledPrice_all _ rest) as [svc' out'].
    cbn in *. done.
  - rewrite (PublishThrottledPrice_drops _ _ _ H).
    specialize (IH svc).
    destruct (GUI.PublishThrottledPrice_all _ rest) as [svc' out']. exact IH.
Qed.

(** Prices at 0, 100, 200 and 400 ms: the throttle would write the first and
    the last; through the listener none is written. *)
Lemma four_prices_throttled (t0 : GUI.time_point) :
  (GUI.PublishThrottledPrice_all (GUI.init (t0 - 1000 * GUI.ticks_per_ms)) (four_prices t0)).2
  = [(t0, sample_price); (t0 + 400 * GUI.ticks_per_ms, sample_price)].
Proof.
  unfold four_prices, GUI.init. cbn [GUI.PublishThrottledPrice_all].
  rewrite PublishThrottledPrice_emits.
  2:{ cbn [GUI.throttle GUI.cur_time]. unfold GUI.milliseconds, GUI.ticks_per_ms.
      replace (t0 - (t0 - 1000 * 1000000)) with (1000 * 1000000) by lia. by vm_compute. }
  rewrite PublishThrottledPrice_drops.
  2:{ cbn [GUI.throttle GUI.cur_time]. unfold GUI.milliseconds, GUI.ticks_per_ms.
      replace (t0 + 100 * 1000000 - t0) with (100 * 1000000) by lia. by vm_compute. }
  rewrite PublishThrottledPrice_drops.
  2:{ cbn [GUI.throttle GUI.cur_time]. unfold GUI.milliseconds, GUI.ticks_per_ms.
      replace (t0 + 200 * 1000000 - t0) with (200 * 1000000) by lia. by vm_compute. }
  rewrite PublishThrottledPrice_emits.
  2:{ cbn [GUI.throttle GUI.cur_time]. unfold GUI.milliseconds, GUI.ticks_per_ms.
      replace (t0 + 400 * 1000000 - t0) with (400 * 1000000) by lia. by vm_compute. }
  reflexivity.
Qed.

Lemma four_prices_through_listener (t0 : GUI.time_point) :
  (GUI.ProcessAdd_all (GUI.init (t0 - 1000 * GUI.ticks_per_ms)) (four_prices t0)).2 = [].
Proof. reflexivity. Qed.

(** ** Inquiries: the chain started by a RECEIVED inquiry *)

Section InquiryChain.

Import Inquiry.

(** What [OnMessage] does with a RECEIVED inquiry, call by call.  [Publish]
    sets QUOTED and re-enters [OnMessage], whose QUOTED branch sets DONE
    before anything is handed to the listeners; [Publish] then sets DONE
    and re-enters once more; the outer [OnMessage] resumes with the object
    [Publish] worked on, which is in state DONE by then. *)
Lemma OnMessage_received fuel svc data :
  state data = RECEIVED ->
  OnMessage (S (S fuel)) svc data
  = Some (mkService
            (delete (inquiryId data)
               (delete (inquiryId data)
                  (delete (inquiryId data)
                     (map_insert (inquiryId data) (SetState data DONE)
                        match inquirys svc !! inquiryId data with
                        | Some _ => delete (inquiryId data) (inquirys svc)
                        | None => inquirys svc
                        end))))
            (listeners svc),
          SetState data DONE,
          (notify (listeners svc) (SetState data DONE)
           ++ notify (listeners svc) (SetState data DONE))
          ++ notify (listeners svc) (SetState data DONE)).
Proof.
  intros H. cbn [OnMessage]. rewrite H. unfold Publish_with. rewrite H.
  cbn. reflexivity.
Qed.

Lemma OnMessage_no_fuel svc data : OnMessage 0 svc data = None.
Proof. reflexivity. Qed.

Lemma OnMessage_received_one_fuel svc data :
  state data = RECEIVED -> OnMessage 1 svc data = None.
Proof. intros H. cbn. rewrite H. unfold Publish_with. rewrite H. reflexivity. Qed.

End InquiryChain.

(** C1 (as the code has it).  An inquiry handed to [OnMessage] in state
    RECEIVED makes the service call [ProcessAdd] three times on each of its
    listeners, and every one of the three calls carries the inquiry in state
    DONE; afterwards the store has no entry under the inquiry's id and its
    other entries are as before.  Two nested calls are enough for the chain to
    complete. *)
Theorem C1_received_inquiry_three_callbacks
    (fuel : nat) (svc : Inquiry.InquiryService) (data : Inquiry.Inquiry) :
  Inquiry.state data = Inquiry.RECEIVED ->
  exists svc',
    Inquiry.OnMessage (S (S fuel)) svc data
    = Some (svc', Inquiry.SetState data Inquiry.DONE,
            (notify (Inquiry.listeners svc) (Inquiry.SetState data Inquiry.DONE)
             ++ notify (Inquiry.listeners svc) (Inquiry.SetState data Inquiry.DONE))
            ++ notify (Inquiry.listeners svc) (Inquiry.SetState data Inquiry.DONE))
    /\ Inquiry.inquirys svc' !! Inquiry.inquiryId data = None
    /\ Inquiry.listeners svc' = Inquiry.listeners svc
    /\ forall k, k <> Inquiry.inquiryId data ->
         Inquiry.inquirys svc' !! k = Inquiry.inquirys svc !! k.
Proof.
  intros H. rewrite (OnMessage_received fuel svc data H).
  eexists. split; [reflexivity|]. cbn.
  split; [apply lookup_delete_eq|]. split; [reflexivity|].
  intros k Hk. rewrite !lookup_delete_ne by done.
  unfold map_insert.
  destruct (Inquiry.inquirys svc !! Inquiry.inquiryId data) eqn:E.
  - rewrite lookup_delete_eq, lookup_insert_ne, lookup_delete_ne by done. done.
  - rewrite E, lookup_insert_ne by done. done.
Qed.

(** The claim as the specification words it, tried on the inquiry I1 with one
    listener registered: the three callbacks would have to carry RECEIVED,
    QUOTED and DONE in this order. *)
Lemma C1_states_received_quoted_done_refuted :
  ~ exists svc' data' c1 c2 c3,
      Inquiry.OnMessage 3 (Inquiry.init [0%nat]) sample_inquiry
      = Some (svc', data', [c1; c2; c3])
      /\ Inquiry.state (payload c1) = Inquiry.RECEIVED
      /\ Inquiry.state (payload c2) = Inquiry.QUOTED
      /\ Inquiry.state (payload c3) = Inquiry.DONE
      /\ Inquiry.inquirys svc' !! "I1"%string = None.
Proof.
  intros (svc' & data' & c1 & c2 & c3 & Hrun & H1 & _).
  rewrite (OnMessage_received 1 (Inquiry.init [0%nat]) sample_inquiry eq_refl) in Hrun.
  cbn in Hrun. injection Hrun as _ _ <- _ _. discriminate H1.
Qed.

(** ** Positions: the aggregate is the sum of the signed trades *)

Section PositionConservation.

Import TradeBooking Position.

Lemma Zsum_app l1 l2 : Zsum (l1 ++ l2) = Zsum l1 + Zsum l2.
Proof. unfold Zsum. induction l1 as [|x l1 IH]; cbn; lia. Qed.

Lemma Zsum_perm l1 l2 : l1 ≡ₚ l2 -> Zsum l1 = Zsum l2.
Proof. unfold Zsum. induction 1; cbn; lia. Qed.

Lemma foldl_long_add (l : list (string * long)) : forall a,
  in_long a ->
  foldl (fun aggposition it => long_add aggposition it.2) a l = long_wrap (a + Zsum (l.*2)).
Proof.
  unfold Zsum. induction l as [|[b q] l IH]; intros a Ha; cbn.
  - rewrite Z.add_0_r. symmetry. by apply long_wrap_in_long.
  - rewrite IH by apply long_wrap_range.
    unfold long_add. rewrite long_wrap_add_l. f_equal. lia.
Qed.

Lemma GetAggregatePosition_stored p :
  GetAggregatePosition p = long_wrap (stored_total p).
Proof.
  unfold GetAggregatePosition, stored_total.
  rewrite foldl_long_add; [done|]. unfold in_long, LONG_MIN, LONG_MAX. lia.
Qed.

Lemma stored_insert_fresh (m : gmap string long) k x :
  m !! k = None ->
  Zsum ((map_to_list (<[k := x]> m)).*2) = x + Zsum ((map_to_list m).*2).
Proof.
  intros H. rewrite (Zsum_perm _ (((k, x) :: map_to_list m).*2)); [done|].
  by rewrite map_to_list_insert.
Qed.

Lemma stored_insert_present (m : gmap string long) k v x :
  m !! k = Some v ->
  Zsum ((map_to_list (<[k := x]> m)).*2) = x - v + Zsum ((map_to_list m).*2).
Proof.
  intros H.
  rewrite <- insert_delete_eq.
  rewrite stored_insert_fresh by apply lookup_delete_eq.
  rewrite (Zsum_perm ((map_to_list m).*2) (((k, v) :: map_to_list (delete k m)).*2)).
  - unfold Zsum. cbn. lia.
  - by rewrite map_to_list_delete.
Qed.

Lemma AddPosition_stored p b q :
  long_wrap (stored_total (AddPosition p b q)) = long_wrap (stored_total p + q).
Proof.
  unfold AddPosition, stored_total.
  destruct (bookpositions p !! b) as [v|] eqn:E; cbn.
  - rewrite (stored_insert_present _ _ _ _ E). unfold long_add.
    replace (long_wrap (v + q) - v + Zsum (map_to_list (bookpositions p)).*2)
      with (long_wrap (v + q) + (Zsum (map_to_list (bookpositions p)).*2 - v)) by lia.
    rewrite long_wrap_add_l. f_equal. lia.
  - unfold map_insert. rewrite E, (stored_insert_fresh _ _ _ E). f_equal. lia.
Qed.

Lemma wrap_trade_delta x t :
  long_wrap (x + trade_delta t) = long_wrap (x + signed_quantity t).
Proof.
  unfold trade_delta, signed_quantity. destruct (side t); [done|].
  apply long_wrap_add_r.
Qed.

Lemma AddTrade_positions svc t :
  positions (AddTrade svc t).1
  = <[GetProductId (TradeBooking.product t) :=
        AddPosition (default (new_Position (TradeBooking.product t))
                             (positions svc !! GetProductId (TradeBooking.product t)))
                    (book t) (trade_delta t)]> (positions svc).
Proof.
  unfold AddTrade, GetData, trade_delta. cbn.
  destruct (positions svc !! GetProductId (TradeBooking.product t)) as [p|] eqn:E; cbn.
  - rewrite lookup_insert_eq. done.
  - unfold map_insert. rewrite E, lookup_insert_eq. done.
Qed.

Lemma trades_of_snoc pid ts t :
  trades_of pid (ts ++ [t])
  = trades_of pid ts ++ (if decide (GetProductId (TradeBooking.product t) = pid) then [t] else []).
Proof.
  unfold trades_of. rewrite list.filter_app. reflexivity.
Qed.

Lemma conserved_step svc ts t :
  conserved svc ts -> conserved (AddTrade svc t).1 (ts ++ [t]).
Proof.
  intros Inv pid. rewrite AddTrade_positions, trades_of_snoc.
  specialize (Inv pid).
  destruct (decide (GetProductId (TradeBooking.product t) = pid)) as [E|Hne]; [subst pid|].
  - rewrite lookup_insert_eq, AddPosition_stored, fmap_app, Zsum_app. cbn.
    rewrite wrap_trade_delta, Z.add_0_r.
    destruct (positions svc !! GetProductId (TradeBooking.product t)) as [p|]; cbn.
    + rewrite <- long_wrap_add_l, Inv, long_wrap_add_l. done.
    + rewrite Inv. done.
  - rewrite lookup_insert_ne by done. rewrite app_nil_r. exact Inv.
Qed.

Lemma AddTrade_all_snoc svc ts t :
  AddTrade_all svc (ts ++ [t]) = (AddTrade (AddTrade_all svc ts) t).1.
Proof. unfold AddTrade_all. by rewrite foldl_app. Qed.

Lemma conserved_all ls ts : conserved (AddTrade_all (init ls) ts) ts.
Proof.
  induction ts as [|t ts IH] using rev_ind.
  - intros pid. reflexivity.
  - rewrite AddTrade_all_snoc. by apply conserved_step.
Qed.

(** The aggregate position of a product, modulo 2^64, with no side
    condition. *)
Lemma aggregate_position_modular ls ts pid :
  GetAggregatePosition (GetData (AddTrade_all (init ls) ts) pid).2
  = long_wrap (Zsum (signed_quantity <$> trades_of pid ts)).
Proof.
  rewrite GetAggregatePosition_stored.
  pose proof (conserved_all ls ts pid) as Inv. unfold GetData.
  destruct (positions (AddTrade_all (init ls) ts) !! pid) as [p|]; cbn.
  - exact Inv.
  - rewrite Inv. reflexivity.
Qed.

End PositionConservation.

(** C5.  After the position service, started empty, has processed any
    sequence of trades, the aggregate position of a product is the sum over
    the trades booked against that product of +quantity for a BUY and
    -quantity for a SELL, and it is the sum of the per-book quantities the
    position holds; both sums are taken to fit a [long], the type of the
    aggregate. *)
Theorem C5_position_conservation
    (ls : list ListenerId) (ts : list TradeBooking.Trade) (pid : string) :
  in_long (Zsum (signed_quantity <$> trades_of pid ts)) ->
  in_long (stored_total (Position.GetData (Position.AddTrade_all (Position.init ls) ts) pid).2) ->
  Position.GetAggregatePosition (Position.GetData (Position.AddTrade_all (Position.init ls) ts) pid).2
  = Zsum (signed_quantity <$> trades_of pid ts)
  /\ Position.GetAggregatePosition (Position.GetData (Position.AddTrade_all (Position.init ls) ts) pid).2
     = stored_total (Position.GetData (Position.AddTrade_all (Position.init ls) ts) pid).2.
Proof.
  intros Ht Hs. split.
  - rewrite aggregate_position_modular. by apply long_wrap_in_long.
  - rewrite GetAggregatePosition_stored. by apply long_wrap_in_long.
Qed.

(** ** Market data: aggregating twice *)

Section DepthAggregation.

Import MarketData.

(** Every quantity of an aggregation map is a [long]. *)
Lemma foldl_accumulate_wrapped (stack : list Order) : forall m,
  (forall k v, m !! k = Some v -> long_wrap v = v) ->
  forall k v, foldl accumulate m stack !! k = Some v -> long_wrap v = v.
Proof.
  induction stack as [|o stack IH]; intros m Hm; [exact Hm|].
  cbn [foldl]. apply IH. intros k v. unfold accumulate.
  destruct (decide (price o = k)) as [<-|Hne].
  - rewrite lookup_insert_eq. intros [= <-]. apply long_wrap_idemp.
  - rewrite lookup_insert_ne by done. apply Hm.
Qed.

Lemma aggMap_wrapped stack k v : aggMap stack !! k = Some v -> long_wrap v = v.
Proof. apply foldl_accumulate_wrapped. intros ? ?. by rewrite lookup_empty. Qed.

(** Orders at pairwise distinct prices, none of them in the map yet, go
    into the map one by one with their quantity as it is. *)
Lemma foldl_accumulate_distinct (s : PricingSide) (l : list (Qc * long)) : forall m,
  NoDup l.*1 ->
  (forall k, k ∈ l.*1 -> m !! k = None) ->
  (forall kv, kv ∈ l -> long_wrap kv.2 = kv.2) ->
  foldl accumulate m (map (fun item => mkOrder item.1 item.2 s) l) = list_to_map l ∪ m.
Proof.
  induction l as [|[k v] l IH]; intros m Hnd Hfresh Hw.
  - cbn. by rewrite (left_id_L ∅ (∪)).
  - cbn [map foldl fmap list_fmap fst snd] in *.
    apply list.NoDup_cons in Hnd as [Hk Hnd].
    assert (Hacc : accumulate m (mkOrder k v s) = <[k := v]> m).
    { unfold accumulate. cbn [price quantity]. rewrite (Hfresh k) by set_solver.
      cbn [default]. rewrite long_add_0_l. f_equal. apply (Hw (k, v)). set_solver. }
    rewrite Hacc, IH.
    + cbn [list_to_map foldr]. cbn.
      rewrite <- insert_union_l. symmetry. apply insert_union_r.
      by apply not_elem_of_list_to_map_1.
    + done.
    + intros k' Hk'. rewrite lookup_insert_ne by (intros ->; done).
      apply Hfresh. by right.
    + intros kv Hkv. apply Hw. set_solver.
Qed.

(** Aggregating the stack that a traversal of a map yields gives the map
    back. *)
Lemma aggMap_aggregated (t : Traversal) (s : PricingSide) (m : gmap Qc long) :
  traversal_ok t ->
  (forall k v, m !! k = Some v -> long_wrap v = v) ->
  aggMap (aggregated t s m) = m.
Proof.
  intros Ht Hw. unfold aggMap, aggregated.
  rewrite foldl_accumulate_distinct.
  - rewrite (right_id_L ∅ (∪)).
    rewrite (list_to_map_proper (t m) (map_to_list m)).
    + apply list_to_map_to_list.
    + rewrite (Ht m). apply NoDup_fst_map_to_list.
    + apply Ht.
  - rewrite (Ht m). apply NoDup_fst_map_to_list.
  - intros. apply lookup_empty.
  - intros [k v] Hkv. cbn. apply (Hw k).
    apply elem_of_map_to_list. by rewrite <- (Ht m).
Qed.

Lemma aggregated_perm (t t' : Traversal) s m :
  traversal_ok t -> traversal_ok t' -> aggregated t' s m ≡ₚ aggregated t s m.
Proof.
  intros Ht Ht'. unfold aggregated.
  apply Permutation_map. by rewrite (Ht m), (Ht' m).
Qed.


Lemma AggregateDepth_book tb to svc pid :
  orderBooks (AggregateDepth tb to svc pid).1 !! pid = Some (AggregateDepth tb to svc pid).2.
Proof. unfold AggregateDepth. cbn. apply lookup_insert_eq. Qed.

End DepthAggregation.

(** C7.  Aggregating the book of a product a second time gives the same
    book: the same product, and on each side the same orders, that is the
    same prices with the same quantities.  The order in which an
    [unordered_map] is traversed is not fixed, so the stacks are the same up
    to the order of their elements, whatever the four traversals are; the
    books of the other products are not touched. *)
Theorem C7_aggregate_depth_idempotent
    (tb to tb' to' : MarketData.Traversal)
    (svc : MarketData.MarketDataService) (pid : string) :
  MarketData.traversal_ok tb -> MarketData.traversal_ok to ->
  MarketData.traversal_ok tb' -> MarketData.traversal_ok to' ->
  MarketData.product
    (MarketData.AggregateDepth tb' to' (MarketData.AggregateDepth tb to svc pid).1 pid).2
  = MarketData.product (MarketData.AggregateDepth tb to svc pid).2
  /\ MarketData.bidStack
       (MarketData.AggregateDepth tb' to' (MarketData.AggregateDepth tb to svc pid).1 pid).2
     ≡ₚ MarketData.bidStack (MarketData.AggregateDepth tb to svc pid).2
  /\ MarketData.offerStack
       (MarketData.AggregateDepth tb' to' (MarketData.AggregateDepth tb to svc pid).1 pid).2
     ≡ₚ MarketData.offerStack (MarketData.AggregateDepth tb to svc pid).2
  /\ forall k, k <> pid ->
       MarketData.orderBooks
         (MarketData.AggregateDepth tb' to' (MarketData.AggregateDepth tb to svc pid).1 pid).1 !! k
       = MarketData.orderBooks (MarketData.AggregateDepth tb to svc pid).1 !! k.
Proof.
  intros Hb Ho Hb' Ho'.
  unfold MarketData.AggregateDepth.
  cbn [fst snd MarketData.orderBooks]. rewrite !lookup_insert_eq.
  cbn [default from_option id MarketData.product MarketData.bidStack MarketData.offerStack].
  rewrite !aggMap_aggregated by (try done; apply aggMap_wrapped).
  split; [done|]. split; [by apply aggregated_perm|]. split; [by apply aggregated_perm|].
  intros k Hk. by rewrite lookup_insert_ne.
Qed.

(** With the same traversals the second book is the first one, stack for
    stack. *)
Lemma aggregate_depth_twice_same_traversal
    (tb to : MarketData.Traversal) (svc : MarketData.MarketDataService) (pid : string) :
  MarketData.traversal_ok tb -> MarketData.traversal_ok to ->
  (MarketData.AggregateDepth tb to (MarketData.AggregateDepth tb to svc pid).1 pid).2
  = (MarketData.AggregateDepth tb to svc pid).2.
Proof.
  intros Hb Ho.
  unfold MarketData.AggregateDepth.
  cbn [fst snd MarketData.orderBooks]. rewrite !lookup_insert_eq.
  cbn [default from_option id MarketData.product MarketData.bidStack MarketData.offerStack].
  by rewrite !aggMap_aggregated by (try done; apply aggMap_wrapped).
Qed.

(** ** The price codec *)

Section PriceCodec.

Local Open Scope string_scope.
Local Open Scope Z_scope.

(** *** Strings *)

Lemma append_nil (b : string) : "" ++ b = b.
Proof. reflexivity. Qed.

Lemma append_cons (x : ascii) (a b : string) : String x a ++ b = String x (a ++ b).
Proof. reflexivity. Qed.

Lemma append_nil_r (a : string) : a ++ "" = a.
Proof. induction a as [|x a IH]; [done|]. by rewrite append_cons, IH. Qed.

Lemma string_app_assoc (a b c : string) : (a ++ b) ++ c = a ++ (b ++ c).
Proof. induction a as [|x a IH]; [done|]. by rewrite !append_cons, IH. Qed.

Lemma string_length_app (a b : string) :
  String.length (a ++ b) = (String.length a + String.length b)%nat.
Proof. induction a as [|x a IH]; [done|]. rewrite append_cons. cbn. by rewrite IH. Qed.

Lemma substring_prefix (a b : string) : substring 0 (String.length a) (a ++ b) = a.
Proof.
  induction a as [|x a IH]; [by destruct b|]. rewrite append_cons. cbn. by rewrite IH.
Qed.

Lemma substring_skip (a b : string) (n m : nat) :
  substring (String.length a + n) m (a ++ b) = substring n m b.
Proof. induction a as [|x a IH]; [done|]. rewrite append_cons. exact IH. Qed.

(** *** Digits *)

Lemma digit_char_spec (d : Z) :
  0 <= d < 10 -> is_digit (digit_char d) = true /\ digit_val (digit_char d) = d.
Proof.
  intros H.
  assert (d = 0 \/ d = 1 \/ d = 2 \/ d = 3 \/ d = 4 \/ d = 5 \/ d = 6 \/ d = 7 \/ d = 8 \/ d = 9)
    as Hd by lia.
  repeat (destruct Hd as [->|Hd]); try subst d; by vm_compute.
Qed.

Lemma is_digit_not_dash (c : ascii) : is_digit c = true -> Ascii.eqb c "-" = false.
Proof.
  intros H. destruct (Ascii.eqb_spec c "-") as [->|]; [|done]. by vm_compute in H.
Qed.

Lemma is_digit_not_space (c : ascii) : is_digit c = true -> is_space c = false.
Proof.
  unfold is_digit, is_space. intros H.
  apply andb_true_iff in H as [H1 H2].
  apply Nat.leb_le in H1. apply Nat.leb_le in H2.
  apply orb_false_iff. split.
  - apply Nat.eqb_neq. lia.
  - apply andb_false_iff. right. apply Nat.leb_gt. lia.
Qed.

Lemma is_digit_no_sign (c : ascii) (r : string) :
  is_digit c = true -> read_sign (String c r) = (false, String c r).
Proof.
  intros H. destruct c as [[] [] [] [] [] [] [] []]; try reflexivity; by vm_compute in H.
Qed.

Lemma all_digits_app (a b : string) :
  all_digits (a ++ b) = all_digits a && all_digits b.
Proof.
  induction a as [|x a IH]; [done|]. rewrite append_cons. cbn. by rewrite IH, andb_assoc.
Qed.

Lemma digits_value_app (a b : string) (acc : Z) :
  digits_value (a ++ b) acc = digits_value b (digits_value a acc).
Proof.
  revert acc. induction a as [|x a IH]; intros acc; [done|]. rewrite append_cons. apply IH.
Qed.

Lemma find_dash_after_digits (ds r : string) :
  all_digits ds = true -> find "-" (ds ++ String "-" r) = Some (String.length ds).
Proof.
  induction ds as [|c ds IH]; [done|]. rewrite append_cons. cbn.
  intros [Hc Hds]%andb_true_iff. rewrite (is_digit_not_dash c Hc), (IH Hds). done.
Qed.

Lemma read_digits_all (ds : string) : forall acc n,
  all_digits ds = true ->
  read_digits ds acc n = (digits_value ds acc, (n + String.length ds)%nat, "").
Proof.
  induction ds as [|c ds IH]; intros acc n; cbn.
  - intros _. by rewrite Nat.add_0_r.
  - intros [Hc Hds]%andb_true_iff. rewrite Hc, (IH _ _ Hds). do 2 f_equal. lia.
Qed.

(** [stod] on a non-empty string of digits is the number they write. *)
Lemma stod_digits (ds : string) :
  all_digits ds = true -> ds <> "" ->
  stod ds = Some (double_of_Z (digits_value ds 0)).
Proof.
  intros Hds Hne. destruct ds as [|c ds]; [done|].
  pose proof Hds as [Hc _]%andb_true_iff.
  unfold stod. cbn [skip_space]. rewrite (is_digit_not_space c Hc).
  rewrite (is_digit_no_sign c ds Hc), (read_digits_all _ 0 0%nat Hds).
  cbn [Nat.add String.length Nat.eqb]. f_equal.
  apply Qc_is_canon. unfold double_of_Z.
  cbn [this Q2Qc Qcplus Qcdiv Qcmult Qcinv]. repeat setoid_rewrite Qred_correct.
  change (inject_Z 0) with 0%Q. setoid_rewrite Qmult_0_l. setoid_rewrite Qplus_0_r.
  reflexivity.
Qed.

(** *** [to_string] on a number that is not negative *)

Lemma to_string_digits_spec (fuel : nat) : forall n acc,
  0 <= n < 10 ^ Z.of_nat (S fuel) ->
  exists ds, to_string_digits (S fuel) n acc = ds ++ acc
             /\ ds <> "" /\ all_digits ds = true /\ digits_value ds 0 = n.
Proof.
  induction fuel as [|fuel IH]; intros n acc Hn;
    cbn [to_string_digits]; destruct (n <? 10) eqn:E.
  - apply Z.ltb_lt in E. destruct (digit_char_spec (n mod 10) (Z.mod_pos_bound n 10 eq_refl)) as [Hd Hv].
    exists (String (digit_char (n mod 10)) ""). cbn. rewrite Hd, Hv.
    repeat split; try done. rewrite Z.mod_small; lia.
  - apply Z.ltb_ge in E. change (10 ^ Z.of_nat 1) with 10 in Hn. lia.
  - apply Z.ltb_lt in E. destruct (digit_char_spec (n mod 10) (Z.mod_pos_bound n 10 eq_refl)) as [Hd Hv].
    exists (String (digit_char (n mod 10)) ""). cbn. rewrite Hd, Hv.
    repeat split; try done. rewrite Z.mod_small; lia.
  - apply Z.ltb_ge in E.
    destruct (digit_char_spec (n mod 10) (Z.mod_pos_bound n 10 eq_refl)) as [Hd Hv].
    assert (Hn' : 0 <= n / 10 < 10 ^ Z.of_nat (S fuel)).
    { split; [apply Z.div_pos; lia|].
      apply Z.div_lt_upper_bound; [lia|].
      rewrite (Nat2Z.inj_succ (S fuel)), Z.pow_succ_r in Hn by lia. lia. }
    destruct (IH (n / 10) (String (digit_char (n mod 10)) acc) Hn')
      as (ds & Heq & Hne & Hall & Hval).
    cbn [to_string_digits] in Heq. rewrite Heq.
    exists (ds ++ String (digit_char (n mod 10)) ""). split; [|split; [|split]].
    + by rewrite string_app_assoc.
    + by destruct ds.
    + rewrite all_digits_app, Hall. cbn. by rewrite Hd.
    + rewrite digits_value_app, Hval. cbn. rewrite Hv.
      pose proof (Z.div_mod n 10). lia.
Qed.

Lemma to_string_nonneg (n : Z) :
  0 <= n < 10 ^ 20 ->
  to_string n <> "" /\ all_digits (to_string n) = true /\ digits_value (to_string n) 0 = n.
Proof.
  intros Hn. unfold to_string.
  destruct (n <? 0) eqn:E; [apply Z.ltb_lt in E; lia|].
  destruct (to_string_digits_spec 19 n "" Hn) as (ds & -> & Hne & Hall & Hval).
  rewrite append_nil_r. done.
Qed.


(** *** Arithmetic on the grid *)

Lemma Qfloor_double_of_Z (n : Z) : Qfloor (double_of_Z n) = n.
Proof.
  unfold double_of_Z. cbn [this Q2Qc].
  rewrite (Qfloor_comp _ _ (Qred_correct _)). apply Qfloor_Z.
Qed.

Lemma Qle_bool_double_of_Z (n : Z) : Qle_bool 0 (double_of_Z n) = (0 <=? n).
Proof.
  unfold double_of_Z. cbn [this Q2Qc].
  destruct (0 <=? n) eqn:E.
  - apply Qle_bool_iff. rewrite Qred_correct. apply Z.leb_le in E.
    unfold Qle. cbn. lia.
  - apply not_true_is_false. intros H%Qle_bool_iff. rewrite Qred_correct in H.
    apply Z.leb_gt in E. unfold Qle in H. cbn in H. lia.
Qed.

Lemma int_of_double_of_Z (n : Z) : int_of_double (double_of_Z n) = n.
Proof.
  unfold int_of_double. rewrite Qle_bool_double_of_Z.
  destruct (0 <=? n); [apply Qfloor_double_of_Z|].
  unfold double_of_Z. cbn [this Q2Qc Qcopp].
  rewrite (Qfloor_comp _ (inject_Z (- n))).
  - rewrite Qfloor_Z. lia.
  - repeat setoid_rewrite Qred_correct. unfold Qeq. cbn. lia.
Qed.

Lemma floor_double_of_Z (n : Z) : floor (double_of_Z n) = double_of_Z n.
Proof. unfold floor. by rewrite Qfloor_double_of_Z. Qed.

Lemma round_double_of_Z (n : Z) : 0 <= n -> round (double_of_Z n) = double_of_Z n.
Proof.
  intros Hn. unfold round. rewrite Qle_bool_double_of_Z.
  destruct (0 <=? n) eqn:E; [|apply Z.leb_gt in E; lia].
  f_equal. unfold double_of_Z. cbn [this Q2Qc Qcplus].
  rewrite (Qfloor_comp _ (2 * n + 1 # 2)).
  - cbn. symmetry. apply (Z.div_unique _ _ _ 1); lia.
  - repeat setoid_rewrite Qred_correct. unfold Qeq. cbn. lia.
Qed.

Lemma floor_grid (k : Z) : floor (grid k) = double_of_Z (k / 256).
Proof.
  unfold floor, grid. f_equal. cbn [this Q2Qc].
  rewrite (Qfloor_comp _ _ (Qred_correct _)). reflexivity.
Qed.

Lemma fractional_part_grid (k : Z) :
  (grid k - double_of_Z (k / 256))%Qc = grid (k mod 256).
Proof.
  apply Qc_is_canon. unfold grid, double_of_Z.
  cbn [this Q2Qc Qcminus Qcplus Qcopp].
  repeat setoid_rewrite Qred_correct.
  pose proof (Z.div_mod k 256 ltac:(lia)) as H.
  unfold Qeq. cbn. lia.
Qed.

Lemma ticks_grid (t : Z) : (grid t * Q2Qc (256 # 1))%Qc = double_of_Z t.
Proof.
  apply Qc_is_canon. unfold grid, double_of_Z.
  cbn [this Q2Qc Qcmult].
  repeat setoid_rewrite Qred_correct.
  unfold Qeq. cbn. lia.
Qed.

Lemma fraction_sum (i xy z k : Z) :
  k = 256 * i + 8 * xy + z ->
  (double_of_Z i + double_of_Z xy * 1 / Q2Qc (32 # 1)
   + double_of_Z z * 1 / Q2Qc (256 # 1))%Qc = grid k.
Proof.
  intros ->. apply Qc_is_canon. unfold grid, double_of_Z.
  cbn [this Q2Qc Qcplus Qcmult Qcdiv Qcinv].
  repeat setoid_rewrite Qred_correct.
  unfold Qeq. cbn. lia.
Qed.

(** The encoder on a grid price: the integer part, a dash, the 32nds on
    two digits and the 256ths left over on one. *)
Lemma convertPrice_of_double_grid (k : Z) :
  0 <= k ->
  convertPrice_of_double (grid k)
  = to_string (k / 256) ++ "-"
    ++ (if (k mod 256) / 8 <? 10 then "0" else "")
    ++ to_string ((k mod 256) / 8) ++ to_string ((k mod 256) mod 8).
Proof.
  intros Hk. unfold convertPrice_of_double.
  rewrite floor_grid, int_of_double_of_Z, fractional_part_grid, ticks_grid.
  pose proof (Z.mod_pos_bound k 256 ltac:(lia)) as Ht.
  rewrite round_double_of_Z, floor_double_of_Z, int_of_double_of_Z by lia.
  rewrite Z.quot_div_nonneg, Z.rem_mod_nonneg by lia. reflexivity.
Qed.

(** *** The three characters after the dash *)

Ltac enum_nat k n :=
  lazymatch n with
  | O => exfalso; lia
  | S ?n' => destruct k as [|k]; [| enum_nat k n']
  end.

Ltac enum_Z x lo n :=
  let k := fresh "k" in
  let Hb := fresh "Hb" in
  let Hk := fresh "Hk" in
  assert (Hb : (Z.to_nat (x - lo) < n)%nat) by lia;
  assert (Hk : x = lo + Z.of_nat (Z.to_nat (x - lo))) by lia;
  revert Hb Hk; generalize (Z.to_nat (x - lo)); intros k Hb Hk;
  enum_nat k n; subst x.

Lemma thirty_seconds_digits (xy : Z) :
  0 <= xy < 32 ->
  exists c1 c2,
    (if xy <? 10 then "0" else "") ++ to_string xy = String c1 (String c2 "")
    /\ all_digits (String c1 (String c2 "")) = true
    /\ digits_value (String c1 (String c2 "")) 0 = xy.
Proof.
  intros H. enum_Z xy 0 32%nat; eexists _, _;
    (split; [vm_compute; reflexivity | by vm_compute]).
Qed.

Lemma eighths_digit (z : Z) :
  0 <= z < 8 ->
  exists c3,
    to_string z = String c3 ""
    /\ all_digits (String c3 "") = true
    /\ digits_value (String c3 "") 0 = z
    /\ String c3 "" <> "+".
Proof.
  intros H. enum_Z z 0 8%nat; eexists;
    (split; [vm_compute; reflexivity | by vm_compute]).
Qed.

(** The decoder on an integer part written in digits, a dash and three
    digits. *)
Lemma convertPrice_of_string_digits (ds : string) (c1 c2 c3 : ascii) :
  all_digits ds = true -> ds <> "" ->
  all_digits (String c1 (String c2 "")) = true ->
  all_digits (String c3 "") = true ->
  convertPrice_of_string (ds ++ "-" ++ String c1 (String c2 (String c3 "")))
  = Some (double_of_Z (digits_value ds 0)
          + double_of_Z (digits_value (String c1 (String c2 "")) 0) * 1 / Q2Qc (32 # 1)
          + double_of_Z (digits_value (String c3 "") 0) * 1 / Q2Qc (256 # 1))%Qc.
Proof.
  intros Hds Hne H12 H3. unfold convertPrice_of_string, substr.
  change ("-" ++ String c1 (String c2 (String c3 "")))
    with (String "-" (String c1 (String c2 (String c3 "")))).
  rewrite (find_dash_after_digits ds _ Hds).
  rewrite string_length_app.
  replace (String.length ds + String.length (String "-" (String c1 (String c2 (String c3 "")))) <? String.length ds + 3)%nat
    with false by (symmetry; apply Nat.ltb_ge; cbn; lia).
  rewrite substring_prefix, !substring_skip.
  change (substring 1 2 (String "-" (String c1 (String c2 (String c3 "")))))
    with (String c1 (String c2 "")).
  change (substring 3 1 (String "-" (String c1 (String c2 (String c3 "")))))
    with (String c3 "").
  rewrite (stod_digits ds Hds Hne). cbn [mbind option_bind].
  rewrite (stod_digits _ H12) by done. cbn [mbind option_bind].
  destruct (String.eqb (String c3 "") "+"); cbv zeta;
    rewrite (stod_digits _ H3) by done; reflexivity.
Qed.

End PriceCodec.

(** C3 (as the code has it).  On the grid of the 256ths below 1000, decoding
    the string the encoder produces gives the price back exactly.  The
    encoder writes the last digit, the 256ths left over after the 32nds, as a
    decimal digit from 0 to 7: the price 99 + 16/32 + 4/256 is written
    "99-164". *)
Theorem C3_price_round_trip (k : Z) :
  0 <= k < 256000 ->
  convertPrice_of_string (convertPrice_of_double (grid k)) = Some (grid k)
  /\ (grid k = (Q2Qc (99 # 1) + Q2Qc (16 # 32) + Q2Qc (4 # 256))%Qc ->
      convertPrice_of_double (grid k) = "99-164"%string).
Proof.
  intros Hk. split.
  - rewrite convertPrice_of_double_grid by lia.
    pose proof (Z.mod_pos_bound k 256 ltac:(lia)) as Ht.
    assert (Hi : 0 <= k / 256 < 10 ^ 20).
    { split; [apply Z.div_pos; lia|]. apply Z.div_lt_upper_bound; lia. }
    destruct (to_string_nonneg _ Hi) as (Hne & Hall & Hval).
    assert (Hxy : 0 <= (k mod 256) / 8 < 32).
    { split; [apply Z.div_pos; lia|]. apply Z.div_lt_upper_bound; lia. }
    destruct (thirty_seconds_digits _ Hxy) as (c1 & c2 & Hs12 & H12 & Hv12).
    destruct (eighths_digit _ (Z.mod_pos_bound (k mod 256) 8 eq_refl))
      as (c3 & Hs3 & H3 & Hv3 & _).
    rewrite Hs3.
    assert (Hfrac : ((if ((k mod 256) / 8 <? 10)%Z then "0" else "")
                     ++ to_string ((k mod 256) / 8) ++ String c3 "")%string
                    = String c1 (String c2 (String c3 ""))).
    { rewrite <- string_app_assoc, Hs12. reflexivity. }
    rewrite Hfrac, (convertPrice_of_string_digits _ c1 c2 c3 Hall Hne H12 H3).
    f_equal. rewrite Hval, Hv12, Hv3. apply fraction_sum.
    pose proof (Z.div_mod k 256 ltac:(lia)).
    pose proof (Z.div_mod (k mod 256) 8 ltac:(lia)). lia.
  - intros Hp.
    assert (k = 25476) as ->.
    { apply (f_equal this) in Hp. unfold grid in Hp.
      assert (Hq : (k # 256 == 25476 # 256)%Q).
      { rewrite <- (Qred_correct (k # 256)). cbn [this Q2Qc] in Hp. rewrite Hp.
        by vm_compute. }
      unfold Qeq in Hq. cbn in Hq. lia. }
    by vm_compute.
Qed.

(** The claim as the specification words it has the encoder write a plus
    sign for the digit 4: it does not. *)
Lemma C3_encoding_99_16_plus_refuted :
  convertPrice_of_double price_99_16_4 <> "99-16+"%string.
Proof. by vm_compute. Qed.

(** The decoder on a string that ends in a plus sign: the branch for the
    glyph leaves [dec2] as it is, [stod] finds no digit in it and throws. *)
Lemma convertPrice_of_string_plus_glyph :
  convertPrice_of_string "99-16+" = None.
Proof. by vm_compute. Qed.

(** * The statements at concrete inputs *)

Lemma C1_received_inquiry_three_callbacks_witness :
  Inquiry.state sample_inquiry = Inquiry.RECEIVED
  /\ exists svc',
       Inquiry.OnMessage 2 (Inquiry.init [0%nat]) sample_inquiry
       = Some (svc', Inquiry.SetState sample_inquiry Inquiry.DONE,
               (notify [0%nat] (Inquiry.SetState sample_inquiry Inquiry.DONE)
                ++ notify [0%nat] (Inquiry.SetState sample_inquiry Inquiry.DONE))
               ++ notify [0%nat] (Inquiry.SetState sample_inquiry Inquiry.DONE))
       /\ Inquiry.inquirys svc' !! "I1"%string = None
       /\ Inquiry.listeners svc' = [0%nat]
       /\ forall k, k <> "I1"%string ->
            Inquiry.inquirys svc' !! k = Inquiry.inquirys (Inquiry.init [0%nat]) !! k.
Proof.
  split; [reflexivity|].
  apply (C1_received_inquiry_three_callbacks 0 (Inquiry.init [0%nat]) sample_inquiry).
  reflexivity.
Defined.

Lemma C2_wide_spread_still_emits_witness :
  exists svc' g' exec,
    AlgoExecution.AlgoExecuteOrder some_garbage no_draws (AlgoExecution.init [0%nat]) wide_book
    = Some (svc', g', notify [0%nat] exec)
    /\ AlgoExecution.algoExecutions svc' !! "9128283H1"%string = Some exec
    /\ AlgoExecution.count svc' = long_add 0 1
    /\ AlgoExecution.eo_side (AlgoExecution.executionOrder exec) = MarketData.OFFER
    /\ AlgoExecution.eo_price (AlgoExecution.executionOrder exec) = Q2Qc (- 7 # 1)
    /\ AlgoExecution.visibleQuantity (AlgoExecution.executionOrder exec) = - 12345.
Proof.
  apply (C2_wide_spread_still_emits some_garbage no_draws (AlgoExecution.init [0%nat]) wide_book
           (MarketData.mkBidOffer
              (MarketData.mkOrder (Q2Qc (99 # 1)) 1000000 MarketData.BID)
              (MarketData.mkOrder (Q2Qc (3169 # 32)) 2000000 MarketData.OFFER))).
  - reflexivity.
  - vm_compute. reflexivity.
Defined.

Lemma C3_price_round_trip_witness :
  0 <= 25476 < 256000
  /\ convertPrice_of_string (convertPrice_of_double (grid 25476)) = Some (grid 25476)
  /\ (grid 25476 = (Q2Qc (99 # 1) + Q2Qc (16 # 32) + Q2Qc (4 # 256))%Qc ->
      convertPrice_of_double (grid 25476) = "99-164"%string).
Proof.
  split; [lia|]. apply (C3_price_round_trip 25476). lia.
Defined.

Lemma C5_position_conservation_witness :
  Position.GetAggregatePosition
    (Position.GetData (Position.AddTrade_all (Position.init [0%nat]) two_trades) "9128283H1").2
  = Zsum (signed_quantity <$> trades_of "9128283H1" two_trades)
  /\ Position.GetAggregatePosition
       (Position.GetData (Position.AddTrade_all (Position.init [0%nat]) two_trades) "9128283H1").2
     = stored_total
         (Position.GetData (Position.AddTrade_all (Position.init [0%nat]) two_trades) "9128283H1").2.
Proof.
  apply (C5_position_conservation [0%nat] two_trades "9128283H1").
  - unfold in_long, LONG_MIN, LONG_MAX. vm_compute. split; discriminate.
  - unfold in_long, LONG_MIN, LONG_MAX. vm_compute. split; discriminate.
Defined.

Lemma C6_trade_booking_book_cycle_witness :
  exists ts : list TradeBooking.Trade,
    (TradeBooking.ProcessAdd_all
       (TradeBooking.init_listener, TradeBooking.mkService ∅ [0%nat]) nine_orders).2
    = flat_map (notify [0%nat]) ts
    /\ (forall id,
          TradeBooking.trades
            (TradeBooking.ProcessAdd_all
               (TradeBooking.init_listener, TradeBooking.mkService ∅ [0%nat]) nine_orders).1.2
          !! id
          = match list.last (filter (fun t => TradeBooking.tradeId t = id) ts) with
            | Some t => Some t
            | None => None
            end)
    /\ length ts = 9%nat
    /\ exists t,
         ts !! 4%nat = Some t
         /\ TradeBooking.tradeId t = "A5"%string
         /\ TradeBooking.quantity t = 1000000
         /\ TradeBooking.side t = TradeBooking.BUY
         /\ TradeBooking.book t = "TRSY3"%string.
Proof.
  destruct (C6_trade_booking_book_cycle (TradeBooking.mkService ∅ [0%nat]) nine_orders)
    as (ts & Hcalls & Hstore & Hlen & Hk).
  { unfold LONG_MAX. cbn. lia. }
  exists ts. split; [exact Hcalls|]. split; [exact Hstore|]. split; [exact Hlen|].
  destruct (Hk 4%nat (sample_order "A5") eq_refl) as (t & Ht & Hid & _ & _ & Hq & Hs & Hb).
  exists t. repeat split; assumption.
Defined.

Lemma C7_aggregate_depth_idempotent_witness :
  MarketData.product
    (MarketData.AggregateDepth map_to_list map_to_list
       (MarketData.AggregateDepth map_to_list map_to_list sample_market "9128283H1").1
       "9128283H1").2
  = MarketData.product
      (MarketData.AggregateDepth map_to_list map_to_list sample_market "9128283H1").2
  /\ MarketData.bidStack
       (MarketData.AggregateDepth map_to_list map_to_list
          (MarketData.AggregateDepth map_to_list map_to_list sample_market "9128283H1").1
          "9128283H1").2
     ≡ₚ MarketData.bidStack
          (MarketData.AggregateDepth map_to_list map_to_list sample_market "9128283H1").2
  /\ MarketData.offerStack
       (MarketData.AggregateDepth map_to_list map_to_list
          (MarketData.AggregateDepth map_to_list map_to_list sample_market "9128283H1").1
          "9128283H1").2
     ≡ₚ MarketData.offerStack
          (MarketData.AggregateDepth map_to_list map_to_list sample_market "9128283H1").2
  /\ forall k, k <> "9128283H1"%string ->
       MarketData.orderBooks
         (MarketData.AggregateDepth map_to_list map_to_list
            (MarketData.AggregateDepth map_to_list map_to_list sample_market "9128283H1").1
            "9128283H1").1 !! k
       = MarketData.orderBooks
           (MarketData.AggregateDepth map_to_list map_to_list sample_market "9128283H1").1 !! k.
Proof.
  apply (C7_aggregate_depth_idempotent map_to_list map_to_list map_to_list map_to_list
           sample_market "9128283H1"); intros m; reflexivity.
Defined.

Lemma C9_unknown_state_is_customer_rejected_witness :
  exists inq,
    Inquiry.decode_line unknown_state_line = Some inq
    /\ Inquiry.inquiryId inq = "I1"%string
    /\ Inquiry.state inq = Inquiry.CUSTOMER_REJECTED
    /\ forall (fuel : nat) (svc : Inquiry.InquiryService),
         Inquiry.Subscribe (S fuel) svc [unknown_state_line]
         = Some (Inquiry.mkService (<["I1"%string := inq]> (Inquiry.inquirys svc))
                   (Inquiry.listeners svc),
                 notify (Inquiry.listeners svc) inq).
Proof.
  apply (C9_unknown_state_is_customer_rejected unknown_state_line
           "I1" "9128283H1" "BUY" "1000000" "99-160" "PENDING" []).
  - vm_compute. reflexivity.
  - eexists. vm_compute. reflexivity.
  - eexists. vm_compute. reflexivity.
  - eexists. vm_compute. reflexivity.
  - discriminate.
  - discriminate.
  - discriminate.
  - discriminate.
Defined.

Lemma C10_risk_add_position_frame_witness :
  (exists r',
      Risk.pv01s (Risk.AddPosition sample_risk sample_position).1 !! "9128283H1"%string = Some r'
      /\ Risk.quantity r' = long_add 600000 (Position.GetAggregatePosition sample_position)
      /\ (in_long (600000 + Position.GetAggregatePosition sample_position) ->
          Risk.quantity r' = 600000 + Position.GetAggregatePosition sample_position)
      /\ Risk.pv01 r' = getPV01 "9128283H1"
      /\ Risk.product r' = US2Y)
  /\ (forall k, k <> "9128283H1"%string ->
        Risk.pv01s (Risk.AddPosition sample_risk sample_position).1 !! k
        = Risk.pv01s sample_risk !! k)
  /\ (forall ps : list Position.Position,
        exists r',
          Risk.pv01s (Risk.AddPosition_all sample_risk ps) !! "9128283H1"%string = Some r'
          /\ Risk.pv01 r' = getPV01 "9128283H1"
          /\ Risk.product r' = US2Y).
Proof.
  apply (C10_risk_add_position_frame sample_risk sample_position record_2Y).
  reflexivity.
Defined.

From Stdlib Require Import Lqa.

(** * Further properties of the code *)

(** ** The price codec beyond the grid *)

Section PriceCodecMore.

Local Open Scope string_scope.
Local Open Scope Z_scope.

Lemma Qfloor_plus_Z (q : Q) (n : Z) : Qfloor (q + inject_Z n) = Qfloor q + n.
Proof.
  destruct q as [a b]. unfold Qfloor, Qplus, inject_Z. cbn [Qnum Qden].
  rewrite Pos.mul_1_r, Z.mul_1_r. apply Z.div_add. lia.
Qed.

Lemma Qle_bool_Qc (x : Qc) : Qle_bool 0 x = true <-> (0 <= x)%Qc.
Proof. rewrite Qle_bool_iff. reflexivity. Qed.

Lemma Qfloor_nonneg (x : Qc) : (0 <= x)%Qc -> 0 <= Qfloor x.
Proof.
  intros H. change 0 with (Qfloor (inject_Z 0)) at 1. rewrite Qfloor_Z.
  rewrite <- (Qfloor_Z 0). apply Qfloor_resp_le. exact H.
Qed.

(** The 32nds when the ticks have been rounded up to 256: thirty-two of
    them, written "32". *)
Lemma thirty_seconds_digits_up_to_32 (xy : Z) :
  0 <= xy <= 32 ->
  exists c1 c2,
    (if xy <? 10 then "0" else "") ++ to_string xy = String c1 (String c2 "")
    /\ all_digits (String c1 (String c2 "")) = true
    /\ digits_value (String c1 (String c2 "")) 0 = xy.
Proof.
  intros H. destruct (Z.eq_dec xy 32) as [->|Hne].
  - eexists _, _. split; [vm_compute; reflexivity | by vm_compute].
  - apply thirty_seconds_digits. lia.
Qed.

Lemma eighths_digit' (z : Z) :
  0 <= z < 8 ->
  exists c3,
    to_string z = String c3 ""
    /\ all_digits (String c3 "") = true
    /\ digits_value (String c3 "") 0 = z.
Proof.
  intros H. destruct (eighths_digit z H) as (c3 & H1 & H2 & H3 & _). eauto.
Qed.

(** The ticks the encoder computes for a price that is not negative. *)
Lemma totalTicks_spec (p : Qc) :
  (0 <= p)%Qc ->
  let t := int_of_double (floor (round ((p - double_of_Z (Qfloor p)) * Q2Qc (256 # 1))%Qc)) in
  t = Qfloor (p * Q2Qc (256 # 1) + Q2Qc (1 # 2))%Qc - 256 * Qfloor p
  /\ 0 <= t <= 256.
Proof.
  intros Hp. cbv zeta.
  set (x := ((p - double_of_Z (Qfloor p)) * Q2Qc (256 # 1))%Qc).
  assert (Hx : (x == (p * (256 # 1) + inject_Z (- 256 * Qfloor p)))%Q).
  { unfold x, double_of_Z. cbn [this Q2Qc Qcminus Qcplus Qcopp Qcmult].
    repeat setoid_rewrite Qred_correct.
    rewrite inject_Z_mult. change (inject_Z (- 256)) with (- 256 # 1)%Q. ring. }
  assert (Hx0 : (0 <= x)%Q /\ (x < 256 # 1)%Q).
  { rewrite Hx. pose proof (Qfloor_le p) as H1. pose proof (Qlt_floor p) as H2.
    rewrite inject_Z_mult. change (inject_Z (- 256)) with (- 256 # 1)%Q.
    rewrite inject_Z_plus in H2. change (inject_Z 1) with 1%Q in H2.
    split; lra. }
  destruct Hx0 as [Hx0 Hx1].
  unfold round. replace (Qle_bool 0 x) with true by (symmetry; by apply Qle_bool_iff).
  rewrite floor_double_of_Z, int_of_double_of_Z.
  assert (Hfl : Qfloor (x + Q2Qc (1 # 2))%Qc
                = Qfloor (p * Q2Qc (256 # 1) + Q2Qc (1 # 2))%Qc - 256 * Qfloor p).
  { cbn [this Q2Qc Qcplus Qcmult].
    rewrite (Qfloor_comp _ ((p * (256 # 1) + (1 # 2)) + inject_Z (- 256 * Qfloor p))%Q).
    - rewrite Qfloor_plus_Z.
      rewrite (Qfloor_comp (Qred (Qred (p * Qred (256 # 1)) + Qred (1 # 2)))
                           (p * (256 # 1) + (1 # 2))%Q).
      + lia.
      + repeat setoid_rewrite Qred_correct. reflexivity.
    - repeat setoid_rewrite Qred_correct. rewrite Hx. ring. }
  split; [exact Hfl|].
  assert (H0 : (0 <= x + (1 # 2))%Q) by lra.
  assert (H1 : (x + (1 # 2) < inject_Z 257)%Q).
  { change (inject_Z 257) with (257 # 1)%Q. lra. }
  assert (Hq : Qfloor (x + Q2Qc (1 # 2))%Qc = Qfloor (x + (1 # 2))%Q).
  { cbn [this Q2Qc Qcplus]. apply Qfloor_comp. repeat setoid_rewrite Qred_correct. reflexivity. }
  rewrite Hq. split.
  - rewrite <- (Qfloor_Z 0). by apply Qfloor_resp_le.
  - assert (Qfloor (x + (1 # 2))%Q < 257); [|lia].
    apply Z.lt_nge. intros Hge.
    pose proof (Qfloor_le (x + (1 # 2))%Q) as Hle.
    assert ((inject_Z 257 <= inject_Z (Qfloor (x + (1 # 2))%Q))%Q) as H2.
    { rewrite <- Zle_Qle. exact Hge. }
    lra.
Qed.


(** Decoding what the encoder writes for an integer part and a number of
    ticks. *)
Lemma decode_encoded (i t : Z) :
  0 <= i < 10 ^ 20 -> 0 <= t <= 256 ->
  convertPrice_of_string
    (to_string i ++ "-" ++ (if t / 8 <? 10 then "0" else "")
     ++ to_string (t / 8) ++ to_string (t mod 8))
  = Some (grid (256 * i + t)).
Proof.
  intros Hi Ht.
  destruct (to_string_nonneg _ Hi) as (Hne & Hall & Hval).
  assert (Hxy : 0 <= t / 8 <= 32).
  { split; [apply Z.div_pos; lia|]. apply Z.div_le_upper_bound; lia. }
  destruct (thirty_seconds_digits_up_to_32 _ Hxy) as (c1 & c2 & Hs12 & H12 & Hv12).
  destruct (eighths_digit' _ (Z.mod_pos_bound t 8 eq_refl)) as (c3 & Hs3 & H3 & Hv3).
  rewrite Hs3.
  assert (Hfrac : (if t / 8 <? 10 then "0" else "") ++ to_string (t / 8) ++ String c3 ""
                  = String c1 (String c2 (String c3 ""))).
  { rewrite <- string_app_assoc, Hs12. reflexivity. }
  rewrite Hfrac, (convertPrice_of_string_digits _ c1 c2 c3 Hall Hne H12 H3).
  f_equal. rewrite Hval, Hv12, Hv3. apply fraction_sum.
  pose proof (Z.div_mod t 8 ltac:(lia)). lia.
Qed.

Lemma convertPrice_of_double_nonneg (p : Qc) :
  (0 <= p)%Qc ->
  exists t,
    t = Qfloor (p * Q2Qc (256 # 1) + Q2Qc (1 # 2))%Qc - 256 * Qfloor p
    /\ 0 <= t <= 256
    /\ convertPrice_of_double p
       = to_string (Qfloor p) ++ "-" ++ (if t / 8 <? 10 then "0" else "")
         ++ to_string (t / 8) ++ to_string (t mod 8).
Proof.
  intros Hp. destruct (totalTicks_spec p Hp) as [Ht Hb].
  eexists. split; [exact Ht|]. split; [exact Hb|].
  unfold convertPrice_of_double.
  change (floor p) with (double_of_Z (Qfloor p)). rewrite int_of_double_of_Z.
  cbv zeta in Hb.
  rewrite Z.quot_div_nonneg, Z.rem_mod_nonneg by lia. reflexivity.
Qed.

End PriceCodecMore.

(** X1.  For a price that is not negative and whose integer part fits an
    [int], decoding the string the encoder writes gives the nearest multiple
    of 1/256, a price half-way between two multiples going to the upper one:
    the multiple number floor (256 p + 1/2). *)
Theorem X1_decode_encode_rounds_to_tick (p : Qc) :
  (0 <= p)%Qc ->
  Qfloor p < 2 ^ 31 ->
  convertPrice_of_string (convertPrice_of_double p)
  = Some (grid (Qfloor (p * Q2Qc (256 # 1) + Q2Qc (1 # 2))%Qc)).
Proof.
  intros Hp Hi.
  destruct (convertPrice_of_double_nonneg p Hp) as (t & Ht & Hb & ->).
  pose proof (Qfloor_nonneg p Hp).
  rewrite decode_encoded by lia. do 2 f_equal. lia.
Qed.

Lemma X1_decode_encode_rounds_to_tick_witness :
  convertPrice_of_string (convertPrice_of_double (Q2Qc (50691 # 512)))
  = Some (grid (Qfloor (Q2Qc (50691 # 512) * Q2Qc (256 # 1) + Q2Qc (1 # 2))%Qc)).
Proof.
  apply (X1_decode_encode_rounds_to_tick (Q2Qc (50691 # 512))).
  - by vm_compute.
  - by vm_compute.
Defined.

(** X2.  The encoder writes a negative price with a leading minus sign, and
    the decoder takes the first dash of a string for the separator: it finds
    no integer part and throws.  No negative price survives the round trip. *)
Theorem X2_negative_price_not_decoded (p : Qc) :
  (p < 0)%Qc ->
  convertPrice_of_string (convertPrice_of_double p) = None.
Proof.
  intros Hp.
  assert (Hfl : Qfloor p < 0).
  { apply Z.lt_nge. intros H. pose proof (Qfloor_le p) as Hle.
    assert (Hq : (inject_Z 0 <= inject_Z (Qfloor p))%Q) by (by rewrite <- Zle_Qle).
    assert (Hp' : (p < 0)%Q) by exact Hp.
    change (inject_Z 0) with 0%Q in Hq. lra. }
  unfold convertPrice_of_double.
  change (floor p) with (double_of_Z (Qfloor p)). rewrite int_of_double_of_Z.
  unfold to_string at 1. apply Z.ltb_lt in Hfl. rewrite Hfl.
  rewrite append_cons.
  unfold convertPrice_of_string.
  cbn [find]. change (Ascii.eqb "-" "-") with true. cbv iota.
  destruct (_ <? _)%nat; [done|].
  unfold substr at 1. cbn [substring Nat.add]. reflexivity.
Qed.

Lemma X2_negative_price_not_decoded_witness :
  convertPrice_of_string (convertPrice_of_double (Q2Qc (- 1 # 2))) = None.
Proof. apply (X2_negative_price_not_decoded (Q2Qc (- 1 # 2))). by vm_compute. Defined.

Section DecoderInputs.

Local Open Scope string_scope.
Local Open Scope Z_scope.

Lemma substring_past_end (s : string) : forall n m,
  (String.length s <= n)%nat -> substring n m s = "".
Proof.
  induction s as [|c s IH]; intros n m H.
  - by destruct n, m.
  - destruct n as [|n]; [cbn in H; lia|]. cbn. apply IH. cbn in H. lia.
Qed.

Lemma stod_empty : stod "" = None.
Proof. reflexivity. Qed.

End DecoderInputs.

(** X3.  Whenever the decoder returns a price, the string has a dash that is
    not its first character and at least three characters after the first
    dash: a string without a dash, with nothing before the dash or with
    fewer than three characters after it makes the decoder throw. *)
Theorem X3_decoded_string_shape (s : string) (v : Qc) :
  convertPrice_of_string s = Some v ->
  exists dashPos,
    find "-" s = Some dashPos
    /\ (0 < dashPos)%nat
    /\ (dashPos + 4 <= String.length s)%nat.
Proof.
  unfold convertPrice_of_string. intros H.
  destruct (find "-" s) as [d|]; [|done].
  exists d. split; [done|].
  destruct (String.length s <? d + 3)%nat eqn:E; [done|]. apply Nat.ltb_ge in E.
  split.
  - destruct d as [|d]; [|lia]. unfold substr in H.
    assert (substring 0 0 s = ""%string) as Hs by (by destruct s).
    by rewrite Hs, stod_empty in H.
  - destruct (decide (d + 4 <= String.length s)%nat) as [|Hn]; [done|].
    unfold substr in H.
    rewrite (substring_past_end s (d + 3) 1) in H by lia.
    change (String.eqb "" "+") with false in H. cbv iota in H.
    rewrite stod_empty in H.
    destruct (stod (substring 0 d s)); [|done]. cbn [mbind option_bind] in H.
    destruct (stod (substring (d + 1) 2 s)); done.
Qed.

Lemma X3_decoded_string_shape_witness :
  exists dashPos,
    find "-" "99-160" = Some dashPos
    /\ (0 < dashPos)%nat
    /\ (dashPos + 4 <= String.length "99-160")%nat.
Proof.
  destruct (convertPrice_of_string "99-160") as [v|] eqn:E.
  - exact (X3_decoded_string_shape "99-160" v E).
  - exfalso. vm_compute in E. discriminate E.
Defined.

(** X4.  The decoder checks no range: for an integer part n below 2^31
    written in digits and any three digits d1 d2 d3 after the dash it returns
    n + (10 d1 + d2)/32 + d3/256, also when d1 d2 is 32 or more or d3 is 8 or
    9, so that different strings decode to the same price. *)
Theorem X4_decoder_reads_any_digits (n d1 d2 d3 : Z) :
  0 <= n < 2 ^ 31 -> 0 <= d1 < 10 -> 0 <= d2 < 10 -> 0 <= d3 < 10 ->
  convertPrice_of_string
    (to_string n ++ "-"
     ++ String (digit_char d1) (String (digit_char d2) (String (digit_char d3) "")))%string
  = Some (grid (256 * n + 8 * (10 * d1 + d2) + d3)).
Proof.
  intros Hn H1 H2 H3.
  destruct (to_string_nonneg n ltac:(lia)) as (Hne & Hall & Hval).
  destruct (digit_char_spec d1 H1) as [Hc1 Hv1].
  destruct (digit_char_spec d2 H2) as [Hc2 Hv2].
  destruct (digit_char_spec d3 H3) as [Hc3 Hv3].
  rewrite convertPrice_of_string_digits; try done.
  - f_equal. cbn [digits_value]. rewrite Hval, Hv1, Hv2, Hv3. apply fraction_sum. lia.
  - cbn. by rewrite Hc1, Hc2.
  - cbn. by rewrite Hc3.
Qed.

Lemma X4_decoder_reads_any_digits_witness :
  convertPrice_of_string "99-320" = Some (grid (256 * 99 + 8 * (10 * 3 + 2) + 0))
  /\ convertPrice_of_string "100-000" = Some (grid (256 * 99 + 8 * (10 * 3 + 2) + 0)).
Proof.
  split.
  - apply (X4_decoder_reads_any_digits 99 3 2 0); lia.
  - apply (X4_decoder_reads_any_digits 100 0 0 0); lia.
Defined.

(** ** The product catalog, identifiers and lines *)

(** X5.  [getProductObject] returns, for each of the seven identifiers it
    knows, a bond that carries that identifier; [getPV01] has a factor for six
    of them only: among the known identifiers its factor is 0 exactly for
    912810TW8, the twenty-year bond. *)
Theorem X5_catalog_and_pv01_table (cusip : string) (b : Bond) :
  getProductObject cusip = Some b ->
  GetProductId b = cusip
  /\ (getPV01 cusip = Q2Qc 0 <-> cusip = "912810TW8"%string).
Proof.
  unfold getProductObject. intros H.
  repeat match type of H with
  | (if String.eqb ?a ?c then _ else _) = _ =>
      destruct (String.eqb_spec a c) as [->|?];
      [injection H as <-; split; [reflexivity|];
       split; intros Hx; try discriminate Hx; try reflexivity;
       exfalso; apply (f_equal this) in Hx; vm_compute in Hx; discriminate Hx|]
  end.
  discriminate H.
Qed.

Lemma X5_catalog_and_pv01_table_witness :
  GetProductId US2Y = "9128283H1"%string
  /\ (getPV01 "9128283H1" = Q2Qc 0 <-> "9128283H1"%string = "912810TW8"%string).
Proof. apply (X5_catalog_and_pv01_table "9128283H1" US2Y). reflexivity. Defined.

Section RandomIds.

Lemma characters_get (i : nat) :
  (i < 36)%nat -> is_Some (String.get i characters).
Proof.
  intros H. do 36 (destruct i as [|i]; [by eexists|]). lia.
Qed.

Lemma GenerateRandomId_spec (n : nat) : forall g,
  String.length (GenerateRandomId n g).1 = n
  /\ cursor (GenerateRandomId n g).2 = (cursor g + n)%nat
  /\ draws (GenerateRandomId n g).2 = draws g.
Proof.
  induction n as [|n IH]; intros g; cbn [GenerateRandomId].
  - cbn. split; [done|]. split; [lia|done].
  - unfold rand. specialize (IH (mkRand (draws g) (S (cursor g)))).
    destruct (GenerateRandomId n _) as [id g2]. cbn in *.
    destruct IH as (-> & -> & ->). split; [done|]. split; [lia|done].
Qed.

Lemma GenerateRandomId_alphabet (n : nat) : forall g,
  (forall i, 0 <= draws g i) ->
  forall i c, String.get i (GenerateRandomId n g).1 = Some c ->
              exists j, String.get j characters = Some c.
Proof.
  induction n as [|n IH]; intros g Hg i c; cbn [GenerateRandomId].
  - cbn. discriminate.
  - unfold rand. specialize (IH (mkRand (draws g) (S (cursor g))) Hg).
    destruct (GenerateRandomId n _) as [rid g2]. cbn [fst] in *.
    destruct (characters_get (Z.to_nat (Z.rem (draws g (cursor g)) 36))) as [c0 Hc].
    { pose proof (Hg (cursor g)).
      pose proof (Z.rem_bound_pos (draws g (cursor g)) 36 ltac:(lia) ltac:(lia)). lia. }
    rewrite Hc. cbn [default from_option id].
    destruct i as [|i]; cbn [String.get].
    + intros [= <-]. eauto.
    + apply IH.
Qed.

End RandomIds.

(** X6.  [GenerateRandomId] returns an identifier of exactly the length asked
    for, each of whose characters is a digit or a capital letter of its table,
    and takes that many values from [rand()], which are never negative. *)
Theorem X6_random_id_length_and_alphabet (n : nat) (g : Rand) :
  (forall i, 0 <= draws g i) ->
  String.length (GenerateRandomId n g).1 = n
  /\ cursor (GenerateRandomId n g).2 = (cursor g + n)%nat
  /\ forall i c, String.get i (GenerateRandomId n g).1 = Some c ->
                 exists j, String.get j characters = Some c.
Proof.
  intros Hg. destruct (GenerateRandomId_spec n g) as (H1 & H2 & _).
  split; [done|]. split; [done|]. by apply GenerateRandomId_alphabet.
Qed.

Lemma X6_random_id_length_and_alphabet_witness :
  String.length (GenerateRandomId 11 no_draws).1 = 11%nat
  /\ cursor (GenerateRandomId 11 no_draws).2 = (cursor no_draws + 11)%nat
  /\ forall i c, String.get i (GenerateRandomId 11 no_draws).1 = Some c ->
                 exists j, String.get j characters = Some c.
Proof.
  apply (X6_random_id_length_and_alphabet 11 no_draws). intros i. cbn. lia.
Defined.

Section JoinAndSplit.

Local Open Scope string_scope.

Lemma getline_fields_app (a b : string) : forall cur,
  comma_free a -> getline_fields (a ++ b) cur = getline_fields b (cur ++ a).
Proof.
  unfold comma_free. induction a as [|c a IH]; intros cur H.
  - by rewrite append_nil, append_nil_r.
  - rewrite append_cons. cbn [getline_fields]. cbn [find] in H.
    destruct (Ascii.eqb c ","); [done|].
    rewrite IH by (by destruct (find "," a)).
    f_equal. rewrite string_app_assoc. reflexivity.
Qed.

(** The joined string, component by component. *)
Lemma foldl_join (rest : list string) : forall first,
  foldl (fun result s => result ++ ("," ++ s)) first rest
  = first ++ foldr (fun s acc => "," ++ s ++ acc) "" rest.
Proof.
  induction rest as [|s rest IH]; intros first; cbn [foldl foldr].
  - by rewrite append_nil_r.
  - rewrite IH, !string_app_assoc. reflexivity.
Qed.

Lemma getline_fields_joined (rest : list string) : forall first,
  Forall comma_free (first :: rest) ->
  list.last (first :: rest) <> Some "" ->
  getline_fields (first ++ foldr (fun s acc => "," ++ s ++ acc) "" rest) "" = first :: rest.
Proof.
  induction rest as [|s rest IH]; intros first Hc Hl.
  - cbn [foldr]. rewrite append_nil_r.
    rewrite <- (append_nil_r first) at 1.
    rewrite getline_fields_app by (by inversion Hc). cbn [getline_fields].
    rewrite append_nil.
    destruct (String.eqb_spec first "") as [->|]; [by cbn in Hl|done].
  - cbn [foldr]. apply list.Forall_cons in Hc as [Hf Hc].
    rewrite getline_fields_app by done.
    change ("," ++ s ++ ?x) with (String "," (s ++ x)).
    cbn [getline_fields]. change (Ascii.eqb "," ",") with true. cbv iota.
    rewrite append_nil. f_equal. apply IH; [done|].
    by rewrite last_cons_cons in Hl.
Qed.

End JoinAndSplit.

(** X7.  Splitting on commas what [join] makes of a list of components with
    the comma as delimiter gives the components back, provided that none of
    them holds a comma and the last one is not empty (the loop that splits a
    line drops an empty last field); [join] on no component at all is
    undefined. *)
Theorem X7_join_then_split (components : list string) :
  components <> [] ->
  Forall comma_free components ->
  list.last components <> Some ""%string ->
  exists s, join components "," = Some s /\ getline_fields s "" = components.
Proof.
  intros Hne Hc Hl. destruct components as [|first rest]; [done|].
  eexists. split; [reflexivity|].
  rewrite foldl_join. by apply getline_fields_joined.
Qed.

Lemma X7_join_then_split_witness :
  exists s, join ["I1"; "9128283H1"; "BID"; "1000000"; "99-160"; "RECEIVED"]%string ","
            = Some s
            /\ getline_fields s ""
               = ["I1"; "9128283H1"; "BID"; "1000000"; "99-160"; "RECEIVED"]%string.
Proof.
  apply (X7_join_then_split ["I1"; "9128283H1"; "BID"; "1000000"; "99-160"; "RECEIVED"]%string).
  - discriminate.
  - repeat constructor.
  - discriminate.
Defined.

(** ** Market data: the best bid and offer, and what aggregation computes *)

Section BestBidOffer.

Import MarketData.

Lemma double_lt_spec (a b : Qc) : double_lt a b = true <-> (a < b)%Qc.
Proof.
  unfold double_lt. rewrite negb_true_iff, <- not_true_iff_false, Qle_bool_iff.
  split; [apply Qnot_le_lt | apply Qlt_not_le].
Qed.

Lemma double_lt_false (a b : Qc) : double_lt a b = false <-> (b <= a)%Qc.
Proof.
  unfold double_lt. rewrite negb_false_iff, Qle_bool_iff. reflexivity.
Qed.

(** The scan of [max_element]: the element kept so far splits what has been
    seen into strictly smaller prices before it and prices not above it
    after it. *)
Lemma max_scan (rest : list Order) : forall l1 best l2,
  (forall o, o ∈ l1 -> (price o < price best)%Qc) ->
  (forall o, o ∈ l2 -> (price o <= price best)%Qc) ->
  exists l1' l2',
    l1 ++ best :: l2 ++ rest
    = l1' ++ foldl (fun largest it => if double_lt (price largest) (price it) then it else largest)
                   best rest :: l2'
    /\ (forall o, o ∈ l1' ->
          (price o < price (foldl (fun largest it =>
                                     if double_lt (price largest) (price it) then it else largest)
                                  best rest))%Qc)
    /\ (forall o, o ∈ l2' ->
          (price o <= price (foldl (fun largest it =>
                                      if double_lt (price largest) (price it) then it else largest)
                                   best rest))%Qc).
Proof.
  induction rest as [|it rest IH]; intros l1 best l2 H1 H2; cbn [foldl].
  - exists l1, l2. by rewrite app_nil_r.
  - destruct (double_lt (price best) (price it)) eqn:E.
    + apply double_lt_spec in E.
      destruct (IH (l1 ++ best :: l2) it []) as (l1' & l2' & Heq & Ha & Hb).
      * intros o [Ho|Ho]%elem_of_app.
        -- eapply Qclt_trans; [by apply H1|done].
        -- apply elem_of_cons in Ho as [->|Ho]; [done|].
           eapply Qcle_lt_trans; [by apply H2|done].
      * intros o Ho. by apply elem_of_nil in Ho.
      * exists l1', l2'. split; [|done]. rewrite <- Heq. cbn. by rewrite <- !app_assoc.
    + apply double_lt_false in E.
      destruct (IH l1 best (l2 ++ [it])) as (l1' & l2' & Heq & Ha & Hb).
      * done.
      * intros o [Ho|Ho]%elem_of_app; [by apply H2|].
        apply list_elem_of_singleton in Ho as ->. done.
      * exists l1', l2'. split; [|done]. rewrite <- Heq. by rewrite <- !app_assoc.
Qed.

Lemma min_scan (rest : list Order) : forall l1 best l2,
  (forall o, o ∈ l1 -> (price best < price o)%Qc) ->
  (forall o, o ∈ l2 -> (price best <= price o)%Qc) ->
  exists l1' l2',
    l1 ++ best :: l2 ++ rest
    = l1' ++ foldl (fun smallest it => if double_lt (price it) (price smallest) then it else smallest)
                   best rest :: l2'
    /\ (forall o, o ∈ l1' ->
          (price (foldl (fun smallest it =>
                           if double_lt (price it) (price smallest) then it else smallest)
                        best rest) < price o)%Qc)
    /\ (forall o, o ∈ l2' ->
          (price (foldl (fun smallest it =>
                           if double_lt (price it) (price smallest) then it else smallest)
                        best rest) <= price o)%Qc).
Proof.
  induction rest as [|it rest IH]; intros l1 best l2 H1 H2; cbn [foldl].
  - exists l1, l2. by rewrite app_nil_r.
  - destruct (double_lt (price it) (price best)) eqn:E.
    + apply double_lt_spec in E.
      destruct (IH (l1 ++ best :: l2) it []) as (l1' & l2' & Heq & Ha & Hb).
      * intros o [Ho|Ho]%elem_of_app.
        -- eapply Qclt_trans; [done|by apply H1].
        -- apply elem_of_cons in Ho as [->|Ho]; [done|].
           eapply Qclt_le_trans; [done|by apply H2].
      * intros o Ho. by apply elem_of_nil in Ho.
      * exists l1', l2'. split; [|done]. rewrite <- Heq. cbn. by rewrite <- !app_assoc.
    + apply double_lt_false in E.
      destruct (IH l1 best (l2 ++ [it])) as (l1' & l2' & Heq & Ha & Hb).
      * done.
      * intros o [Ho|Ho]%elem_of_app; [by apply H2|].
        apply list_elem_of_singleton in Ho as ->. done.
      * exists l1', l2'. split; [|done]. rewrite <- Heq. by rewrite <- !app_assoc.
Qed.

Lemma max_element_spec (l : list Order) (o : Order) :
  max_element l = Some o ->
  exists l1 l2, l = l1 ++ o :: l2
                /\ (forall o', o' ∈ l1 -> (price o' < price o)%Qc)
                /\ (forall o', o' ∈ l2 -> (price o' <= price o)%Qc).
Proof.
  destruct l as [|first rest]; [done|]. cbn [max_element]. intros [= <-].
  destruct (max_scan rest [] first []) as (l1 & l2 & Heq & Ha & Hb).
  - intros o' Ho. by apply elem_of_nil in Ho.
  - intros o' Ho. by apply elem_of_nil in Ho.
  - exists l1, l2. split; [exact Heq|done].
Qed.

Lemma min_element_spec (l : list Order) (o : Order) :
  min_element l = Some o ->
  exists l1 l2, l = l1 ++ o :: l2
                /\ (forall o', o' ∈ l1 -> (price o < price o')%Qc)
                /\ (forall o', o' ∈ l2 -> (price o <= price o')%Qc).
Proof.
  destruct l as [|first rest]; [done|]. cbn [min_element]. intros [= <-].
  destruct (min_scan rest [] first []) as (l1 & l2 & Heq & Ha & Hb).
  - intros o' Ho. by apply elem_of_nil in Ho.
  - intros o' Ho. by apply elem_of_nil in Ho.
  - exists l1, l2. split; [exact Heq|done].
Qed.

End BestBidOffer.

(** X8.  [GetBestBidOffer] cannot be taken of a book with an empty side (it
    would dereference a past-the-end iterator); on any other book the bid it
    returns is the first order of the bid stack with the highest price (every
    order before it is strictly lower, every order after it is not higher)
    and the offer is the first order of the offer stack with the lowest
    price. *)
Theorem X8_best_bid_offer (b : MarketData.OrderBook) :
  (MarketData.GetBestBidOffer b = None
   <-> MarketData.bidStack b = [] \/ MarketData.offerStack b = [])
  /\ forall bo, MarketData.GetBestBidOffer b = Some bo ->
       (exists l1 l2,
           MarketData.bidStack b = l1 ++ MarketData.bidOrder bo :: l2
           /\ (forall o, o ∈ l1 ->
                 (MarketData.price o < MarketData.price (MarketData.bidOrder bo))%Qc)
           /\ (forall o, o ∈ l2 ->
                 (MarketData.price o <= MarketData.price (MarketData.bidOrder bo))%Qc))
       /\ (exists l1 l2,
             MarketData.offerStack b = l1 ++ MarketData.offerOrder bo :: l2
             /\ (forall o, o ∈ l1 ->
                   (MarketData.price (MarketData.offerOrder bo) < MarketData.price o)%Qc)
             /\ (forall o, o ∈ l2 ->
                   (MarketData.price (MarketData.offerOrder bo) <= MarketData.price o)%Qc)).
Proof.
  unfold MarketData.GetBestBidOffer. split.
  - destruct (MarketData.bidStack b) as [|x l]; [cbn; split; auto|].
    destruct (MarketData.offerStack b) as [|y k]; [cbn; split; auto|].
    cbn. split; [done|]. by intros [|].
  - intros bo H.
    destruct (MarketData.max_element (MarketData.bidStack b)) as [bid|] eqn:Eb; [|done].
    destruct (MarketData.min_element (MarketData.offerStack b)) as [offer|] eqn:Eo; [|done].
    cbn in H. injection H as <-. cbn.
    split; [by apply max_element_spec | by apply min_element_spec].
Qed.

Section AggregationSums.

Import MarketData.

Lemma depth_at_cons (p : Qc) (o : Order) (stack : list Order) :
  depth_at p (o :: stack)
  = (if decide (price o = p) then quantity o else 0) + depth_at p stack.
Proof.
  unfold depth_at. rewrite list.filter_cons.
  destruct (decide (price o = p)); reflexivity.
Qed.

Lemma foldl_accumulate_lookup (stack : list Order) : forall (m : gmap Qc Z) (p : Qc),
  foldl accumulate m stack !! p
  = match filter (fun o => price o = p) stack with
    | [] => m !! p
    | _ => Some (long_wrap (default 0 (m !! p) + depth_at p stack))
    end.
Proof.
  induction stack as [|o stack IH]; intros m p; [done|].
  cbn [foldl]. rewrite IH, depth_at_cons, list.filter_cons. unfold accumulate.
  destruct (decide (price o = p)) as [<-|Hne].
  - rewrite lookup_insert_eq. cbn [default from_option id].
    destruct (filter _ stack) eqn:E.
    + unfold depth_at. rewrite E. cbn. unfold long_add, Zsum. cbn.
      by rewrite !Z.add_0_r.
    + unfold long_add. rewrite long_wrap_add_l. do 2 f_equal. lia.
  - rewrite lookup_insert_ne by done. by rewrite Z.add_0_l.
Qed.

Lemma aggMap_lookup (stack : list Order) (p : Qc) :
  aggMap stack !! p
  = match filter (fun o => price o = p) stack with
    | [] => None
    | _ => Some (long_wrap (depth_at p stack))
    end.
Proof.
  unfold aggMap. rewrite foldl_accumulate_lookup, lookup_empty. reflexivity.
Qed.

Lemma filter_price_nonempty (stack : list Order) (p : Qc) :
  filter (fun o => price o = p) stack <> [] <-> exists o, o ∈ stack /\ price o = p.
Proof.
  split.
  - destruct (filter _ stack) as [|o l] eqn:E; [done|]. intros _.
    assert (Ho : o ∈ filter (fun o => price o = p) stack) by (rewrite E; left).
    apply list_elem_of_filter in Ho as [? ?]. eauto.
  - intros (o & Ho & Hp) E.
    assert (Hin : o ∈ filter (fun o => price o = p) stack)
      by (apply list_elem_of_filter; done).
    rewrite E in Hin. by apply elem_of_nil in Hin.
Qed.

(** The orders of an aggregated stack: one at each price of the stack it was
    made from, with the sum of the quantities at that price. *)
Lemma aggregated_spec (t : Traversal) (s : PricingSide) (stack : list Order) (o : Order) :
  traversal_ok t ->
  o ∈ aggregated t s (aggMap stack)
  <-> side o = s
      /\ (exists o0, o0 ∈ stack /\ price o0 = price o)
      /\ quantity o = long_wrap (depth_at (price o) stack).
Proof.
  intros Ht. unfold aggregated.
  rewrite list_elem_of_In, in_map_iff. split.
  - intros ([p q] & <- & Hin). cbn.
    apply list_elem_of_In in Hin. rewrite (Ht _) in Hin.
    apply elem_of_map_to_list in Hin. rewrite aggMap_lookup in Hin.
    destruct (filter _ stack) eqn:E; [done|]. injection Hin as <-.
    split; [done|]. split; [|done].
    apply filter_price_nonempty. by rewrite E.
  - intros (Hs & Hex & Hq). exists (price o, quantity o). split.
    + destruct o; cbn in *. by subst.
    + apply list_elem_of_In. rewrite (Ht _). apply elem_of_map_to_list.
      rewrite aggMap_lookup. apply filter_price_nonempty in Hex.
      destruct (filter _ stack); [done|]. by rewrite Hq.
Qed.

End AggregationSums.



Section SnapshotAccumulation.

Import MarketData.


Lemma push_level_spec lineVec b i b' :
  push_level lineVec b i = Some b' ->
  exists nb no,
    bidStack b' = bidStack b ++ [nb] /\ offerStack b' = offerStack b ++ [no]
    /\ product b' = product b.
Proof.
  unfold push_level. intros H.
  repeat match type of H with
  | (?x ≫= _) = Some _ => destruct x; [cbn [mbind option_bind] in H|done]
  end.
  injection H as <-. cbn. eauto.
Qed.

Lemma push_levels_spec lineVec (n : nat) : forall b i b',
  push_levels lineVec b i n = Some b' ->
  exists nbs nos,
    length nbs = n /\ length nos = n
    /\ bidStack b' = bidStack b ++ nbs /\ offerStack b' = offerStack b ++ nos
    /\ product b' = product b.
Proof.
  induction n as [|n IH]; intros b i b' H; cbn [push_levels] in H.
  - injection H as <-. exists [], []. by rewrite !app_nil_r.
  - destruct (push_level lineVec b i) as [b1|] eqn:E; [|done]. cbn [mbind option_bind] in H.
    destruct (push_level_spec _ _ _ _ E) as (nb & no & Hb & Ho & Hp).
    destruct (IH _ _ _ H) as (nbs & nos & Hlb & Hlo & Hbs & Hos & Hps).
    exists (nb :: nbs), (no :: nos). cbn [length].
    rewrite Hbs, Hos, Hps, Hb, Ho, Hp, <- !app_assoc. by rewrite Hlb, Hlo.
Qed.

Lemma GetData_spec svc k svc0 b :
  GetData svc k = Some (svc0, b) ->
  orderBooks svc0 !! k = Some b
  /\ listeners svc0 = listeners svc /\ bookDepth svc0 = bookDepth svc.
Proof.
  unfold GetData. destruct (orderBooks svc !! k) as [b0|] eqn:E.
  - by intros [= <- <-].
  - destruct (new_OrderBook k) as [b1|]; [|done]. cbn. intros [= <- <-]. cbn.
    unfold map_insert. by rewrite E, lookup_insert_eq.
Qed.

End SnapshotAccumulation.



(** ** Algo execution and algo streaming: the counters *)

Section Parity.

Lemma rem2_even (c : Z) : (Z.rem c 2 =? 0) = Z.even c.
Proof.
  destruct (Z.even c) eqn:E.
  - apply Z.eqb_eq. apply Z.even_spec in E as [m ->].
    rewrite Z.mul_comm. apply Z.rem_mul. lia.
  - apply Z.eqb_neq. intros H. apply Z.rem_divide in H as [m ->]; [|lia].
    rewrite Z.even_mul in E. cbn in E. by rewrite orb_true_r in E.
Qed.

Lemma even_long_wrap (x : Z) : Z.even (long_wrap x) = Z.even x.
Proof.
  unfold long_wrap.
  pose proof (Z.div_mod (x + 2 ^ 63) (2 ^ 64) ltac:(lia)) as H.
  replace ((x + 2 ^ 63) mod 2 ^ 64 - 2 ^ 63)
    with (x + 2 * (- 2 ^ 63 * ((x + 2 ^ 63) / 2 ^ 64))) by lia.
  rewrite Z.even_add_mul_2. reflexivity.
Qed.

Lemma even_long_add_1 (c : Z) : Z.even (long_add c 1) = negb (Z.even c).
Proof.
  unfold long_add. rewrite even_long_wrap, Z.add_1_r, Z.even_succ. symmetry. apply Z.negb_even.
Qed.

End Parity.

Section TightSpread.

Import MarketData AlgoExecution.

(** The execution built from a tight book. *)
Lemma AlgoExecuteOrder_tight u g svc book bo :
  GetBestBidOffer book = Some bo ->
  double_le (price (offerOrder bo) - price (bidOrder bo))%Qc (Q2Qc (1 # 128)) = true ->
  AlgoExecuteOrder u g svc book
  = Some (mkService
            (<[GetProductId (product book) :=
                 mkAlgoExecution
                   (mkExecutionOrder (product book)
                      (if Z.even (count svc) then BID else OFFER)
                      ("A" ++ (GenerateRandomId 11 g).1)%string MARKET
                      (if Z.even (count svc) then price (offerOrder bo) else price (bidOrder bo))
                      (if Z.even (count svc) then quantity (bidOrder bo)
                       else quantity (offerOrder bo))
                      0
                      ("AP" ++ (GenerateRandomId 10 (GenerateRandomId 11 g).2).1)%string
                      false)
                   BROKERTEC]> (algoExecutions svc))
            (listeners svc) (long_add (count svc) 1),
          (GenerateRandomId 10 (GenerateRandomId 11 g).2).2,
          notify (listeners svc)
            (mkAlgoExecution
               (mkExecutionOrder (product book)
                  (if Z.even (count svc) then BID else OFFER)
                  ("A" ++ (GenerateRandomId 11 g).1)%string MARKET
                  (if Z.even (count svc) then price (offerOrder bo) else price (bidOrder bo))
                  (if Z.even (count svc) then quantity (bidOrder bo)
                   else quantity (offerOrder bo))
                  0
                  ("AP" ++ (GenerateRandomId 10 (GenerateRandomId 11 g).2).1)%string
                  false)
               BROKERTEC)).
Proof.
  intros Hbo Htight. unfold AlgoExecuteOrder.
  destruct (GenerateRandomId 11 g) as [id1 g1]. cbn [fst snd].
  destruct (GenerateRandomId 10 g1) as [id2 g2].
  rewrite Hbo. cbn [mbind option_bind fst snd]. rewrite Htight.
  unfold long_rem. rewrite rem2_even.
  assert (Hm : forall (e : AlgoExecution),
             map_insert (GetProductId (product book)) e
               match algoExecutions svc !! GetProductId (product book) with
               | Some _ => delete (GetProductId (product book)) (algoExecutions svc)
               | None => algoExecutions svc
               end
             = <[GetProductId (product book) := e]> (algoExecutions svc)).
  { intros e. unfold map_insert.
    destruct (algoExecutions svc !! GetProductId (product book)) eqn:E.
    - rewrite lookup_delete_eq. apply insert_delete_eq.
    - by rewrite E. }
  rewrite Hm. destruct (Z.even (count svc)); reflexivity.
Qed.

End TightSpread.



(** X12.  Two tight books in a row are both executed, on opposite sides,
    whatever the counter is when the first one comes: the order stored for
    the first is a BID exactly when the order stored for the second is an
    OFFER. *)
Theorem X12_tight_books_alternate_sides
    (u1 u2 : AlgoExecution.Uninitialised) (g1 : Rand)
    (svc : AlgoExecution.AlgoExecutionService)
    (b1 b2 : MarketData.OrderBook) (bo1 bo2 : MarketData.BidOffer) :
  MarketData.GetBestBidOffer b1 = Some bo1 ->
  double_le (MarketData.price (MarketData.offerOrder bo1)
             - MarketData.price (MarketData.bidOrder bo1))%Qc (Q2Qc (1 # 128)) = true ->
  MarketData.GetBestBidOffer b2 = Some bo2 ->
  double_le (MarketData.price (MarketData.offerOrder bo2)
             - MarketData.price (MarketData.bidOrder bo2))%Qc (Q2Qc (1 # 128)) = true ->
  exists svc1 g2 calls1 svc2 g3 calls2 e1 e2,
    AlgoExecution.AlgoExecuteOrder u1 g1 svc b1 = Some (svc1, g2, calls1)
    /\ AlgoExecution.AlgoExecuteOrder u2 g2 svc1 b2 = Some (svc2, g3, calls2)
    /\ AlgoExecution.algoExecutions svc1 !! GetProductId (MarketData.product b1) = Some e1
    /\ AlgoExecution.algoExecutions svc2 !! GetProductId (MarketData.product b2) = Some e2
    /\ calls1 = notify (AlgoExecution.listeners svc) e1
    /\ calls2 = notify (AlgoExecution.listeners svc) e2
    /\ AlgoExecution.eo_side (AlgoExecution.executionOrder e1)
       <> AlgoExecution.eo_side (AlgoExecution.executionOrder e2).
Proof.
  intros Hbo1 Ht1 Hbo2 Ht2.
  eexists _, _, _, _, _, _, _, _.
  split; [exact (AlgoExecuteOrder_tight _ _ _ _ _ Hbo1 Ht1)|].
  split; [exact (AlgoExecuteOrder_tight _ _ _ _ _ Hbo2 Ht2)|].
  cbn. split; [apply lookup_insert_eq|]. split; [apply lookup_insert_eq|].
  split; [reflexivity|]. split; [reflexivity|].
  cbn. rewrite even_long_add_1. by destruct (Z.even (AlgoExecution.count svc)).
Qed.

Lemma X12_tight_books_alternate_sides_witness :
  exists svc1 g2 calls1 svc2 g3 calls2 e1 e2,
    AlgoExecution.AlgoExecuteOrder some_garbage no_draws (AlgoExecution.init [0%nat]) tight_book
    = Some (svc1, g2, calls1)
    /\ AlgoExecution.AlgoExecuteOrder some_garbage g2 svc1 tight_book = Some (svc2, g3, calls2)
    /\ AlgoExecution.algoExecutions svc1 !! "9128283H1"%string = Some e1
    /\ AlgoExecution.algoExecutions svc2 !! "9128283H1"%string = Some e2
    /\ calls1 = notify [0%nat] e1
    /\ calls2 = notify [0%nat] e2
    /\ AlgoExecution.eo_side (AlgoExecution.executionOrder e1)
       <> AlgoExecution.eo_side (AlgoExecution.executionOrder e2).
Proof.
  exact (X12_tight_books_alternate_sides some_garbage some_garbage no_draws
           (AlgoExecution.init [0%nat]) tight_book tight_book tight_best tight_best
           eq_refl eq_refl eq_refl eq_refl).
Defined.

(** ** Algo streaming: the two-way stream of a price *)

Section AlgoStreams.

Import AlgoStreaming.

Lemma PublishAlgoStream_spec svc p :
  PublishAlgoStream svc p
  = (mkService
       (<[GetProductId (GUI.product p) :=
            mkAlgoStream
              (mkPriceStream (GUI.product p)
                 (mkPriceStreamOrder (GUI.mid p - GUI.bidOfferSpread p / Q2Qc (2 # 1))%Qc
                    (if Z.even (count svc) then 1000000 else 2000000)
                    (if Z.even (count svc) then 2000000 else 4000000) MarketData.BID)
                 (mkPriceStreamOrder (GUI.mid p + GUI.bidOfferSpread p / Q2Qc (2 # 1))%Qc
                    (if Z.even (count svc) then 1000000 else 2000000)
                    (if Z.even (count svc) then 2000000 else 4000000) MarketData.OFFER))]>
          (algoStreams svc))
       (listeners svc) (long_add (count svc) 1),
     notify (listeners svc)
       (mkAlgoStream
          (mkPriceStream (GUI.product p)
             (mkPriceStreamOrder (GUI.mid p - GUI.bidOfferSpread p / Q2Qc (2 # 1))%Qc
                (if Z.even (count svc) then 1000000 else 2000000)
                (if Z.even (count svc) then 2000000 else 4000000) MarketData.BID)
             (mkPriceStreamOrder (GUI.mid p + GUI.bidOfferSpread p / Q2Qc (2 # 1))%Qc
                (if Z.even (count svc) then 1000000 else 2000000)
                (if Z.even (count svc) then 2000000 else 4000000) MarketData.OFFER)))).
Proof.
  unfold PublishAlgoStream, long_rem. rewrite rem2_even.
  assert (Hm : forall (e : AlgoStream),
             map_insert (GetProductId (GUI.product p)) e
               match algoStreams svc !! GetProductId (GUI.product p) with
               | Some _ => delete (GetProductId (GUI.product p)) (algoStreams svc)
               | None => algoStreams svc
               end
             = <[GetProductId (GUI.product p) := e]> (algoStreams svc)).
  { intros e. unfold map_insert.
    destruct (algoStreams svc !! GetProductId (GUI.product p)) eqn:E.
    - rewrite lookup_delete_eq. apply insert_delete_eq.
    - by rewrite E. }
  rewrite Hm. destruct (Z.even (count svc)); reflexivity.
Qed.

Lemma two_is_1_plus_1 : Q2Qc (2 # 1) = (1 + 1)%Qc.
Proof. by apply Qc_is_canon. Qed.

Lemma half_spread_below (bid ask : Qc) :
  ((bid + ask) / Q2Qc (2 # 1) - (ask - bid) / Q2Qc (2 # 1) = bid)%Qc.
Proof. rewrite two_is_1_plus_1. field. discriminate. Qed.

Lemma half_spread_above (bid ask : Qc) :
  ((bid + ask) / Q2Qc (2 # 1) + (ask - bid) / Q2Qc (2 # 1) = ask)%Qc.
Proof. rewrite two_is_1_plus_1. field. discriminate. Qed.

End AlgoStreams.

(** X13.  [PublishAlgoStream] hands to every listener, and stores under the
    product, a stream whose bid and offer orders carry the same visible
    quantity, 1,000,000 or 2,000,000, and a hidden quantity of twice that.
    Of two streams published one after the other, one has visible quantity 1,000,000
    and the other 2,000,000, whatever the counter, which the constructor
    leaves unassigned, holds at first. *)
Theorem X13_stream_sizes_alternate
    (svc : AlgoStreaming.AlgoStreamingService) (p1 p2 : GUI.Price) :
  exists s1 s2 : AlgoStreaming.AlgoStream,
    (AlgoStreaming.PublishAlgoStream svc p1).2 = notify (AlgoStreaming.listeners svc) s1
    /\ (AlgoStreaming.PublishAlgoStream (AlgoStreaming.PublishAlgoStream svc p1).1 p2).2
       = notify (AlgoStreaming.listeners svc) s2
    /\ AlgoStreaming.algoStreams
         (AlgoStreaming.PublishAlgoStream (AlgoStreaming.PublishAlgoStream svc p1).1 p2).1
       !! GetProductId (GUI.product p2) = Some s2
    /\ (forall s, s = s1 \/ s = s2 ->
        let b := AlgoStreaming.bidOrder (AlgoStreaming.priceStream s) in
        let o := AlgoStreaming.offerOrder (AlgoStreaming.priceStream s) in
        AlgoStreaming.side b = MarketData.BID
        /\ AlgoStreaming.side o = MarketData.OFFER
        /\ AlgoStreaming.visibleQuantity o = AlgoStreaming.visibleQuantity b
        /\ AlgoStreaming.hiddenQuantity b = 2 * AlgoStreaming.visibleQuantity b
        /\ AlgoStreaming.hiddenQuantity o = 2 * AlgoStreaming.visibleQuantity b)
    /\ (AlgoStreaming.visibleQuantity (AlgoStreaming.bidOrder (AlgoStreaming.priceStream s1))
        = 1000000
        /\ AlgoStreaming.visibleQuantity (AlgoStreaming.bidOrder (AlgoStreaming.priceStream s2))
           = 2000000
        \/ AlgoStreaming.visibleQuantity (AlgoStreaming.bidOrder (AlgoStreaming.priceStream s1))
           = 2000000
           /\ AlgoStreaming.visibleQuantity
                (AlgoStreaming.bidOrder (AlgoStreaming.priceStream s2)) = 1000000).
Proof.
  eexists _, _. rewrite !PublishAlgoStream_spec. cbn -[Qcplus Qcminus Qcdiv Q2Qc].
  split; [reflexivity|]. split; [reflexivity|]. split; [apply lookup_insert_eq|].
  rewrite even_long_add_1. split.
  - intros s [-> | ->]; cbn; by destruct (Z.even (AlgoStreaming.count svc)).
  - destruct (Z.even (AlgoStreaming.count svc)); cbn; auto.
Qed.

(** X14.  When the third and fourth fields of a line of the price file are
    decoded as a bid and an ask that are multiples of 1/256 from 0 up to
    1000, the price the pricing connector makes of the line gives, through
    [PublishAlgoStream], a stream for the product named in the second field
    whose bid order is at that bid and whose offer order at that ask:
    mid - spread/2 and mid + spread/2 give the two quotes back.  (On these
    values every operation the two functions perform is exact on a
    [double].) *)
Theorem X14_stream_quotes_are_file_quotes
    (line f2 f3 : string) (kb ka : Z) (price : GUI.Price)
    (svc : AlgoStreaming.AlgoStreamingService) :
  getline_fields line "" !! 2%nat = Some f2 ->
  getline_fields line "" !! 3%nat = Some f3 ->
  convertPrice_of_string f2 = Some (grid kb) ->
  convertPrice_of_string f3 = Some (grid ka) ->
  0 <= kb < 256000 -> 0 <= ka < 256000 ->
  Pricing.decode_line line = Some price ->
  exists (productId : string) (s : AlgoStreaming.AlgoStream),
    getline_fields line "" !! 1%nat = Some productId
    /\ (AlgoStreaming.PublishAlgoStream svc price).2 = notify (AlgoStreaming.listeners svc) s
    /\ AlgoStreaming.algoStreams (AlgoStreaming.PublishAlgoStream svc price).1 !! productId
       = Some s
    /\ getProductObject productId = Some (AlgoStreaming.product (AlgoStreaming.priceStream s))
    /\ AlgoStreaming.price (AlgoStreaming.bidOrder (AlgoStreaming.priceStream s)) = grid kb
    /\ AlgoStreaming.price (AlgoStreaming.offerOrder (AlgoStreaming.priceStream s)) = grid ka.
Proof.
  intros H2 H3 Hb Ha _ _. unfold Pricing.decode_line. rewrite H2, H3. intros H.
  destruct (getline_fields line "" !! 0%nat) as [ts|]; [|discriminate].
  destruct (getline_fields line "" !! 1%nat) as [pid|]; [|discriminate].
  cbn [mbind option_bind] in H. rewrite Hb in H. cbn [mbind option_bind] in H.
  rewrite Ha in H. cbn [mbind option_bind] in H.
  destruct (getProductObject pid) as [product|] eqn:Hp; [|discriminate].
  injection H as <-.
  assert (Hid : GetProductId product = pid).
  { unfold getProductObject in Hp.
    repeat match type of Hp with
    | (if String.eqb ?a ?b then _ else _) = _ =>
        destruct (String.eqb_spec a b) as [->|_]; [by injection Hp as <-|]
    end.
    discriminate Hp. }
  eexists pid, _. rewrite PublishAlgoStream_spec.
  cbn -[Qcplus Qcminus Qcdiv Q2Qc]. rewrite Hid.
  split; [reflexivity|]. split; [reflexivity|]. split; [apply lookup_insert_eq|].
  split; [exact Hp|].
  split; [apply half_spread_below | apply half_spread_above].
Qed.

Lemma X14_stream_quotes_are_file_quotes_witness :
  exists (price : GUI.Price) (s : AlgoStreaming.AlgoStream),
    Pricing.decode_line sample_price_line = Some price
    /\ (AlgoStreaming.PublishAlgoStream (AlgoStreaming.init [0%nat] 7) price).2
       = notify [0%nat] s
    /\ AlgoStreaming.price (AlgoStreaming.bidOrder (AlgoStreaming.priceStream s)) = grid 25344
    /\ AlgoStreaming.price (AlgoStreaming.offerOrder (AlgoStreaming.priceStream s))
       = grid 25346.
Proof.
  destruct (Pricing.decode_line sample_price_line) as [price|] eqn:E;
    [|exfalso; vm_compute in E; discriminate E].
  destruct (X14_stream_quotes_are_file_quotes sample_price_line "99-000" "99-002" 25344 25346
              price (AlgoStreaming.init [0%nat] 7) eq_refl eq_refl
              (decode_encoded 99 0 ltac:(lia) ltac:(lia))
              (decode_encoded 99 2 ltac:(lia) ltac:(lia))
              ltac:(lia) ltac:(lia) E)
    as (pid & s & _ & Hs & _ & _ & Hsb & Hso).
  exists price, s. split; [reflexivity|]. split; [exact Hs|]. split; assumption.
Defined.

(** ** From trades to positions and risk *)

Section BackOffice.

Import TradeBooking Position.

Lemma trades_of_book_snoc pid b ts t :
  trades_of_book pid b (ts ++ [t])
  = trades_of_book pid b ts
    ++ (if decide (GetProductId (TradeBooking.product t) = pid)
        then if decide (book t = b) then [t] else []
        else []).
Proof.
  unfold trades_of_book. rewrite trades_of_snoc, list.filter_app. f_equal.
  destruct (decide (GetProductId (TradeBooking.product t) = pid)); [|reflexivity].
  rewrite list.filter_cons. destruct (decide (book t = b)); reflexivity.
Qed.

Lemma trade_delta_in_long t :
  in_long (TradeBooking.quantity t) -> trade_delta t = long_wrap (signed_quantity t).
Proof.
  intros H. unfold trade_delta, signed_quantity, long_neg.
  destruct (side t); [|reflexivity]. symmetry. by apply long_wrap_in_long.
Qed.

Lemma book_conserved_step svc ts t :
  in_long (TradeBooking.quantity t) ->
  book_conserved svc ts -> book_conserved (AddTrade svc t).1 (ts ++ [t]).
Proof.
  intros Hq Inv pid. rewrite AddTrade_positions.
  specialize (Inv pid).
  destruct (decide (GetProductId (TradeBooking.product t) = pid)) as [E|Hne].
  - rewrite E, lookup_insert_eq.
    intros b. rewrite trades_of_book_snoc.
    destruct (decide (GetProductId (TradeBooking.product t) = pid)); [|done].
    assert (Hold : forall b',
               match bookpositions
                       (default (new_Position (TradeBooking.product t)) (positions svc !! pid))
                     !! b' with
               | Some q => q = long_wrap (Zsum (signed_quantity <$> trades_of_book pid b' ts))
               | None => trades_of_book pid b' ts = []
               end).
    { intros b'. destruct (positions svc !! pid) as [p|]; cbn [from_option id].
      - apply Inv.
      - cbn. rewrite lookup_empty. unfold trades_of_book. by rewrite Inv. }
    set (p0 := default (new_Position (TradeBooking.product t)) (positions svc !! pid)) in *.
    unfold AddPosition.
    destruct (bookpositions p0 !! book t) as [q|] eqn:Eb; cbn [bookpositions].
    + destruct (decide (book t = b)) as [<-|Hb].
      * rewrite lookup_insert_eq. pose proof (Hold (book t)) as H. rewrite Eb in H.
        rewrite fmap_app, Zsum_app. cbn. rewrite Z.add_0_r.
        unfold long_add. rewrite H, long_wrap_add_l. apply wrap_trade_delta.
      * rewrite lookup_insert_ne by done. rewrite app_nil_r. apply Hold.
    + unfold map_insert. rewrite Eb.
      destruct (decide (book t = b)) as [<-|Hb].
      * rewrite lookup_insert_eq. pose proof (Hold (book t)) as H. rewrite Eb in H.
        rewrite H. cbn. rewrite Z.add_0_r. by apply trade_delta_in_long.
      * rewrite lookup_insert_ne by done. rewrite app_nil_r. apply Hold.
  - rewrite lookup_insert_ne by done. rewrite trades_of_snoc.
    destruct (decide (GetProductId (TradeBooking.product t) = pid)); [done|].
    rewrite app_nil_r.
    destruct (positions svc !! pid) as [p|]; [|exact Inv].
    intros b. rewrite trades_of_book_snoc.
    destruct (decide (GetProductId (TradeBooking.product t) = pid)); [done|].
    rewrite app_nil_r. apply Inv.
Qed.

Lemma book_conserved_all ls ts :
  Forall (fun t => in_long (TradeBooking.quantity t)) ts ->
  book_conserved (AddTrade_all (init ls) ts) ts.
Proof.
  induction ts as [|t ts IH] using rev_ind; intros Hq.
  - intros pid. reflexivity.
  - apply list.Forall_app in Hq as [Hts Ht]. rewrite list.Forall_singleton in Ht.
    rewrite AddTrade_all_snoc. apply book_conserved_step; [exact Ht | by apply IH].
Qed.

End BackOffice.

(** X16.  After the position service, started empty, has processed any
    sequence of trades whose quantities are [long] values, the position of a
    product in a book is the sum, in [long] arithmetic, of +quantity for the
    BUY trades and -quantity for the SELL trades booked against that product
    in that book; it is 0 for a product or a book no trade has named. *)
Theorem X16_book_position
    (ls : list ListenerId) (ts : list TradeBooking.Trade) (pid b : string) :
  Forall (fun t => in_long (TradeBooking.quantity t)) ts ->
  (Position.GetPosition
     (Position.GetData (Position.AddTrade_all (Position.init ls) ts) pid).2 b).2
  = long_wrap (Zsum (signed_quantity <$> trades_of_book pid b ts)).
Proof.
  intros Hq. pose proof (book_conserved_all ls ts Hq pid) as Inv.
  unfold Position.GetData, Position.GetPosition.
  destruct (Position.positions (Position.AddTrade_all (Position.init ls) ts) !! pid)
    as [p|]; cbn [snd].
  - specialize (Inv b).
    destruct (Position.bookpositions p !! b) as [q|]; cbn [snd]; [exact Inv|].
    by rewrite Inv.
  - cbn. unfold trades_of_book. by rewrite Inv.
Qed.

Lemma X16_book_position_witness :
  (Position.GetPosition
     (Position.GetData (Position.AddTrade_all (Position.init [0%nat]) two_trades)
        "9128283H1").2 "TRSY1").2
  = long_wrap (Zsum (signed_quantity <$> trades_of_book "9128283H1" "TRSY1" two_trades)).
Proof.
  apply (X16_book_position [0%nat] two_trades "9128283H1" "TRSY1").
  repeat first [apply Forall_nil | apply Forall_cons]; vm_compute; split; discriminate.
Defined.

Section RiskOfPositions.

Import TradeBooking Position.

(** The position [AddTrade] hands to the listeners is the one it has just
    stored. *)
Lemma AddTrade_current svc t :
  AddTrade svc t
  = ((AddTrade svc t).1,
     notify (listeners svc)
       (AddPosition (default (new_Position (TradeBooking.product t))
                             (positions svc !! GetProductId (TradeBooking.product t)))
                    (book t) (trade_delta t))).
Proof.
  unfold AddTrade, GetData, trade_delta. cbn.
  destruct (positions svc !! GetProductId (TradeBooking.product t)) as [p|] eqn:E; cbn.
  - rewrite lookup_insert_eq. done.
  - unfold map_insert. rewrite E, lookup_insert_eq. done.
Qed.

Lemma AddTrade_listeners svc t : listeners (AddTrade svc t).1 = listeners svc.
Proof.
  unfold AddTrade, GetData. cbn.
  destruct (positions svc !! GetProductId (TradeBooking.product t)) as [p|] eqn:E; cbn.
  - rewrite lookup_insert_eq. done.
  - unfold map_insert. rewrite E, lookup_insert_eq. done.
Qed.

Lemma AddPosition_product p b q : product (AddPosition p b q) = product p.
Proof. unfold AddPosition. by destruct (bookpositions p !! b). Qed.

(** A position carries the product of the first trade booked against it,
    and a product without a position has had no trade. *)
Lemma position_product_step svc ts t :
  (forall pid, match positions svc !! pid with
               | Some p => head (TradeBooking.product <$> trades_of pid ts) = Some (product p)
               | None => trades_of pid ts = []
               end) ->
  forall pid, match positions (AddTrade svc t).1 !! pid with
              | Some p => head (TradeBooking.product <$> trades_of pid (ts ++ [t]))
                          = Some (product p)
              | None => trades_of pid (ts ++ [t]) = []
              end.
Proof.
  intros Inv pid. rewrite AddTrade_positions, trades_of_snoc, fmap_app.
  specialize (Inv pid).
  destruct (decide (GetProductId (TradeBooking.product t) = pid)) as [E|Hne].
  - rewrite E, lookup_insert_eq, AddPosition_product.
    destruct (positions svc !! pid) as [p0|] eqn:Ep; cbn [from_option id].
    + destruct (TradeBooking.product <$> trades_of pid ts); [done|]. exact Inv.
    + rewrite Inv. reflexivity.
  - rewrite lookup_insert_ne by done. rewrite app_nil_r.
    destruct (positions svc !! pid); [|by rewrite Inv]. exact Inv.
Qed.

Lemma position_product_all ls ts pid :
  match positions (AddTrade_all (init ls) ts) !! pid with
  | Some p => head (TradeBooking.product <$> trades_of pid ts) = Some (product p)
  | None => trades_of pid ts = []
  end.
Proof.
  revert pid. induction ts as [|t ts IH] using rev_ind.
  - intros pid. reflexivity.
  - rewrite AddTrade_all_snoc. by apply position_product_step.
Qed.

Lemma trades_of_product pid ts t l :
  trades_of pid ts = t :: l -> GetProductId (TradeBooking.product t) = pid.
Proof.
  intros H. assert (Hin : t ∈ trades_of pid ts) by (rewrite H; left).
  unfold trades_of in Hin. by apply list_elem_of_filter in Hin as [? _].
Qed.

Lemma running_totals_snoc l : forall a x,
  Zsum (running_totals a (l ++ [x])) = Zsum (running_totals a l) + (a + Zsum l + x).
Proof.
  unfold Zsum. induction l as [|y l IH]; intros a x; cbn.
  - lia.
  - rewrite IH. lia.
Qed.

(** One position event at the risk service, after the position service has
    processed the trade [t]. *)
Lemma risk_accumulated_step ls rs ts t :
  risk_accumulated rs ts ->
  risk_accumulated
    (Risk.AddPosition rs
       (AddPosition
          (default (new_Position (TradeBooking.product t))
                   (positions (AddTrade_all (init ls) ts) !! GetProductId (TradeBooking.product t)))
          (book t) (trade_delta t))).1
    (ts ++ [t]).
Proof.
  intros Inv pid.
  set (pt := GetProductId (TradeBooking.product t)).
  set (p0 := default (new_Position (TradeBooking.product t))
                     (positions (AddTrade_all (init ls) ts) !! pt)).
  pose proof (position_product_all ls ts pt) as Hprod.
  pose proof (conserved_all ls ts pt) as Hcons.
  assert (Hp0 : head (TradeBooking.product <$> (trades_of pt ts ++ [t])) = Some (product p0)
                /\ long_wrap (stored_total p0)
                   = long_wrap (Zsum (signed_quantity <$> trades_of pt ts))).
  { subst p0. destruct (positions (AddTrade_all (init ls) ts) !! pt) as [p|]; cbn [from_option id].
    - split; [|exact Hcons]. rewrite fmap_app.
      destruct (TradeBooking.product <$> trades_of pt ts); [done|]. exact Hprod.
    - rewrite Hprod. split; reflexivity. }
  destruct Hp0 as [Hhead Hstored].
  assert (Hkey : GetProductId (product p0) = pt).
  { destruct (trades_of pt ts) as [|t0 l] eqn:Et; cbn in Hhead.
    - by injection Hhead as <-.
    - injection Hhead as <-. exact (trades_of_product _ _ _ _ Et). }
  assert (Hagg : GetAggregatePosition (AddPosition p0 (book t) (trade_delta t))
                 = long_wrap (Zsum (signed_quantity <$> trades_of pt ts) + signed_quantity t)).
  { rewrite GetAggregatePosition_stored, AddPosition_stored, wrap_trade_delta.
    rewrite <- long_wrap_add_l, Hstored, long_wrap_add_l. reflexivity. }
  unfold Risk.AddPosition. cbn [fst Risk.pv01s].
  rewrite AddPosition_product, Hkey, Hagg.
  rewrite trades_of_snoc. fold pt.
  destruct (decide (pt = pid)) as [<-|Hne].
  - pose proof (Inv pt) as Hr.
    destruct (trades_of pt ts) as [|t0 l] eqn:Et.
    + rewrite Hr. unfold map_insert. rewrite Hr, lookup_insert_eq. cbn.
      cbn in Hhead. injection Hhead as <-. do 3 f_equal. lia.
    + rewrite Hr, lookup_insert_eq. cbn [app]. f_equal.
      unfold Risk.AddQuantity. cbn [Risk.product Risk.pv01 Risk.quantity]. f_equal.
      change (t0 :: l ++ [t]) with ((t0 :: l) ++ [t]).
      rewrite fmap_app. change (signed_quantity <$> [t]) with [signed_quantity t].
      rewrite running_totals_snoc.
      unfold long_add. rewrite long_wrap_add_l, long_wrap_add_r. f_equal.
  - rewrite app_nil_r.
    destruct (Risk.pv01s rs !! pt) as [r|] eqn:Er.
    + rewrite lookup_insert_ne by done. apply Inv.
    + unfold map_insert. rewrite Er, lookup_insert_ne by done. apply Inv.
Qed.

(** One trade through the linked services. *)
Lemma on_trade_linked bo t :
  TradeBooking.listeners (Main.booking bo) = [Main.position_listener] ->
  listeners (Main.position bo) = [Main.risk_listener; Main.hist_position_listener] ->
  Main.on_trade bo t
  = Main.mkBackOffice (Main.booking_listener bo)
      (TradeBooking.OnMessage (Main.booking bo) t).1
      (AddTrade (Main.position bo) t).1
      (Risk.AddPosition (Main.risk bo)
         (AddPosition
            (default (new_Position (TradeBooking.product t))
                     (positions (Main.position bo) !! GetProductId (TradeBooking.product t)))
            (book t) (trade_delta t))).1.
Proof.
  intros Hl Hpl. unfold Main.on_trade, TradeBooking.OnMessage, Main.to_position.
  rewrite Hl. unfold notify at 1. cbn [map foldl target payload fst snd].
  change (Main.position_listener =? Main.position_listener)%nat with true. cbn iota.
  rewrite AddTrade_current, Hpl. unfold Main.to_risk, notify.
  cbn [map foldl target payload fst snd].
  change (Main.risk_listener =? Main.risk_listener)%nat with true.
  change (Main.hist_position_listener =? Main.risk_listener)%nat with false.
  cbn iota. reflexivity.
Qed.

Lemma AddTrade_all_listeners ls ts : listeners (AddTrade_all (init ls) ts) = ls.
Proof.
  induction ts as [|t ts IH] using rev_ind; [reflexivity|].
  by rewrite AddTrade_all_snoc, AddTrade_listeners.
Qed.

(** The back office after a sequence of trades, service by service. *)
Lemma on_trades_spec ts :
  TradeBooking.listeners (Main.booking (Main.on_trades Main.start ts)) = [Main.position_listener]
  /\ Main.position (Main.on_trades Main.start ts)
     = AddTrade_all (init [Main.risk_listener; Main.hist_position_listener]) ts
  /\ risk_accumulated (Main.risk (Main.on_trades Main.start ts)) ts.
Proof.
  induction ts as [|t ts IH] using rev_ind.
  - repeat split.
  - destruct IH as (Hl & Hp & Hr).
    unfold Main.on_trades in *. rewrite foldl_app. cbn [foldl].
    set (bo := foldl Main.on_trade Main.start ts) in *.
    rewrite on_trade_linked; [|exact Hl|by rewrite Hp, AddTrade_all_listeners].
    cbn [Main.booking Main.position Main.risk].
    split; [exact Hl|]. rewrite Hp. split; [by rewrite AddTrade_all_snoc|].
    by apply risk_accumulated_step.
Qed.

End RiskOfPositions.

(** X17.  With the listeners linked as in main.cpp, after the trade-booking
    service has received any sequence of trades, the risk service holds a
    record for exactly the products that were traded; the record carries the
    product of the first such trade and [getPV01] of its id, and its quantity
    is the sum, in [long] arithmetic, of the aggregate positions the position
    service published after each of the product's trades, that is of the
    running totals of the signed quantities, not the position itself. *)
Theorem X17_risk_quantity_sums_running_positions
    (ts : list TradeBooking.Trade) (pid : string) :
  Risk.pv01s (Main.risk (Main.on_trades Main.start ts)) !! pid
  = match trades_of pid ts with
    | [] => None
    | t :: _ =>
        Some (Risk.mkPV01 (TradeBooking.product t) (getPV01 pid)
                (long_wrap (Zsum (running_totals 0 (signed_quantity <$> trades_of pid ts)))))
    end.
Proof. destruct (on_trades_spec ts) as (_ & _ & H). apply H. Qed.

Section ExecutionsToPositions.

Import TradeBooking Position.

Lemma on_trade_position bo t :
  TradeBooking.listeners (Main.booking bo) = [Main.position_listener] ->
  Main.on_trade bo t
  = Main.mkBackOffice (Main.booking_listener bo)
      (TradeBooking.OnMessage (Main.booking bo) t).1
      (AddTrade (Main.position bo) t).1
      (Main.to_risk (Main.risk bo) (AddTrade (Main.position bo) t).2).
Proof.
  intros Hl. unfold Main.on_trade, TradeBooking.OnMessage, Main.to_position.
  rewrite Hl. unfold notify. cbn [map foldl target payload fst snd].
  change (Main.position_listener =? Main.position_listener)%nat with true. cbn iota.
  by destruct (AddTrade (Main.position bo) t) as [ps pcalls].
Qed.

Lemma OnMessage_stored svc t : trades (TradeBooking.OnMessage svc t).1 !! tradeId t = Some t.
Proof.
  unfold TradeBooking.OnMessage, map_insert. cbn [fst trades].
  destruct (trades svc !! tradeId t) eqn:E; apply lookup_insert_eq.
Qed.

Lemma GetData_aggregate svc pid :
  GetAggregatePosition (GetData svc pid).2
  = long_wrap (stored_total (default (new_Position MarketData.default_Bond)
                                     (positions svc !! pid))).
Proof.
  rewrite GetAggregatePosition_stored. unfold GetData.
  by destruct (positions svc !! pid).
Qed.

Lemma wrap_neg_r (a b : Z) : long_wrap (a + - long_wrap b) = long_wrap (a + - b).
Proof.
  unfold long_wrap. f_equal.
  replace (a + - ((b + 2 ^ 63) mod 2 ^ 64 - 2 ^ 63) + 2 ^ 63)
    with (a + 2 ^ 64 - (b + 2 ^ 63) mod 2 ^ 64) by lia.
  rewrite Zminus_mod_idemp_r. f_equal. lia.
Qed.

End ExecutionsToPositions.

(** X15.  With the position listener linked to the trade-booking service as
    in main.cpp, an execution order that reaches the trade-booking listener
    is booked as a trade under the order id, and moves the aggregate position
    of its product by the sum of its visible and hidden quantities, up for a
    BID and down for an OFFER, in [long] arithmetic; the positions of the
    other products stay as they are. *)
Theorem X15_execution_moves_position
    (bo : Main.BackOffice) (e : AlgoExecution.ExecutionOrder) :
  TradeBooking.listeners (Main.booking bo) = [Main.position_listener] ->
  (exists t,
     TradeBooking.trades (Main.booking (Main.on_execution bo e)) !! AlgoExecution.orderId e
     = Some t
     /\ TradeBooking.product t = AlgoExecution.eo_product e
     /\ TradeBooking.price t = AlgoExecution.eo_price e
     /\ TradeBooking.side t
        = match AlgoExecution.eo_side e with
          | MarketData.BID => TradeBooking.BUY
          | MarketData.OFFER => TradeBooking.SELL
          end)
  /\ Position.GetAggregatePosition
       (Position.GetData (Main.position (Main.on_execution bo e))
          (GetProductId (AlgoExecution.eo_product e))).2
     = long_wrap
         (Position.GetAggregatePosition
            (Position.GetData (Main.position bo) (GetProductId (AlgoExecution.eo_product e))).2
          + match AlgoExecution.eo_side e with
            | MarketData.BID =>
                AlgoExecution.visibleQuantity e + AlgoExecution.hiddenQuantity e
            | MarketData.OFFER =>
                - (AlgoExecution.visibleQuantity e + AlgoExecution.hiddenQuantity e)
            end)
  /\ forall pid,
       pid <> GetProductId (AlgoExecution.eo_product e) ->
       Position.positions (Main.position (Main.on_execution bo e)) !! pid
       = Position.positions (Main.position bo) !! pid.
Proof.
  intros Hl. unfold Main.on_execution.
  destruct (TradeBooking.make_trade (Main.booking_listener bo) e) as [l t] eqn:Et.
  assert (Ht : TradeBooking.product t = AlgoExecution.eo_product e
               /\ TradeBooking.tradeId t = AlgoExecution.orderId e
               /\ TradeBooking.price t = AlgoExecution.eo_price e
               /\ TradeBooking.quantity t
                  = long_add (AlgoExecution.visibleQuantity e) (AlgoExecution.hiddenQuantity e)
               /\ TradeBooking.side t
                  = match AlgoExecution.eo_side e with
                    | MarketData.BID => TradeBooking.BUY
                    | MarketData.OFFER => TradeBooking.SELL
                    end).
  { unfold TradeBooking.make_trade in Et. by injection Et as _ <-. }
  destruct Ht as (Hprod & Hid & Hprice & Hq & Hside).
  set (bo' := Main.mkBackOffice l (Main.booking bo) (Main.position bo) (Main.risk bo)).
  rewrite (on_trade_position bo' t Hl). cbn [Main.booking Main.position bo'].
  split; [|split].
  - exists t. rewrite <- Hid. split; [apply OnMessage_stored | done].
  - rewrite !GetData_aggregate, AddTrade_positions, Hprod.
    rewrite lookup_insert_eq. cbn [from_option id].
    rewrite AddPosition_stored, wrap_trade_delta, long_wrap_add_l.
    assert (Hs : stored_total
                   (default (Position.new_Position (AlgoExecution.eo_product e))
                      (Position.positions (Main.position bo)
                       !! GetProductId (AlgoExecution.eo_product e)))
                 = stored_total
                     (default (Position.new_Position MarketData.default_Bond)
                        (Position.positions (Main.position bo)
                         !! GetProductId (AlgoExecution.eo_product e)))).
    { by destruct (Position.positions (Main.position bo) !! _). }
    rewrite Hs. unfold signed_quantity. rewrite Hside, Hq.
    set (base := stored_total _). set (size := AlgoExecution.visibleQuantity e + _).
    unfold long_add. fold size.
    destruct (AlgoExecution.eo_side e).
    + apply long_wrap_add_r.
    + apply wrap_neg_r.
  - intros pid Hne.
    rewrite AddTrade_positions, lookup_insert_ne; [done|]. by rewrite Hprod.
Qed.

Lemma X15_execution_moves_position_witness :
  Position.GetAggregatePosition
    (Position.GetData (Main.position (Main.on_execution Main.start (sample_order "A1")))
       "9128283H1").2
  = 1000000.
Proof.
  destruct (X15_execution_moves_position Main.start (sample_order "A1") eq_refl)
    as (_ & H & _).
  exact H.
Defined.

(** ** Inquiries: what the store holds and what the listeners see *)

Section InquiryStore.

Import Inquiry.

Lemma SetState_same data : SetState data (state data) = data.
Proof. by destruct data. Qed.

(** [OnMessage] state by state: a RECEIVED, QUOTED or DONE inquiry leaves in
    state DONE and without an entry; another one is stored as it is. *)
Lemma OnMessage_cases fuel svc data :
  OnMessage (S (S fuel)) svc data
  = match state data with
    | REJECTED | CUSTOMER_REJECTED =>
        Some (mkService (<[inquiryId data := data]> (inquirys svc)) (listeners svc),
              data, notify (listeners svc) data)
    | RECEIVED =>
        Some (mkService (delete (inquiryId data) (inquirys svc)) (listeners svc),
              SetState data DONE,
              (notify (listeners svc) (SetState data DONE)
               ++ notify (listeners svc) (SetState data DONE))
              ++ notify (listeners svc) (SetState data DONE))
    | QUOTED | DONE =>
        Some (mkService (delete (inquiryId data) (inquirys svc)) (listeners svc),
              SetState data DONE, notify (listeners svc) (SetState data DONE))
    end.
Proof.
  destruct (state data) eqn:E.
  - rewrite (OnMessage_received fuel svc data E). do 3 f_equal.
    rewrite !delete_delete_eq. unfold map_insert.
    destruct (inquirys svc !! inquiryId data) eqn:Ei.
    + rewrite lookup_delete_eq, delete_insert_eq, delete_delete_eq. reflexivity.
    + rewrite Ei, delete_insert_eq. reflexivity.
  - cbn [OnMessage]. rewrite E. cbn. do 3 f_equal.
    unfold map_insert.
    destruct (inquirys svc !! inquiryId data) eqn:Ei.
    + rewrite lookup_delete_eq, delete_insert_eq, delete_delete_eq. reflexivity.
    + rewrite Ei, delete_insert_eq. reflexivity.
  - cbn [OnMessage]. rewrite E. cbn. rewrite E. rewrite decide_True by done.
    replace (SetState data DONE) with data by (by rewrite <- E, SetState_same).
    reflexivity.
  - cbn [OnMessage]. rewrite E. cbn. rewrite E. by rewrite decide_False.
  - cbn [OnMessage]. rewrite E. cbn. rewrite E. by rewrite decide_False.
Qed.

(** What a call of [OnMessage] keeps: the store holds only inquiries that
    are REJECTED or CUSTOMER_REJECTED, each under its own id, and no callback
    carries a RECEIVED or a QUOTED inquiry. *)
Lemma OnMessage_keeps fuel svc inq :
  (forall k i, inquirys svc !! k = Some i ->
               inquiryId i = k /\ (state i = REJECTED \/ state i = CUSTOMER_REJECTED)) ->
  exists svc1 data1 calls1,
    OnMessage (S (S fuel)) svc inq = Some (svc1, data1, calls1)
    /\ listeners svc1 = listeners svc
    /\ (forall k i, inquirys svc1 !! k = Some i ->
          inquiryId i = k /\ (state i = REJECTED \/ state i = CUSTOMER_REJECTED))
    /\ (forall c, c ∈ calls1 ->
          state (payload c) <> RECEIVED /\ state (payload c) <> QUOTED).
Proof.
  intros Inv. rewrite OnMessage_cases.
  assert (Hdel : forall k i,
             delete (inquiryId inq) (inquirys svc) !! k = Some i ->
             inquiryId i = k /\ (state i = REJECTED \/ state i = CUSTOMER_REJECTED)).
  { intros k i Hk. apply lookup_delete_Some in Hk as [_ Hk]. by apply Inv. }
  assert (Hins : state inq = REJECTED \/ state inq = CUSTOMER_REJECTED ->
             forall k i,
             <[inquiryId inq := inq]> (inquirys svc) !! k = Some i ->
             inquiryId i = k /\ (state i = REJECTED \/ state i = CUSTOMER_REJECTED)).
  { intros Hs k i Hk. apply lookup_insert_Some in Hk as [[<- <-]|[_ Hk]]; [done|].
    by apply Inv. }
  assert (Hcalls : forall (d : Inquiry) c,
             state d <> RECEIVED -> state d <> QUOTED ->
             c ∈ notify (listeners svc) d ->
             state (payload c) <> RECEIVED /\ state (payload c) <> QUOTED).
  { intros d c H1 H2 Hc. unfold notify in Hc.
    apply list_elem_of_fmap in Hc as (l & -> & _). done. }
  destruct (state inq) eqn:Es; eexists _, _, _; (split; [reflexivity|]);
    (split; [reflexivity|]); cbn [inquirys]; split; auto.
  - intros c Hc. rewrite !elem_of_app in Hc.
    destruct Hc as [[Hc|Hc]|Hc]; by apply (Hcalls (SetState inq DONE)).
  - intros c Hc. by apply (Hcalls (SetState inq DONE)).
  - intros c Hc. by apply (Hcalls (SetState inq DONE)).
  - intros c Hc. apply (Hcalls inq); [by rewrite Es..|done].
  - intros c Hc. apply (Hcalls inq); [by rewrite Es..|done].
Qed.

(** The same for a run of the connector over a file. *)
Lemma Subscribe_keeps fuel (lines : list string) : forall svc,
  Forall (fun line => is_Some (decode_line line)) lines ->
  (forall k i, inquirys svc !! k = Some i ->
               inquiryId i = k /\ (state i = REJECTED \/ state i = CUSTOMER_REJECTED)) ->
  exists svc' calls,
    Subscribe (S (S fuel)) svc lines = Some (svc', calls)
    /\ listeners svc' = listeners svc
    /\ (forall k i, inquirys svc' !! k = Some i ->
                    inquiryId i = k /\ (state i = REJECTED \/ state i = CUSTOMER_REJECTED))
    /\ (forall c, c ∈ calls -> state (payload c) <> RECEIVED /\ state (payload c) <> QUOTED).
Proof.
  induction lines as [|line rest IH]; intros svc Hd Inv.
  - exists svc, []. split; [reflexivity|]. split; [reflexivity|]. split; [exact Inv|].
    intros c Hc. by apply elem_of_nil in Hc.
  - apply list.Forall_cons in Hd as [[inq Hinq] Hrest].
    cbn [Subscribe]. rewrite Hinq. cbn [mbind option_bind].
    destruct (OnMessage_keeps fuel svc inq Inv) as (svc1 & data1 & calls1 & -> & Hl1 & Inv1 & Hc1).
    cbn [mbind option_bind].
    destruct (IH svc1 Hrest Inv1) as (svc' & calls' & -> & Hl' & Inv' & Hc').
    cbn [mbind option_bind].
    exists svc', (calls1 ++ calls'). split; [reflexivity|].
    split; [by rewrite Hl'|]. split; [exact Inv'|].
    intros c Hc. apply elem_of_app in Hc as [Hc|Hc]; auto.
Qed.

(** A line that is not decoded ends the run. *)
Lemma Subscribe_bad_line fuel svc (lines : list string) :
  Subscribe fuel svc lines <> None ->
  Forall (fun line => is_Some (decode_line line)) lines.
Proof.
  revert svc. induction lines as [|line rest IH]; intros svc H; [constructor|].
  cbn [Subscribe] in H.
  destruct (decode_line line) as [inq|] eqn:E; [|done]. cbn [mbind option_bind] in H.
  destruct (OnMessage fuel svc inq) as [[[svc1 d1] c1]|]; [|done].
  cbn [mbind option_bind] in H.
  constructor; [eauto|]. apply (IH svc1).
  by destruct (Subscribe fuel svc1 rest).
Qed.

End InquiryStore.

(** X18.  When the inquiry connector reads, into a service that starts
    empty, a file every line of which is decoded, the run completes (two
    nested calls are enough); afterwards the store holds only inquiries in
    state REJECTED or CUSTOMER_REJECTED, each under its own id, and no
    callback any listener got carries an inquiry in state RECEIVED or
    QUOTED. *)
Theorem X18_inquiry_file_outcome (fuel : nat) (ls : list ListenerId) (lines : list string) :
  Forall (fun line => is_Some (Inquiry.decode_line line)) lines ->
  exists svc' calls,
    Inquiry.Subscribe (S (S fuel)) (Inquiry.init ls) lines = Some (svc', calls)
    /\ Inquiry.listeners svc' = ls
    /\ (forall k i, Inquiry.inquirys svc' !! k = Some i ->
          Inquiry.inquiryId i = k
          /\ (Inquiry.state i = Inquiry.REJECTED
              \/ Inquiry.state i = Inquiry.CUSTOMER_REJECTED))
    /\ (forall c, c ∈ calls ->
          Inquiry.state (payload c) <> Inquiry.RECEIVED
          /\ Inquiry.state (payload c) <> Inquiry.QUOTED).
Proof.
  intros Hd. apply Subscribe_keeps; [exact Hd|].
  intros k i Hk. cbn in Hk. by rewrite lookup_empty in Hk.
Qed.

Lemma X18_inquiry_file_outcome_witness :
  exists svc' calls,
    Inquiry.Subscribe 2 (Inquiry.init [0%nat]) sample_inquiry_lines = Some (svc', calls)
    /\ Inquiry.listeners svc' = [0%nat]
    /\ (forall k i, Inquiry.inquirys svc' !! k = Some i ->
          Inquiry.inquiryId i = k
          /\ (Inquiry.state i = Inquiry.REJECTED
              \/ Inquiry.state i = Inquiry.CUSTOMER_REJECTED))
    /\ (forall c, c ∈ calls ->
          Inquiry.state (payload c) <> Inquiry.RECEIVED
          /\ Inquiry.state (payload c) <> Inquiry.QUOTED).
Proof.
  apply (X18_inquiry_file_outcome 0 [0%nat] sample_inquiry_lines).
  repeat first [apply Forall_nil | apply Forall_cons];
    (match goal with
     | |- is_Some ?x => destruct x eqn:E; [eauto | exfalso; vm_compute in E; discriminate E]
     end).
Defined.

(** X19.  After the inquiry connector has read a file, [SendQuote] quotes
    none of the inquiries the file brought: on the id of a stored inquiry it
    changes nothing and calls no listener; on any other id it stores, and
    hands to every listener, a blank inquiry (empty id, no product, quantity
    0, state RECEIVED) carrying the price. *)
Theorem X19_send_quote_after_file
    (fuel : nat) (ls : list ListenerId) (lines : list string)
    (svc' : Inquiry.InquiryService) (calls : list (Callback Inquiry.Inquiry))
    (inquiryId : string) (price : double) :
  Inquiry.Subscribe (S (S fuel)) (Inquiry.init ls) lines = Some (svc', calls) ->
  Inquiry.SendQuote svc' inquiryId price
  = match Inquiry.inquirys svc' !! inquiryId with
    | Some _ => (svc', [])
    | None =>
        (Inquiry.mkService
           (<[inquiryId := Inquiry.mkInquiry "" MarketData.default_Bond TradeBooking.BUY 0 price
                             Inquiry.RECEIVED]> (Inquiry.inquirys svc'))
           ls,
         notify ls (Inquiry.mkInquiry "" MarketData.default_Bond TradeBooking.BUY 0 price
                      Inquiry.RECEIVED))
    end.
Proof.
  intros Hrun.
  assert (Hd : Forall (fun line => is_Some (Inquiry.decode_line line)) lines).
  { apply (Subscribe_bad_line (S (S fuel)) (Inquiry.init ls)). by rewrite Hrun. }
  destruct (Subscribe_keeps fuel lines (Inquiry.init ls) Hd) as (s & c & Hs & Hl & Inv & _).
  { intros k i Hk. cbn in Hk. by rewrite lookup_empty in Hk. }
  rewrite Hrun in Hs. injection Hs as <- <-.
  unfold Inquiry.SendQuote, Inquiry.GetData.
  destruct (Inquiry.inquirys svc' !! inquiryId) as [i|] eqn:Ei.
  - destruct (Inv _ _ Ei) as [_ [Hst|Hst]]; by rewrite Hst.
  - cbn. rewrite insert_insert_eq. cbn in Hl. rewrite Hl. reflexivity.
Qed.

Lemma X19_send_quote_after_file_witness :
  exists svc' calls,
    Inquiry.Subscribe 2 (Inquiry.init [0%nat]) sample_inquiry_lines = Some (svc', calls)
    /\ Inquiry.SendQuote svc' "I1" price_99_160 = (svc', [])
    /\ (Inquiry.SendQuote svc' "I2" price_99_160).2
       = notify [0%nat]
           (Inquiry.mkInquiry "" MarketData.default_Bond TradeBooking.BUY 0 price_99_160
              Inquiry.RECEIVED).
Proof.
  destruct (Inquiry.Subscribe 2 (Inquiry.init [0%nat]) sample_inquiry_lines)
    as [[svc' calls]|] eqn:E; [|exfalso; vm_compute in E; discriminate E].
  exists svc', calls. split; [reflexivity|].
  rewrite !(X19_send_quote_after_file 0 [0%nat] sample_inquiry_lines svc' calls _ _ E).
  vm_compute in E. injection E as <- _. split; reflexivity.
Defined.


(** ** Trade booking: the trade file *)

Section TradeFile.

Import TradeBooking.

Lemma Subscribe_decoded (lines : list string) : forall svc ts,
  mapM decode_line lines = Some ts ->
  Subscribe svc lines
  = Some (mkService (foldl (fun m t => <[tradeId t := t]> m) (trades svc) ts) (listeners svc),
          flat_map (notify (listeners svc)) ts).
Proof.
  induction lines as [|line rest IH]; intros svc ts H.
  - cbn in H. injection H as <-. by destruct svc.
  - cbn [mapM] in H. cbn [Subscribe].
    destruct (decode_line line) as [t|]; [|done]. cbn [mbind option_bind] in *.
    destruct (mapM decode_line rest) as [ts'|]; [|done]. cbn in H. injection H as <-.
    rewrite OnMessage_insert, (IH _ ts' eq_refl). reflexivity.
Qed.

End TradeFile.

(** X20.  When every line of the trade file is decoded, the trade-booking
    connector hands the trades to every listener in the order of the file,
    and the service then holds, under each trade id, the trade of the last
    line that carries this id (an entry it held before under an id the file
    does not name is kept). *)
Theorem X20_trade_file_last_line_wins
    (svc : TradeBooking.TradeBookingService) (lines : list string)
    (ts : list TradeBooking.Trade) :
  mapM TradeBooking.decode_line lines = Some ts ->
  exists svc',
    TradeBooking.Subscribe svc lines
    = Some (svc', flat_map (notify (TradeBooking.listeners svc)) ts)
    /\ TradeBooking.listeners svc' = TradeBooking.listeners svc
    /\ forall k,
         TradeBooking.trades svc' !! k
         = match list.last (filter (fun t => TradeBooking.tradeId t = k) ts) with
           | Some t => Some t
           | None => TradeBooking.trades svc !! k
           end.
Proof.
  intros H. rewrite (Subscribe_decoded lines svc ts H).
  eexists. split; [reflexivity|]. split; [reflexivity|].
  intros k. apply foldl_insert_lookup.
Qed.

Lemma X20_trade_file_last_line_wins_witness :
  exists svc' ts,
    TradeBooking.Subscribe (TradeBooking.mkService ∅ [0%nat]) sample_trade_lines
    = Some (svc', flat_map (notify [0%nat]) ts)
    /\ length ts = 3%nat
    /\ TradeBooking.quantity <$> TradeBooking.trades svc' !! "T1"%string = Some 3000000
    /\ TradeBooking.side <$> TradeBooking.trades svc' !! "T2"%string = Some TradeBooking.SELL.
Proof.
  destruct (mapM TradeBooking.decode_line sample_trade_lines) as [ts|] eqn:E;
    [|exfalso; vm_compute in E; discriminate E].
  destruct (X20_trade_file_last_line_wins (TradeBooking.mkService ∅ [0%nat])
              sample_trade_lines ts E) as (svc' & Hs & _ & Hk).
  exists svc', ts. split; [exact Hs|].
  rewrite !Hk. vm_compute in E. injection E as <-. repeat split.
Defined.

(** ** GUI: where the throttle draws the line *)

Section Throttle.

Import GUI.

Lemma milliseconds_above (th d : Z) :
  0 <= th -> (th < milliseconds d <-> (th + 1) * ticks_per_ms <= d).
Proof.
  intros Hth. unfold milliseconds, ticks_per_ms.
  destruct (Z.le_gt_cases 0 d) as [Hd|Hd].
  - rewrite Z.quot_div_nonneg by lia. split; intros H.
    + pose proof (Z.mul_div_le d 1000000 ltac:(lia)). nia.
    + assert (th + 1 <= d `div` 1000000) by (apply Z.div_le_lower_bound; lia). lia.
  - split; intros H; [|lia].
    pose proof (Z.quot_opp_l d 1000000 ltac:(lia)) as Ho.
    assert (0 <= (- d) ÷ 1000000) by (apply Z.quot_pos; lia). lia.
Qed.

Lemma PublishThrottledPrice_all_sublist events : forall svc,
  (PublishThrottledPrice_all svc events).2 `sublist_of` events.
Proof.
  induction events as [|[t p] rest IH]; intros svc; [done|].
  cbn [PublishThrottledPrice_all]. unfold PublishThrottledPrice.
  destruct (throttle svc <? milliseconds (t - cur_time svc)).
  - specialize (IH (mkService (guis svc) (listeners svc) (throttle svc) t)).
    destruct (PublishThrottledPrice_all _ rest) as [svc' out']. cbn in *.
    by apply sublist_skip.
  - specialize (IH svc).
    destruct (PublishThrottledPrice_all _ rest) as [svc' out']. cbn in *.
    by apply sublist_cons.
Qed.

End Throttle.

(** X21.  [PublishThrottledPrice], with a throttle that is not negative (the
    constructor sets 300), writes a price exactly when the clock has advanced
    by at least throttle + 1 whole milliseconds since the last line written
    (since construction for the first): the difference is truncated to
    milliseconds before the strict comparison, so a price 300.999 ms after
    the last line is dropped, as is one that comes when the clock has gone
    backwards.  Over any sequence of prices the lines written are a
    subsequence of the prices, each more than the throttle after the one
    before. *)
Theorem X21_throttle_boundary (svc : GUI.GUIService) :
  0 <= GUI.throttle svc ->
  (forall now p,
     GUI.PublishThrottledPrice now svc p
     = if (GUI.throttle svc + 1) * GUI.ticks_per_ms <=? now - GUI.cur_time svc
       then (GUI.mkService (GUI.guis svc) (GUI.listeners svc) (GUI.throttle svc) now,
             [(now, p)])
       else (svc, []))
  /\ forall events,
       (GUI.PublishThrottledPrice_all svc events).2 `sublist_of` events
       /\ spaced (GUI.throttle svc) (GUI.cur_time svc)
            (GUI.PublishThrottledPrice_all svc events).2.
Proof.
  intros Hth. split.
  - intros now p. unfold GUI.PublishThrottledPrice.
    pose proof (milliseconds_above (GUI.throttle svc) (now - GUI.cur_time svc) Hth) as H.
    destruct (Z.ltb_spec (GUI.throttle svc) (GUI.milliseconds (now - GUI.cur_time svc)));
      destruct (Z.leb_spec ((GUI.throttle svc + 1) * GUI.ticks_per_ms)
                  (now - GUI.cur_time svc)); try reflexivity; lia.
  - intros events. split.
    + apply PublishThrottledPrice_all_sublist.
    + apply PublishThrottledPrice_all_spaced.
Qed.

Lemma X21_throttle_boundary_witness :
  GUI.PublishThrottledPrice 300999999 (GUI.init 0) sample_price = (GUI.init 0, [])
  /\ (GUI.PublishThrottledPrice 301000000 (GUI.init 0) sample_price).2
     = [(301000000, sample_price)].
Proof.
  destruct (X21_throttle_boundary (GUI.init 0)) as [H _]; [cbn; lia|].
  rewrite !H. split; reflexivity.
Defined.

(** ** Historical data: one entry for each product *)

Section Persisted.

Import HistoricalData.

Lemma PersistData_insert {T} (svc : HistoricalDataService T) k (data : T) :
  PersistData svc k data
  = (mkService (<[k := data]> (histdatas svc)) (type svc), [(fileNames (type svc), data)]).
Proof.
  unfold PersistData, map_insert. by destruct (histdatas svc !! k) eqn:E.
Qed.

Lemma ProcessAdd_Inquiry_all_spec (l : list Inquiry.Inquiry) : forall svc,
  ProcessAdd_Inquiry_all svc l
  = (mkService
       (foldl (fun m d => <[GetProductId (Inquiry.product d) := d]> m) (histdatas svc) l)
       (type svc),
     (fun d => (fileNames (type svc), d)) <$> l).
Proof.
  induction l as [|d l IH]; intros svc; [by destruct svc|].
  cbn [ProcessAdd_Inquiry_all]. unfold ProcessAdd_Inquiry.
  rewrite PersistData_insert, IH. reflexivity.
Qed.

Lemma foldl_insert_product_lookup (l : list Inquiry.Inquiry) :
  forall (m : gmap string Inquiry.Inquiry) k,
  foldl (fun m d => <[GetProductId (Inquiry.product d) := d]> m) m l !! k
  = match list.last (filter (fun d => GetProductId (Inquiry.product d) = k) l) with
    | Some d => Some d
    | None => m !! k
    end.
Proof.
  induction l as [|d l IH] using rev_ind; intros m k; [reflexivity|].
  rewrite foldl_app, list.filter_app. cbn [foldl]. rewrite list.filter_cons, filter_nil.
  destruct (decide (GetProductId (Inquiry.product d) = k)) as [<-|Hne].
  - rewrite lookup_insert_eq, list.last_snoc. reflexivity.
  - rewrite lookup_insert_ne by done. rewrite app_nil_r. apply IH.
Qed.

End Persisted.

(** X22.  The historical-data listener files an inquiry under the id of its
    product, not under its own id: after any sequence of inquiries the store
    of the service has, for each product, only the last inquiry on that
    product, whatever the inquiry ids, while the file of the service has got
    one record for every inquiry, in order. *)
Theorem X22_history_keeps_last_inquiry_of_product
    (l : list Inquiry.Inquiry) (pid : string) :
  HistoricalData.histdatas
    (HistoricalData.ProcessAdd_Inquiry_all (HistoricalData.init HistoricalData.INQUIRY) l).1
  !! pid
  = list.last (filter (fun d => GetProductId (Inquiry.product d) = pid) l)
  /\ (HistoricalData.ProcessAdd_Inquiry_all (HistoricalData.init HistoricalData.INQUIRY) l).2
     = (fun d => ("../data/aggregatedinquiries.txt"%string, d)) <$> l.
Proof.
  rewrite ProcessAdd_Inquiry_all_spec. cbn [fst snd HistoricalData.histdatas].
  split; [|reflexivity].
  rewrite foldl_insert_product_lookup. cbn. rewrite lookup_empty.
  by destruct (list.last _).
Qed.

(** ** Market data: the best bid and offer as lines come *)

Section StaleLevels.

Import MarketData.

(** The book a line leaves in the store and hands to the listeners. *)
Lemma Subscribe_line_book tb to svc svc0 svc' line pid old calls :
  getline_fields line "" !! 1%nat = Some pid ->
  GetData svc pid = Some (svc0, old) ->
  GetProductId (product old) = pid ->
  Subscribe_line tb to svc line = Some (svc', calls) ->
  exists nbs nos,
    calls = notify (listeners svc)
              (mkOrderBook (product old)
                 (aggregated tb BID (aggMap (bidStack old ++ nbs)))
                 (aggregated to OFFER (aggMap (offerStack old ++ nos))))
    /\ orderBooks svc' !! pid
       = Some (mkOrderBook (product old)
                 (aggregated tb BID (aggMap (bidStack old ++ nbs)))
                 (aggregated to OFFER (aggMap (offerStack old ++ nos)))).
Proof.
  intros Hpid Hget Hid Hrun.
  unfold Subscribe_line in Hrun.
  destruct (getline_fields line "" !! 0%nat) as [ts|]; [|done].
  cbn [mbind option_bind] in Hrun. rewrite Hpid in Hrun.
  cbn [mbind option_bind] in Hrun. rewrite Hget in Hrun.
  cbn [mbind option_bind] in Hrun.
  destruct (GetData_spec _ _ _ _ Hget) as (Hold & Hls & Hdepth).
  destruct (push_levels _ old 0 _) as [pushed|] eqn:Ep; [|done].
  cbn [mbind option_bind] in Hrun.
  destruct (push_levels_spec _ _ _ _ _ Ep) as (nbs & nos & Hlb & Hlo & Hbs & Hos & Hps).
  unfold AggregateDepth in Hrun.
  cbn [orderBooks listeners bookDepth] in Hrun.
  rewrite lookup_insert_eq in Hrun.
  cbn [default from_option id] in Hrun.
  unfold OnMessage in Hrun.
  cbn [orderBooks listeners bookDepth product] in Hrun.
  rewrite Hps, Hid, lookup_insert_eq, Hbs, Hos in Hrun.
  injection Hrun as <- <-.
  exists nbs, nos. split; [by rewrite Hls|].
  cbn. unfold map_insert. rewrite lookup_delete_eq. apply lookup_insert_eq.
Qed.

Lemma max_element_above (l : list Order) (o : Order) :
  o ∈ l -> exists b, max_element l = Some b /\ (price o <= price b)%Qc.
Proof.
  intros Hin. destruct (max_element l) as [b|] eqn:E.
  - exists b. split; [done|].
    destruct (max_element_spec _ _ E) as (l1 & l2 & -> & H1 & H2).
    apply elem_of_app in Hin as [Hin|Hin]; [by apply Qclt_le_weak, H1|].
    apply elem_of_cons in Hin as [->|Hin]; [apply Qcle_refl | by apply H2].
  - destruct l; [by apply elem_of_nil in Hin | done].
Qed.

Lemma min_element_below (l : list Order) (o : Order) :
  o ∈ l -> exists b, min_element l = Some b /\ (price b <= price o)%Qc.
Proof.
  intros Hin. destruct (min_element l) as [b|] eqn:E.
  - exists b. split; [done|].
    destruct (min_element_spec _ _ E) as (l1 & l2 & -> & H1 & H2).
    apply elem_of_app in Hin as [Hin|Hin]; [by apply Qclt_le_weak, H1|].
    apply elem_of_cons in Hin as [->|Hin]; [apply Qcle_refl | by apply H2].
  - destruct l; [by apply elem_of_nil in Hin | done].
Qed.

Lemma max_element_In (l : list Order) (o : Order) : max_element l = Some o -> o ∈ l.
Proof.
  intros E. destruct (max_element_spec _ _ E) as (l1 & l2 & -> & _).
  apply elem_of_app. right. left.
Qed.

Lemma min_element_In (l : list Order) (o : Order) : min_element l = Some o -> o ∈ l.
Proof.
  intros E. destruct (min_element_spec _ _ E) as (l1 & l2 & -> & _).
  apply elem_of_app. right. left.
Qed.

End StaleLevels.

(** X23.  A line of the market-data file never moves the best bid of its
    product down nor its best offer up: the levels of the lines before stay
    in the book, so the best bid of the book handed to the listeners is at or
    above, and its best offer at or below, those of the book the store held;
    the spread the algo execution tests can only narrow. *)
Theorem X23_spread_never_widens
    (tb to : MarketData.Traversal)
    (svc svc0 svc' : MarketData.MarketDataService) (line pid : string)
    (old : MarketData.OrderBook) (calls : list (Callback MarketData.OrderBook))
    (bo : MarketData.BidOffer) :
  MarketData.traversal_ok tb -> MarketData.traversal_ok to ->
  getline_fields line "" !! 1%nat = Some pid ->
  MarketData.GetData svc pid = Some (svc0, old) ->
  GetProductId (MarketData.product old) = pid ->
  MarketData.Subscribe_line tb to svc line = Some (svc', calls) ->
  MarketData.GetBestBidOffer old = Some bo ->
  exists book' bo',
    calls = notify (MarketData.listeners svc) book'
    /\ MarketData.orderBooks svc' !! pid = Some book'
    /\ MarketData.GetBestBidOffer book' = Some bo'
    /\ (MarketData.price (MarketData.bidOrder bo)
        <= MarketData.price (MarketData.bidOrder bo'))%Qc
    /\ (MarketData.price (MarketData.offerOrder bo')
        <= MarketData.price (MarketData.offerOrder bo))%Qc
    /\ (MarketData.price (MarketData.offerOrder bo') - MarketData.price (MarketData.bidOrder bo')
        <= MarketData.price (MarketData.offerOrder bo)
           - MarketData.price (MarketData.bidOrder bo))%Qc.
Proof.
  intros Hb Ho Hpid Hget Hid Hrun Hbest.
  destruct (Subscribe_line_book _ _ _ _ _ _ _ _ _ Hpid Hget Hid Hrun)
    as (nbs & nos & Hcalls & Hstore).
  unfold MarketData.GetBestBidOffer in Hbest.
  destruct (MarketData.max_element (MarketData.bidStack old)) as [bid|] eqn:Ebid; [|done].
  destruct (MarketData.min_element (MarketData.offerStack old)) as [offer|] eqn:Eoff; [|done].
  cbn in Hbest. injection Hbest as <-. cbn [MarketData.bidOrder MarketData.offerOrder].
  apply max_element_In in Ebid. apply min_element_In in Eoff.
  destruct (max_element_above
              (MarketData.aggregated tb MarketData.BID
                 (MarketData.aggMap (MarketData.bidStack old ++ nbs)))
              (MarketData.mkOrder (MarketData.price bid)
                 (long_wrap (depth_at (MarketData.price bid) (MarketData.bidStack old ++ nbs)))
                 MarketData.BID)) as (bid' & Ebid' & Hle1).
  { apply aggregated_spec; [done|]. cbn. split; [done|]. split; [|done].
    exists bid. split; [|done]. apply elem_of_app. by left. }
  destruct (min_element_below
              (MarketData.aggregated to MarketData.OFFER
                 (MarketData.aggMap (MarketData.offerStack old ++ nos)))
              (MarketData.mkOrder (MarketData.price offer)
                 (long_wrap (depth_at (MarketData.price offer)
                               (MarketData.offerStack old ++ nos)))
                 MarketData.OFFER)) as (offer' & Eoff' & Hle2).
  { apply aggregated_spec; [done|]. cbn. split; [done|]. split; [|done].
    exists offer. split; [|done]. apply elem_of_app. by left. }
  cbn in Hle1, Hle2.
  eexists _, (MarketData.mkBidOffer bid' offer').
  split; [exact Hcalls|]. split; [exact Hstore|]. split.
  { unfold MarketData.GetBestBidOffer. cbn [MarketData.bidStack MarketData.offerStack].
    rewrite Ebid', Eoff'. reflexivity. }
  cbn [MarketData.bidOrder MarketData.offerOrder].
  split; [exact Hle1|]. split; [exact Hle2|].
  unfold Qcminus. apply Qcplus_le_compat; [exact Hle2|]. by apply Qcopp_le_compat.
Qed.

Lemma X23_spread_never_widens_witness :
  exists svc' calls book' bo',
    MarketData.Subscribe_line map_to_list map_to_list sample_market sample_depth_line
    = Some (svc', calls)
    /\ MarketData.orderBooks svc' !! "9128283H1"%string = Some book'
    /\ MarketData.GetBestBidOffer book' = Some bo'
    /\ (MarketData.price (MarketData.offerOrder bo') - MarketData.price (MarketData.bidOrder bo')
        <= Q2Qc (100 # 1) - Q2Qc (99 # 1))%Qc.
Proof.
  destruct (MarketData.Subscribe_line map_to_list map_to_list sample_market sample_depth_line)
    as [[svc' calls]|] eqn:E.
  - destruct (X23_spread_never_widens map_to_list map_to_list sample_market sample_market
                svc' sample_depth_line "9128283H1"
                (MarketData.mkOrderBook US2Y
                   [MarketData.mkOrder (Q2Qc (99 # 1)) 1000000 MarketData.BID;
                    MarketData.mkOrder (Q2Qc (99 # 1)) 2000000 MarketData.BID;
                    MarketData.mkOrder (Q2Qc (197 # 2)) 3000000 MarketData.BID]
                   [MarketData.mkOrder (Q2Qc (100 # 1)) 1000000 MarketData.OFFER;
                    MarketData.mkOrder (Q2Qc (100 # 1)) 2000000 MarketData.OFFER])
                calls
                (MarketData.mkBidOffer
                   (MarketData.mkOrder (Q2Qc (99 # 1)) 1000000 MarketData.BID)
                   (MarketData.mkOrder (Q2Qc (100 # 1)) 1000000 MarketData.OFFER))
                (fun m => reflexivity _) (fun m => reflexivity _)
                eq_refl eq_refl eq_refl E eq_refl)
      as (book' & bo' & _ & H2 & H3 & _ & _ & H6).
    exists svc', calls, book', bo'. repeat split; assumption.
  - exfalso. vm_compute in E. discriminate E.
Defined.

(** ** The generated files *)

Section GeneratedBooks.

Import Datagen.

Lemma genOrderBooks_product_lookup product (timestamps : list string) :
  forall st i timestamp,
    timestamps !! i = Some timestamp ->
    genOrderBooks_product product timestamps st !! i
    = Some (book_line timestamp product (Nat.iter i book_loop_next st)).
Proof.
  induction timestamps as [|t rest IH]; intros st i timestamp H; [done|].
  destruct i as [|i]; cbn [genOrderBooks_product].
  - cbn in H. by injection H as ->.
  - cbn in H. cbn [lookup list_lookup]. rewrite (IH _ _ _ H).
    by rewrite Nat.iter_succ_r.
Qed.

(** The loop returns to its first state after six data points. *)
Lemma book_state_cycle (i : nat) :
  Nat.iter i book_loop_next book_loop_start
  = mkBookLoop (Q2Qc (99 # 1)) (i mod 6 <? 3)%nat (Q2Qc (spread_cycle i # 128)).
Proof.
  induction i as [|i IH]; [reflexivity|].
  rewrite Nat.iter_succ, IH. unfold spread_cycle.
  assert (Hs : (S i mod 6 = S (i mod 6) mod 6)%nat).
  { replace (S i) with (1 + i)%nat by lia.
    rewrite <- Nat.Div0.add_mod_idemp_r. reflexivity. }
  rewrite Hs. pose proof (Nat.mod_upper_bound i 6 ltac:(lia)) as Hb.
  destruct (i mod 6)%nat as [|[|[|[|[|[|r]]]]]]; try lia;
    unfold book_loop_next; cbn [midPrice spreadIncreasing fixSpread Nat.ltb Nat.leb Nat.modulo];
    (apply (f_equal2 (fun b s => mkBookLoop (Q2Qc (99 # 1)) b s));
     [by vm_compute | apply Qc_is_canon; by vm_compute]).
Qed.

Local Open Scope string_scope.

Lemma getline_two_fields (timestamp product tail : string) :
  comma_free timestamp -> comma_free product ->
  getline_fields (timestamp ++ "," ++ product ++ String "," tail) ""
  = timestamp :: product :: getline_fields tail "".
Proof.
  intros Ht Hp. rewrite getline_fields_app by done.
  change ("," ++ product ++ String "," tail) with (String "," (product ++ String "," tail)).
  cbn [getline_fields Ascii.eqb Bool.eqb]. rewrite append_nil. f_equal.
  rewrite getline_fields_app by done. cbn [getline_fields Ascii.eqb Bool.eqb].
  by rewrite append_nil.
Qed.

Lemma book_line_levels (timestamp product : string) (st : BookLoop) :
  book_line timestamp product st
  = timestamp ++ "," ++ product
    ++ (level_text st 1 ++ level_text st 2 ++ level_text st 3 ++ level_text st 4
        ++ level_text st 5).
Proof.
  unfold book_line. cbn [foldl]. by rewrite !string_app_assoc.
Qed.

Local Close Scope string_scope.

(** A line written when the spread is c/128, read by the market-data
    connector. *)
Lemma book_line_read_back (timestamp product : string) (inc : bool) (c : Z)
    (book : MarketData.OrderBook) :
  c = 1 \/ c = 2 \/ c = 3 \/ c = 4 ->
  comma_free timestamp -> comma_free product ->
  getline_fields (book_line timestamp product (mkBookLoop (Q2Qc (99 # 1)) inc (Q2Qc (c # 128)))) ""
  !! 0%nat = Some timestamp
  /\ getline_fields
       (book_line timestamp product (mkBookLoop (Q2Qc (99 # 1)) inc (Q2Qc (c # 128)))) ""
     !! 1%nat = Some product
  /\ MarketData.push_levels
       (getline_fields
          (book_line timestamp product (mkBookLoop (Q2Qc (99 # 1)) inc (Q2Qc (c # 128)))) "")
       book 0 5
     = Some (MarketData.mkOrderBook (MarketData.product book)
               (MarketData.bidStack book ++ generated_bids c)
               (MarketData.offerStack book ++ generated_offers c)).
Proof.
  intros Hc Ht Hp. rewrite book_line_levels.
  destruct Hc as [-> | [-> | [-> | ->]]].
  all: match goal with
       | |- context [(?a ++ "," ++ ?b ++ ?T)%string] =>
           let T' := eval vm_compute in T in
           assert (HT : T = T') by (vm_compute; reflexivity); rewrite HT; clear HT
       end.
  all: rewrite getline_two_fields by done.
  all: match goal with
       | |- context [getline_fields ?T ""] =>
           let F := eval vm_compute in (getline_fields T "") in
           assert (HF : getline_fields T "" = F) by (vm_compute; reflexivity);
           rewrite HF; clear HF
       end.
  all: split; [reflexivity|]; split; [reflexivity|].
  all: unfold MarketData.push_levels, MarketData.push_level.
  all: cbn [lookup list_lookup Nat.add Nat.mul mbind option_bind].
  all: repeat match goal with
       | |- context [convertPrice_of_string ?s] =>
           let H := fresh "H" in let q := fresh "q" in
           destruct (convertPrice_of_string s) as [q|] eqn:H;
           vm_compute in H; [injection H as <- | discriminate H]
       end.
  all: cbn [mbind option_bind].
  all: repeat match goal with
       | |- context [stol ?s] =>
           let v := eval vm_compute in (stol s) in
           change (stol s) with v
       end.
  all: cbn [mbind option_bind MarketData.product MarketData.bidStack MarketData.offerStack].
  all: rewrite <- !app_assoc; cbn [app].
  all: unfold generated_bids, generated_offers; cbn [fmap list_fmap].
  all: do 2 f_equal.
  all: repeat f_equal; apply Qc_is_canon; vm_compute; reflexivity.
Qed.

End GeneratedBooks.

(** X24.  [genOrderBooks] keeps the mid price at 99 and lets the spread go
    through 1/128, 2/128, 3/128, 4/128, 3/128, 2/128 and again, whatever the
    random numbers and the number of data points: the line it writes for the
    data point number i (from 0) of a product is read by the market-data
    connector as the time stamp, the product, and five bids at
    99 - c l/256 and five offers at 99 + c l/256 of l million each
    (l = 1..5), c being the i-th term of that cycle; the prices come back
    exactly. *)
Theorem X24_generated_books_read_back
    (product : string) (timestamps : list string) (i : nat) (timestamp : string)
    (book : MarketData.OrderBook) :
  timestamps !! i = Some timestamp ->
  comma_free timestamp -> comma_free product ->
  exists line,
    Datagen.genOrderBooks_product product timestamps Datagen.book_loop_start !! i = Some line
    /\ getline_fields line "" !! 0%nat = Some timestamp
    /\ getline_fields line "" !! 1%nat = Some product
    /\ MarketData.push_levels (getline_fields line "") book 0 5
       = Some (MarketData.mkOrderBook (MarketData.product book)
                 (MarketData.bidStack book ++ generated_bids (spread_cycle i))
                 (MarketData.offerStack book ++ generated_offers (spread_cycle i))).
Proof.
  intros Hi Ht Hp. eexists. split.
  { rewrite (genOrderBooks_product_lookup _ _ _ _ _ Hi), book_state_cycle. reflexivity. }
  apply book_line_read_back; [|done..].
  unfold spread_cycle. destruct (i mod 6)%nat as [|[|[|[|[|r]]]]]; auto.
Qed.

Lemma X24_generated_books_read_back_witness :
  exists line,
    Datagen.genOrderBooks_product "9128283H1"
      ["2026-01-01 00:00:00.001"; "2026-01-01 00:00:00.002"; "2026-01-01 00:00:00.003"]%string
      Datagen.book_loop_start !! 2%nat = Some line
    /\ getline_fields line "" !! 0%nat = Some "2026-01-01 00:00:00.003"%string
    /\ getline_fields line "" !! 1%nat = Some "9128283H1"%string
    /\ MarketData.push_levels (getline_fields line "") MarketData.default_OrderBook 0 5
       = Some (MarketData.mkOrderBook MarketData.default_Bond
                 ([] ++ generated_bids 3) ([] ++ generated_offers 3)).
Proof.
  apply (X24_generated_books_read_back "9128283H1"
           ["2026-01-01 00:00:00.001"; "2026-01-01 00:00:00.002"; "2026-01-01 00:00:00.003"]%string
           2 "2026-01-01 00:00:00.003" MarketData.default_OrderBook);
    reflexivity.
Defined.

